(** * project3-analytics: a shallow embedding of the upload/analysis pipeline

    The development follows the Python sources:
    - [app.py]: [allowed_file], [detect_data_types], [get_basic_analytics],
      [create_charts], [extract_table_from_pdf], [upload_file];
    - [yandex_gpt_module.py], [gigachat_module.py]: [analyze_table_data];
    - [pdf_generator.py]: [PDFReportGenerator], [create_pdf_report].

    Python exceptions are modelled with an error monad ([result]); calls into
    third-party libraries (pandas probes, plotly, reportlab, the remote
    text-generation SDKs) are section variables that may return or raise, so
    every statement holds for all behaviours of those libraries. *)

From Stdlib Require Import Ascii QArith Qround Qpower Lqa.
From stdpp Require Import gmap strings list fin_maps pretty.

Open Scope string_scope.

(** ** Python-level plumbing: exceptions and [try]/[except] *)

Module Py.

(** The exception classes the modelled code can meet. *)
Inductive exn : Type :=
| ValueError (msg : string)
| TypeError (msg : string)
| AttributeError (msg : string)
| KeyError (msg : string)
| LibraryError (msg : string).

Inductive result (A : Type) : Type :=
| Ok (a : A)
| Raise (e : exn).
Arguments Ok {A} a.
Arguments Raise {A} e.

Definition bind {A B} (m : result A) (k : A -> result B) : result B :=
  match m with
  | Ok a => k a
  | Raise e => Raise e
  end.

(** [try: body  except Exception as e: handler e] *)
Definition try_except {A} (body : result A) (handler : exn -> result A)
  : result A :=
  match body with
  | Ok a => Ok a
  | Raise e => handler e
  end.

Definition is_ok {A} (m : result A) : bool :=
  match m with Ok _ => true | Raise _ => false end.

Definition is_value_error {A} (m : result A) : bool :=
  match m with Raise (ValueError _) => true | _ => false end.

End Py.
Export Py.

(** stdpp's monadic notations [x ← m; k] and [m ;; k] are used for
    sequencing statements that may raise. *)
#[global] Instance result_ret : MRet result := @Ok.
#[global] Instance result_bind : MBind result := fun A B k m => Py.bind m k.

(** ** Python [str] operations used by the routing code

    A [string] is the UTF-8 byte sequence of the Python [str].  The
    operations below inspect ASCII bytes, which never occur inside a
    multi-byte sequence; [py_len] and [py_take] count code points, each of
    which is one byte that is not a continuation byte followed by its
    continuation bytes. *)

Module PyStr.

(** [c in s] for a one-character [c]. *)
Fixpoint contains_char (c : ascii) (s : string) : bool :=
  match s with
  | EmptyString => false
  | String d r => Ascii.eqb c d || contains_char c r
  end.

Fixpoint rsplit_last (sep : ascii) (s : string) : option (string * string) :=
  match s with
  | EmptyString => None
  | String c r =>
      match rsplit_last sep r with
      | Some (h, t) => Some (String c h, t)
      | None => if Ascii.eqb c sep then Some (EmptyString, r) else None
      end
  end.

(** [s.rsplit(sep, 1)] *)
Definition rsplit1 (sep : ascii) (s : string) : list string :=
  match rsplit_last sep s with
  | Some (h, t) => [h; t]
  | None => [s]
  end.

Definition lower_char (c : ascii) : ascii :=
  let n := nat_of_ascii c in
  if (65 <=? n)%nat && (n <=? 90)%nat then ascii_of_nat (n + 32) else c.

(** [s.lower()] on the ASCII letters. *)
Fixpoint lower (s : string) : string :=
  match s with
  | EmptyString => EmptyString
  | String c r => String (lower_char c) (lower r)
  end.

(** [s.endswith(suf)] *)
Fixpoint endswith (s suf : string) : bool :=
  String.eqb s suf ||
  match s with
  | EmptyString => false
  | String _ r => endswith r suf
  end.

Fixpoint filter_chars (p : ascii -> bool) (s : string) : string :=
  match s with
  | EmptyString => EmptyString
  | String c r => if p c then String c (filter_chars p r) else filter_chars p r
  end.

Fixpoint map_chars (f : ascii -> ascii) (s : string) : string :=
  match s with
  | EmptyString => EmptyString
  | String c r => String (f c) (map_chars f r)
  end.

Fixpoint lstrip (p : ascii -> bool) (s : string) : string :=
  match s with
  | EmptyString => EmptyString
  | String c r => if p c then lstrip p r else s
  end.

Fixpoint rstrip (p : ascii -> bool) (s : string) : string :=
  match s with
  | EmptyString => EmptyString
  | String c r =>
      match rstrip p r with
      | EmptyString => if p c then EmptyString else String c EmptyString
      | r' => String c r'
      end
  end.

(** [s.strip(chars)] *)
Definition strip (p : ascii -> bool) (s : string) : string :=
  rstrip p (lstrip p s).

Definition is_space (c : ascii) : bool :=
  let n := nat_of_ascii c in
  (n =? 32)%nat || ((9 <=? n)%nat && (n <=? 13)%nat)
  || ((28 <=? n)%nat && (n <=? 31)%nat).

(** [s.split()]: the maximal runs of non-whitespace characters. *)
Fixpoint split_ws_aux (cur : string) (s : string) : list string :=
  match s with
  | EmptyString => if String.eqb cur "" then [] else [cur]
  | String c r =>
      if is_space c
      then ((if String.eqb cur "" then [] else [cur]) ++ split_ws_aux "" r)%list
      else split_ws_aux (cur ++ String c "") r
  end.
Definition split_ws (s : string) : list string := split_ws_aux "" s.

(** [sep.join(parts)] *)
Fixpoint join (sep : string) (parts : list string) : string :=
  match parts with
  | [] => ""
  | [p] => p
  | p :: ps => p ++ sep ++ join sep ps
  end.

(** A byte [10xxxxxx], which continues a multi-byte sequence. *)
Definition is_continuation (c : ascii) : bool :=
  let n := nat_of_ascii c in (128 <=? n)%nat && (n <? 192)%nat.

(** [len(s)] *)
Fixpoint py_len (s : string) : nat :=
  match s with
  | EmptyString => 0%nat
  | String c r => ((if is_continuation c then 0 else 1) + py_len r)%nat
  end.

(** [s[:n]] *)
Fixpoint py_take (n : nat) (s : string) : string :=
  match s with
  | EmptyString => EmptyString
  | String c r =>
      if is_continuation c then String c (py_take n r)
      else match n with
           | O => EmptyString
           | S n' => String c (py_take n' r)
           end
  end.

End PyStr.

(** ** werkzeug's [secure_filename]

    [upload_file] stores the upload under [secure_filename(file.filename)].
    The function is werkzeug's, modelled here for a POSIX host ([os.sep] is
    [/], no [os.path.altsep]).  Its first step, NFKD normalisation followed
    by encoding as ASCII with the rest ignored, leaves an ASCII name as it
    is; on a name with a non-ASCII character it follows the decomposition
    tables of [unicodedata], which stay a parameter. *)

Module Werkzeug.
Import PyStr.

Definition is_ascii (c : ascii) : bool := (nat_of_ascii c <? 128)%nat.

(** the complement of the pattern [[^A-Za-z0-9_.-]] *)
Definition filename_char (c : ascii) : bool :=
  let n := nat_of_ascii c in
  ((65 <=? n)%nat && (n <=? 90)%nat) || ((97 <=? n)%nat && (n <=? 122)%nat)
  || ((48 <=? n)%nat && (n <=? 57)%nat)
  || Ascii.eqb c "_" || Ascii.eqb c "." || Ascii.eqb c "-".

Definition dot_or_underscore (c : ascii) : bool :=
  Ascii.eqb c "." || Ascii.eqb c "_".

Section SecureFilename.
(** [unicodedata.normalize("NFKD", s).encode("ascii", "ignore")
    .decode("ascii")] for a name with a non-ASCII character *)
Variable nfkd_ascii : string -> string.

(** That step for any name. *)
Definition to_ascii (filename : string) : string :=
  if String.eqb (filter_chars is_ascii filename) filename then filename
  else nfkd_ascii filename.

Definition secure_filename (filename : string) : string :=
  let filename := to_ascii filename in
  let filename :=
    map_chars (fun c => if Ascii.eqb c "/" then " "%char else c) filename in
  strip dot_or_underscore
    (filter_chars filename_char (join "_" (split_ws filename))).

End SecureFilename.

End Werkzeug.

(** ** [app.py]: routing of an upload to a reader *)

Module Routing.
Import PyStr.

Definition UPLOAD_FOLDER : string := "uploads".

Definition ALLOWED_EXTENSIONS : gset string :=
  list_to_set ["xlsx"; "xls"; "csv"; "pdf"].

(** [allowed_file]: the [and] short-circuits, so index 1 of the split is
    only taken when the name has a dot. *)
Definition allowed_file (filename : string) : bool :=
  contains_char "." filename &&
  match rsplit1 "." filename !! 1%nat with
  | Some ext => bool_decide (lower ext ∈ ALLOWED_EXTENSIONS)
  | None => false
  end.

(** The three readers [upload_file] can hand the stored file to. *)
Inductive reader : Type :=
| PdfTableExtractor   (* extract_table_from_pdf *)
| CsvReader           (* pd.read_csv *)
| ExcelReader.        (* pd.read_excel *)

#[global] Instance reader_eq_dec : EqDecision reader.
Proof. solve_decision. Defined.

Section Upload.
(** The frame type is whatever the readers produce. *)
Context {DF : Type}.
(** The part of [secure_filename] that is [unicodedata]'s *)
Variable nfkd_ascii : string -> string.
(** [datetime.now().strftime("%Y%m%d_%H%M%S")] *)
Variable now_stamp : string.
(** [os.path.getsize] *)
Variable getsize : string -> Z.
Variable extract_table_from_pdf : string -> result DF.
(** [pd.read_csv(path, encoding=..., nrows=...)] *)
Variable read_csv : string -> string -> option Z -> result DF.
(** [pd.read_excel(path, nrows=...)] *)
Variable read_excel : string -> option Z -> result DF.

Inductive response : Type :=
| JsonError (status : Z) (error : string)
| Loaded (filename : string) (df : DF).

(** [nrows=10000] for a file above 10MB, no limit otherwise. *)
Definition nrows_for (filepath : string) : option Z :=
  if (10 * 1024 * 1024 <? getsize filepath)%Z then Some 10000%Z else None.

(** The [try] block that reads the stored file, with the readers it
    called, in order. *)
Definition read_first (filename filepath : string)
  : list reader * result DF :=
  if endswith filename ".pdf" then
    ([PdfTableExtractor], extract_table_from_pdf filepath)
  else if endswith filename ".csv" then
    ([CsvReader], read_csv filepath "utf-8" (nrows_for filepath))
  else
    ([ExcelReader], read_excel filepath (nrows_for filepath)).

(** The [except Exception as e] handler of that block: a CSV is retried
    as cp1251, then latin-1; anything else re-raises [e]. *)
Definition read_retry (filename filepath : string) (e : exn)
  : list reader * result DF :=
  if endswith filename ".csv" then
    match read_csv filepath "cp1251" (nrows_for filepath) with
    | Ok df => ([CsvReader], Ok df)
    | Raise _ =>
        match read_csv filepath "latin-1" (nrows_for filepath) with
        | Ok df => ([CsvReader; CsvReader], Ok df)
        | Raise _ => ([CsvReader; CsvReader], Raise e)
        end
    end
  else ([], Raise e).

Definition read_uploaded (filename filepath : string)
  : list reader * result DF :=
  match read_first filename filepath with
  | (calls, Ok df) => (calls, Ok df)
  | (calls, Raise e) =>
      let '(calls', r) := read_retry filename filepath e in
      ((calls ++ calls')%list, r)
  end.

Definition str_exn (e : exn) : string :=
  match e with
  | ValueError m | TypeError m | AttributeError m | KeyError m
  | LibraryError m => m
  end.

(** [upload_file], up to the point where the frame is loaded;
    [request_files] maps a form field to the uploaded file's name.
    The result pairs the reader calls made with the response (or the
    loaded frame, which the handler then analyses). *)
Definition upload_file (request_files : gmap string string)
  : list reader * response :=
  match request_files !! "file" with
  | None => ([], JsonError 400 "Файл не выбран")
  | Some file_filename =>
      if String.eqb file_filename "" then
        ([], JsonError 400 "Файл не выбран")
      else if negb (allowed_file file_filename) then
        ([], JsonError 400
           "Неподдерживаемый тип файла. Разрешены: xlsx, xls, csv, pdf")
      else
        let filename := Werkzeug.secure_filename nfkd_ascii file_filename in
        let filename := now_stamp ++ "_" ++ filename in
        let filepath := UPLOAD_FOLDER ++ "/" ++ filename in
        match read_uploaded filename filepath with
        | (calls, Ok df) => (calls, Loaded filename df)
        | (calls, Raise e) =>
            (calls, JsonError 500 ("Ошибка обработки файла: " ++ str_exn e))
        end
  end.

End Upload.

End Routing.

(** ** The pandas data model

    A frame is kept row-major, the way [pd.DataFrame(rows, columns=...)]
    receives it and [to_dict('records')] returns it: a list of column labels
    with their dtypes, and a list of rows.  A cell a row does not reach is
    null, as pandas pads it.  Column labels may repeat, as in pandas. *)

Module Pandas.

Inductive dtype : Type :=
| Int64 | Float64 | Object | Bool | Datetime64
| OtherDtype (name : string).

#[global] Instance dtype_eq_dec : EqDecision dtype.
Proof. solve_decision. Defined.

(** [str(dtype)] *)
Definition dtype_name (d : dtype) : string :=
  match d with
  | Int64 => "int64" | Float64 => "float64" | Object => "object"
  | Bool => "bool" | Datetime64 => "datetime64[ns]"
  | OtherDtype n => n
  end.

(** Non-null cell contents.  A float is kept as the fraction it denotes. *)
Inductive scalar : Type :=
| SStr (s : string)
| SInt (z : Z)
| SFloat (num : Z) (den : positive)
| SBool (b : bool)
| STimestamp (ns : Z).

#[global] Instance scalar_eq_dec : EqDecision scalar.
Proof. solve_decision. Defined.

(** [None] is the null cell: [None], [NaN] or [NaT]. *)
Definition cell : Type := option scalar.

(** A column label: a [str], or [None] (a header cell pdfplumber found
    no text box for). *)
Definition label : Type := option string.

Record Series : Type := mkSeries {
  s_dtype : dtype;
  s_values : list cell
}.

Record DataFrame : Type := mkDataFrame {
  df_columns : list (label * dtype);
  df_data : list (list cell)
}.

(** [df.columns] *)
Definition columns (df : DataFrame) : list label := (df_columns df).*1.

(** [len(df)] and [len(df.columns)] *)
Definition len (df : DataFrame) : nat := length (df_data df).
Definition ncols (df : DataFrame) : nat := length (df_columns df).

Definition cell_at (row : list cell) (j : nat) : cell := mjoin (row !! j).

Definition column_values (df : DataFrame) (j : nat) : list cell :=
  map (fun row => cell_at row j) (df_data df).

(** The positions at which [column] occurs among the labels. *)
Fixpoint positions_from (j : nat) (cols : list (label * dtype))
    (column : label) : list nat :=
  match cols with
  | [] => []
  | (l, _) :: rest =>
      if decide (l = column) then j :: positions_from (S j) rest column
      else positions_from (S j) rest column
  end.
Definition positions (df : DataFrame) (column : label) : list nat :=
  positions_from 0 (df_columns df) column.

Definition dtype_at (df : DataFrame) (j : nat) : dtype :=
  match df_columns df !! j with
  | Some (_, d) => d
  | None => Object
  end.

Definition series_at (df : DataFrame) (j : nat) : Series :=
  mkSeries (dtype_at df j) (column_values df j).

(** The sub-frame made of the columns at positions [js]. *)
Definition take_columns (df : DataFrame) (js : list nat) : DataFrame :=
  mkDataFrame
    (omap (fun j => df_columns df !! j) js)
    (map (fun row => map (cell_at row) js) (df_data df)).

(** What [df[column]] evaluates to: a [Series] when the label occurs once,
    a [DataFrame] of all its occurrences when it repeats. *)
Inductive item : Type :=
| ItemSeries (s : Series)
| ItemFrame (d : DataFrame).

(** [df[column]] *)
Definition getitem (df : DataFrame) (column : label) : result item :=
  match positions df column with
  | [] => Raise (KeyError (default "None" column))
  | [j] => Ok (ItemSeries (series_at df j))
  | js => Ok (ItemFrame (take_columns df js))
  end.

(** [x.dtype]: a [DataFrame] has [dtypes] but no [dtype]. *)
Definition item_dtype (x : item) : result dtype :=
  match x with
  | ItemSeries s => Ok (s_dtype s)
  | ItemFrame _ =>
      Raise (AttributeError "'DataFrame' object has no attribute 'dtype'")
  end.

Definition notnull (c : cell) : bool := bool_decide (is_Some c).
Definition isnull (c : cell) : bool := negb (notnull c).

(** [s.dropna()], as the list of the remaining values *)
Definition dropna (s : Series) : list scalar := omap id (s_values s).

(** [s.head(n)] on that list *)
Definition head {A} (n : nat) (l : list A) : list A := take n l.

(** [s.count()], [s.isnull().sum()], [s.isnull().all()], [s.nunique()] *)
Definition count (s : Series) : nat := length (dropna s).
Definition null_count (s : Series) : nat :=
  length (filter (fun c => isnull c = true) (s_values s)).
Definition isnull_all (s : Series) : bool := forallb isnull (s_values s).
Definition nunique (s : Series) : nat := length (remove_dups (dropna s)).

(** [df.isnull().sum().sum()]: the null cells under the frame's columns. *)
Definition total_nulls (df : DataFrame) : nat :=
  sum_list (map (fun j => null_count (series_at df j)) (seq 0 (ncols df))).

(** [df.dropna(how='all')]: a row stays when one of its cells under the
    frame's columns is not null. *)
Definition row_has_value (n : nat) (row : list cell) : bool :=
  existsb (fun j => notnull (cell_at row j)) (seq 0 n).
Definition dropna_rows (df : DataFrame) : DataFrame :=
  mkDataFrame (df_columns df)
    (filter (fun row => row_has_value (ncols df) row = true) (df_data df)).

(** [df.dropna(axis=1, how='all')] *)
Definition column_has_value (df : DataFrame) (j : nat) : bool :=
  existsb notnull (column_values df j).
Definition kept_columns (df : DataFrame) : list nat :=
  filter (fun j => column_has_value df j = true) (seq 0 (ncols df)).
Definition dropna_columns (df : DataFrame) : DataFrame :=
  take_columns df (kept_columns df).


(** [df.where(pd.notnull(df), None)] *)
Definition where_notnull_none (df : DataFrame) : DataFrame :=
  mkDataFrame (df_columns df)
    (map (fun row =>
            map (fun j => if notnull (cell_at row j) then cell_at row j
                          else None) (seq 0 (ncols df)))
       (df_data df)).

(** [df[column] = s] for a label that occurs in the frame: the column takes
    the dtype of [s], and row [i] the value [s] has at [i] (assignment
    aligns on the index, so a missing position is null). *)
Definition set_cell (row : list cell) (j : nat) (c : cell) : list cell :=
  <[j := c]> (row ++ replicate (S j - length row) None)%list.
Definition setitem (df : DataFrame) (column : label) (s : Series)
  : DataFrame :=
  let js := positions df column in
  mkDataFrame
    (imap (fun j '(l, d) => if decide (j ∈ js) then (l, s_dtype s)
                            else (l, d)) (df_columns df))
    (imap (fun i row =>
             foldl (fun r j => set_cell r j (mjoin (s_values s !! i))) row js)
       (df_data df)).

(** [pd.DataFrame(data_rows, columns=headers)] on cells that are [str] or
    [None]: every column is [object]; short rows are padded; a header count
    that differs from the width of the data is refused. *)
Definition data_width (rows : list (list (option string))) : nat :=
  foldr (fun r w => max (length r) w) 0%nat rows.

Definition DataFrame_of_rows (data_rows : list (list (option string)))
    (headers : list (option string)) : result DataFrame :=
  if decide (data_width data_rows = length headers) then
    Ok (mkDataFrame (map (fun h => (h, Object)) headers)
          (map (map (fmap SStr)) data_rows))
  else
    Raise (ValueError "columns passed do not match the width of the data").

End Pandas.

(** ** [app.py]: column-type inference *)

Module TypeInference.
Import Pandas.

(** The labels the inference hands out. *)
Definition type_labels : list string := ["numeric"; "datetime"; "text"].

Section Detect.
(** [pd.to_datetime(x)] and [pd.to_numeric(x)] on one value: the code
    discards what they return and keeps whether they raised. *)
Variable to_datetime : scalar -> result unit.
Variable to_numeric : scalar -> result unit.

(** The body shared by the two [try] blocks:
    [sample_values = df[column].dropna().head(3)], then the probe of
    [sample_values.iloc[0]] when there is a sample. *)
Definition probe_sample (probe : scalar -> result unit) (hit : string)
    (s : Series) : result string :=
  let sample_values := head 3 (dropna s) in
  if decide (0 < length sample_values)%nat then
    match sample_values !! 0%nat with
    | Some v => probe v ;; Ok hit
    | None => Raise (LibraryError "single positional indexer is out-of-bounds")
    end
  else Ok "text".

(** One iteration of the loop of [detect_data_types], for the value of
    [df[column]].  The first test reads [.dtype] outside of any [try]. *)
Definition detect_column (x : item) : result string :=
  d ← item_dtype x;
  if decide (d ∈ [Int64; Float64]) then Ok "numeric"
  else if decide (d = Object) then
    match x with
    | ItemSeries s =>
        try_except (probe_sample to_datetime "datetime" s)
          (fun _ =>
             try_except (probe_sample to_numeric "numeric" s)
               (fun _ => Ok "text"))
    | ItemFrame _ => Ok "text"
    end
  else Ok "text".

Fixpoint detect_loop (df : DataFrame) (cols : list label)
    (data_types : gmap label string) : result (gmap label string) :=
  match cols with
  | [] => Ok data_types
  | column :: rest =>
      x ← getitem df column;
      t ← detect_column x;
      detect_loop df rest (<[column := t]> data_types)
  end.

Definition detect_data_types (df : DataFrame)
  : result (gmap label string) :=
  detect_loop df (columns df) ∅.

End Detect.

End TypeInference.

(** ** [app.py]: descriptive statistics *)

Module Analytics.
Import Pandas.

(** A float result.  A finite float64 is kept as the rational it denotes;
    a numpy division by zero does not raise, it yields [nan] or an
    infinity. *)
Inductive npfloat : Type :=
| Finite (q : Q)
| PosInf
| NegInf
| NaN.

(** Rounding to the nearest integer, a tie going to the even one
    ([np.rint]). *)
Definition round_half_even (q : Q) : Z :=
  let f := Qfloor q in
  match (q - inject_Z f ?= 1 # 2)%Q with
  | Lt => f
  | Gt => (f + 1)%Z
  | Eq => if Z.even f then f else (f + 1)%Z
  end.

(** The binary exponent of a positive rational: [2^e <= q < 2^(e+1)]. *)
Definition ilog2 (q : Q) : Z :=
  if Qle_bool 1 q then Z.log2 (Qfloor q)
  else (- Z.log2_up (Qceiling (/ q)))%Z.

(** The float64 nearest to a rational, a tie going to the even mantissa:
    53 bits of mantissa from exponent -1022 on, the same grid below it.
    Every operation on floats is the exact operation followed by this
    rounding.  Overflow is left out: the values rounded here come from
    counts below 2^63. *)
Definition binary64_pos (q : Q) : Q :=
  let e := Z.max (ilog2 q) (-1022) in
  let ulp := (2 ^ (e - 52))%Q in
  (inject_Z (round_half_even (q / ulp)) * ulp)%Q.

Definition binary64 (q : Q) : Q :=
  Qred match (q ?= 0)%Q with
       | Eq => 0%Q
       | Gt => binary64_pos q
       | Lt => (- binary64_pos (- q))%Q
       end.

(** [a / b] for a numpy integer [a]: both are converted to float64, then
    divided. *)
Definition true_divide (a b : Z) : npfloat :=
  if (b =? 0)%Z then
    (if (a =? 0)%Z then NaN else if (0 <? a)%Z then PosInf else NegInf)
  else Finite (binary64 (binary64 (inject_Z a) / binary64 (inject_Z b))).

(** [1 - x] *)
Definition one_minus (x : npfloat) : npfloat :=
  match x with
  | Finite q => Finite (binary64 (1 - q))
  | PosInf => NegInf
  | NegInf => PosInf
  | NaN => NaN
  end.

(** [x * 100] *)
Definition times_100 (x : npfloat) : npfloat :=
  match x with
  | Finite q => Finite (binary64 (q * 100))
  | other => other
  end.

(** [round(x, 2)] of a numpy float: [np.rint(x * 100) / 100], each step in
    float64. *)
Definition round2 (x : npfloat) : npfloat :=
  match x with
  | Finite q =>
      Finite (binary64
                (inject_Z (round_half_even (binary64 (q * 100))) / 100))
  | other => other
  end.

(** Values stored in the per-column dictionaries. *)
Inductive value : Type :=
| VInt (z : Z)
| VFloat (x : npfloat)
| VStr (s : string)
| VCounts (m : gmap string Z).

(** [d.update({k: v, ...})], the pairs in the order they are written. *)
Definition update {V} (d : gmap string V) (kvs : list (string * V))
  : gmap string V :=
  foldl (fun d kv => <[kv.1 := kv.2]> d) d kvs.

Record summary : Type := mkSummary {
  numeric_columns : Z;
  text_columns : Z;
  total_missing_values : Z;
  completeness_percentage : npfloat
}.

Record analytics : Type := mkAnalytics {
  total_rows : Z;
  total_columns : Z;
  columns_info : gmap label (gmap string value);
  summary_stats : summary
}.

Definition zero : npfloat := Finite 0.

(** The keys of the descriptive statistics of a numeric column. *)
Definition stat_keys : list string :=
  ["sum"; "mean"; "min"; "max"; "median"; "std"].

(** [0 <= x <= 100] for a float result. *)
Definition percentage (x : npfloat) : Prop :=
  exists q, x = Finite q /\ (0 <= q <= 100)%Q.

Definition is_numeric_dtype (d : dtype) : bool :=
  bool_decide (d ∈ [Int64; Float64]).
Definition is_object_dtype (d : dtype) : bool := bool_decide (d = Object).

(** [[col for col in df.columns if test(df[col].dtype)]] *)
Fixpoint columns_where (df : DataFrame) (test : dtype -> bool)
    (cols : list label) : result (list label) :=
  match cols with
  | [] => Ok []
  | col :: rest =>
      x ← getitem df col;
      d ← item_dtype x;
      selected ← columns_where df test rest;
      Ok (if test d then col :: selected else selected)
  end.

Section Describe.
(** [float(s.sum())], [float(s.mean())], ... of pandas, on a column *)
Variables series_sum series_mean series_min series_max series_median
  series_std : Series -> result npfloat.
(** [s.value_counts()], most frequent first *)
Variable value_counts : Series -> result (list (scalar * Z)).
(** [str(k)] of a cell value *)
Variable str_scalar : scalar -> string.

(** [float(stat) if not s.isnull().all() else 0.0] *)
Definition stat_or_zero (stat : Series -> result npfloat) (s : Series)
  : result npfloat :=
  if negb (isnull_all s) then stat s else Ok zero.

(** The dictionary literal passed to [col_info.update] in the [try]. *)
Definition numeric_stats (s : Series) : result (list (string * value)) :=
  v_sum ← stat_or_zero series_sum s;
  v_mean ← stat_or_zero series_mean s;
  v_min ← stat_or_zero series_min s;
  v_max ← stat_or_zero series_max s;
  v_median ← stat_or_zero series_median s;
  v_std ← stat_or_zero series_std s;
  Ok [("sum", VFloat v_sum); ("mean", VFloat v_mean);
      ("min", VFloat v_min); ("max", VFloat v_max);
      ("median", VFloat v_median); ("std", VFloat v_std)].

(** The one of the [except] branch. *)
Definition zero_stats : list (string * value) :=
  [("sum", VFloat zero); ("mean", VFloat zero); ("min", VFloat zero);
   ("max", VFloat zero); ("median", VFloat zero); ("std", VFloat zero)].

Definition text_stats (s : Series) : result (list (string * value)) :=
  counts ← value_counts s;
  let top_values := head 5 counts in
  Ok [("top_values",
       VCounts (update ∅ (map (fun kv => (str_scalar kv.1, kv.2))
                            top_values)));
      ("unique_values_count", VInt (Z.of_nat (nunique s)))].

Definition empty_text_stats : list (string * value) :=
  [("top_values", VCounts ∅); ("unique_values_count", VInt 0)].

(** [round((s.count() / len(df)) * 100, 2)] *)
Definition completeness (df : DataFrame) (s : Series) : npfloat :=
  round2 (times_100
            (true_divide (Z.of_nat (count s)) (Z.of_nat (len df)))).

(** The body of the loop over [df.columns], for the value of
    [df[column]]. *)
Definition column_info (df : DataFrame) (x : item)
  : result (gmap string value) :=
  d ← item_dtype x;
  match x with
  | ItemFrame _ =>
      Raise (AttributeError "'DataFrame' object has no attribute 'count'")
  | ItemSeries s =>
      let col_info :=
        update ∅
          [("dtype", VStr (dtype_name d));
           ("non_null_count", VInt (Z.of_nat (count s)));
           ("null_count", VInt (Z.of_nat (null_count s)));
           ("unique_count", VInt (Z.of_nat (nunique s)));
           ("completeness", VFloat (completeness df s))] in
      if is_numeric_dtype d then
        Ok (update col_info
              (match numeric_stats s with
               | Ok stats => stats
               | Raise _ => zero_stats
               end))
      else if is_object_dtype d then
        Ok (update col_info
              (match text_stats s with
               | Ok stats => stats
               | Raise _ => empty_text_stats
               end))
      else Ok col_info
  end.

Fixpoint info_loop (df : DataFrame) (cols : list label)
    (info : gmap label (gmap string value))
  : result (gmap label (gmap string value)) :=
  match cols with
  | [] => Ok info
  | column :: rest =>
      x ← getitem df column;
      col_info ← column_info df x;
      info_loop df rest (<[column := col_info]> info)
  end.

(** [round((1 - nulls / (len(df) * len(df.columns))) * 100, 2)] *)
Definition frame_completeness (df : DataFrame) : npfloat :=
  round2 (times_100 (one_minus
    (true_divide (Z.of_nat (total_nulls df))
       (Z.of_nat (len df) * Z.of_nat (ncols df))))).

Definition get_basic_analytics (df : DataFrame) : result analytics :=
  numeric ← columns_where df is_numeric_dtype (columns df);
  text ← columns_where df is_object_dtype (columns df);
  let stats :=
    mkSummary (Z.of_nat (length numeric)) (Z.of_nat (length text))
      (Z.of_nat (total_nulls df)) (frame_completeness df) in
  info ← info_loop df (columns df) ∅;
  Ok (mkAnalytics (Z.of_nat (len df)) (Z.of_nat (ncols df)) info stats).

End Describe.

End Analytics.

(** ** [app.py]: the two fixed charts *)

Module Charts.
Import Pandas Analytics.

(** What is handed to plotly: the trace with its axes and the title. *)
Inductive figure : Type :=
| BarFigure (x : list string) (y : list Z) (title : string)
| ScatterFigure (x : list string) (y : list npfloat) (title : string).

(** An entry of the list [create_charts] returns. *)
Record chart : Type := mkChart {
  chart_type : string;
  chart_title : string;
  chart_data : string
}.

Definition bar_title : string :=
  "Топ 10 марок автомобилей по количеству продаж".
Definition line_title : string := "Общая сумма продаж по годам".

(** [[col for col, dtype in data_types.items() if dtype == kind]] *)
Definition columns_of_kind (data_types : gmap label string) (kind : string)
  : list label :=
  (filter (fun kv => kv.2 = kind) (map_to_list data_types)).*1.

Section CreateCharts.
(** [df.groupby(key).size()]: one count per group *)
Variable groupby_size : DataFrame -> label -> result (list (scalar * Z)).
(** [df.groupby(key)[col].sum().sort_index()] *)
Variable groupby_sum :
  DataFrame -> label -> label -> result (list (scalar * scalar)).
(** [str(x)] and [float(y)] on group keys and sums *)
Variable str_scalar : scalar -> string.
Variable float_scalar : scalar -> result npfloat.
(** [go.Figure(...)], [update_layout] and
    [json.dumps(fig, cls=PlotlyJSONEncoder)] *)
Variable plotly_json : figure -> result string.

Fixpoint floats_of (ys : list scalar) : result (list npfloat) :=
  match ys with
  | [] => Ok []
  | y :: rest => v ← float_scalar y; vs ← floats_of rest; Ok (v :: vs)
  end.

(** The body of the first [try]: the chart to append, if any. *)
Definition bar_chart (df : DataFrame) : result (option chart) :=
  sizes ← groupby_size df (Some "make");
  let grouped_data := head 10 sizes in
  if decide (0 < length grouped_data)%nat then
    let x_values := map (fun g => str_scalar g.1) grouped_data in
    let y_values := map snd grouped_data in
    data ← plotly_json (BarFigure x_values y_values bar_title);
    Ok (Some (mkChart "bar" bar_title data))
  else Ok None.

(** The body of the second [try]. *)
Definition line_chart (df : DataFrame) : result (option chart) :=
  grouped_data ← groupby_sum df (Some "year") (Some "sellingprice");
  if decide (1 < length grouped_data)%nat then
    let x_values := map (fun g => str_scalar g.1) grouped_data in
    y_values ← floats_of (map snd grouped_data);
    data ← plotly_json (ScatterFigure x_values y_values line_title);
    Ok (Some (mkChart "line" line_title data))
  else Ok None.

(** [try: ... charts.append(c) ... except Exception: log] *)
Definition append_guarded (charts : list chart)
    (body : result (option chart)) : list chart :=
  match body with
  | Ok (Some c) => (charts ++ [c])%list
  | Ok None => charts
  | Raise _ => charts
  end.

Definition create_charts (df : DataFrame) (data_types : gmap label string)
  : result (list chart) :=
  let charts := [] in
  let numeric_columns := columns_of_kind data_types "numeric" in
  let text_columns := columns_of_kind data_types "text" in
  let charts :=
    if bool_decide (Some "make" ∈ text_columns)
       && bool_decide (0 < length numeric_columns)%nat
    then append_guarded charts (bar_chart df)
    else charts in
  let charts :=
    if bool_decide (Some "year" ∈ numeric_columns)
       && bool_decide (Some "sellingprice" ∈ numeric_columns)
    then append_guarded charts (line_chart df)
    else charts in
  Ok charts.

End CreateCharts.

End Charts.

(** ** [app.py]: the first table of a PDF *)

Module PdfTable.
Import Pandas.

(** What pdfplumber exposes: the pages of the document, and per page the
    tables [extract_tables()] finds, each a list of rows of cells that are
    a [str] or [None]. *)
Definition table : Type := list (list (option string)).
Record page : Type := mkPage { extract_tables : list table }.
Record pdf : Type := mkPdf { pages : list page }.

Definition no_pages_msg : string := "PDF файл не содержит страниц".
Definition no_tables_msg : string :=
  "На первой странице PDF не найдено таблиц".
Definition empty_table_msg : string := "Первая таблица в PDF пуста".
Definition short_table_msg : string :=
  "Таблица должна содержать как минимум заголовки и одну строку данных".

(** A table row with a cell that is not [None]. *)
Definition has_text (r : list (option string)) : bool :=
  existsb (fun c => bool_decide (is_Some c)) r.

(** Every row is as wide as the header row, which is how pdfplumber lays a
    table out: one cell per column of the grid, [None] where the grid has
    no cell. *)
Definition rectangular (headers : list (option string))
    (data_rows : list (list (option string))) : Prop :=
  Forall (fun r => length r = length headers) data_rows.

(** The table read as a frame, in the table's own terms: the columns are
    the header cells under which some data row has text, in the order of
    the header row and all of dtype [object]; the rows are the data rows
    with text, in the order of the table, each cut down to those columns. *)
Definition has_text_at (data_rows : list (list (option string))) (j : nat)
  : bool :=
  existsb (fun r => bool_decide (is_Some (mjoin (r !! j)))) data_rows.
Definition text_columns (headers : list (option string))
    (data_rows : list (list (option string))) : list nat :=
  filter (fun j => has_text_at data_rows j = true) (seq 0 (length headers)).
Definition text_rows (data_rows : list (list (option string)))
  : list (list (option string)) :=
  filter (fun r => has_text r = true) data_rows.
Definition table_frame (headers : list (option string))
    (data_rows : list (list (option string))) : DataFrame :=
  let js := text_columns headers data_rows in
  mkDataFrame
    (map (fun h => (h, Object)) (omap (fun j => headers !! j) js))
    (map (fun r => map (fun j => SStr <$> mjoin (r !! j)) js)
       (text_rows data_rows)).

Section Extract.
(** [pdfplumber.open(filepath)] *)
Variable pdfplumber_open : string -> result pdf.
(** [pd.to_numeric(s, errors='coerce')] and
    [pd.to_datetime(s, errors='coerce')] on a [Series] *)
Variable to_numeric_coerce : Series -> result Series.
Variable to_datetime_coerce : Series -> result Series.

(** Given a [DataFrame] (a repeated label), [to_numeric] refuses its
    argument, and [to_datetime] tries to assemble dates from columns
    named year, month and day, which columns sharing one label cannot
    supply. *)
Definition pd_to_numeric (x : item) : result Series :=
  match x with
  | ItemSeries s => to_numeric_coerce s
  | ItemFrame _ =>
      Raise (TypeError "arg must be a list, tuple, 1-d array, or Series")
  end.
Definition pd_to_datetime (x : item) : result Series :=
  match x with
  | ItemSeries s => to_datetime_coerce s
  | ItemFrame _ =>
      Raise (ValueError "to assemble mappings requires at least that [year, month, day] be specified")
  end.

(** [try: df[column] = convert(df[column])  except: pass] *)
Definition coerce_step (convert : item -> result Series)
    (df : DataFrame) (column : label) : DataFrame :=
  match (x ← getitem df column; s ← convert x;
         Ok (setitem df column s)) with
  | Ok df' => df'
  | Raise _ => df
  end.

Definition coerce_column (df : DataFrame) (column : label) : DataFrame :=
  coerce_step pd_to_datetime (coerce_step pd_to_numeric df column) column.

(** The loop [for column in df.columns]. *)
Definition coerce_types (df : DataFrame) : DataFrame :=
  foldl coerce_column df (columns df).

(** The three cleaning steps before the loop. *)
Definition clean (df : DataFrame) : DataFrame :=
  where_notnull_none (dropna_columns (dropna_rows df)).

(** The body of the [with pdfplumber.open(filepath) as pdf] block. *)
Definition extract_table (doc : pdf) : result DataFrame :=
  match pages doc with
  | [] => Raise (ValueError no_pages_msg)
  | first_page :: _ =>
      match extract_tables first_page with
      | [] => Raise (ValueError no_tables_msg)
      | table :: _ =>
          match table with
          | [] => Raise (ValueError empty_table_msg)
          | [_] => Raise (ValueError short_table_msg)
          | headers :: data_rows =>
              df ← DataFrame_of_rows data_rows headers;
              Ok (coerce_types (clean df))
          end
      end
  end.

(** [except Exception as e: logger.error(...); raise e] *)
Definition extract_table_from_pdf (filepath : string) : result DataFrame :=
  try_except (doc ← pdfplumber_open filepath; extract_table doc)
    (fun e => Raise e).

End Extract.

End PdfTable.

(** ** [yandex_gpt_module.py], [gigachat_module.py]: the remote analysers *)

Module RemoteAnalysis.
Import Pandas.

(** A row of [table_data]: the items of a dict from a column label to a
    cell, in order ([df.to_dict('records')]). *)
Definition row : Type := list (label * cell).

(** The values of the result dictionaries. *)
Inductive field : Type :=
| FBool (b : bool)
| FStr (s : string).

Definition nl : string := String (ascii_of_nat 10) "".
Definition dquote : string := String (ascii_of_nat 34) "".

(** [row.get(header, default)] *)
Fixpoint row_get (r : row) (header : label) : option cell :=
  match r with
  | [] => None
  | (k, v) :: rest => if decide (k = header) then Some v else row_get rest header
  end.

Section Str.
(** [str(x)] of a cell value that is not a [str] *)
Variable str_scalar : scalar -> string.

Definition str_label (l : label) : string := default "None" l.
Definition str_cell (c : cell) : string :=
  match c with
  | None => "None"
  | Some (SStr s) => s
  | Some v => str_scalar v
  end.
End Str.

(** The success and failure dictionaries both wrappers return. *)
Definition success_dict (analysis model filename : string)
  : gmap string field :=
  <["filename" := FStr filename]>
    (<["model" := FStr model]>
       (<["analysis" := FStr analysis]> {["success" := FBool true]})).

Definition failure_dict (error : string) : gmap string field :=
  <["error" := FStr error]> {["success" := FBool false]}.

(** The two shapes of a result: success with the analysis, the model and
    the file name, or failure with an error text. *)
Definition success_shape (d : gmap string field) (filename : string) : Prop :=
  d !! "success" = Some (FBool true)
  /\ dom d = list_to_set ["success"; "analysis"; "model"; "filename"]
  /\ (exists text, d !! "analysis" = Some (FStr text))
  /\ (exists model, d !! "model" = Some (FStr model))
  /\ d !! "filename" = Some (FStr filename).

Definition failure_shape (d : gmap string field) : Prop :=
  d !! "success" = Some (FBool false)
  /\ dom d = list_to_set ["success"; "error"]
  /\ exists error, d !! "error" = Some (FStr error).


Module Yandex.

(** One element of [result.alternatives]: [message.text] when both
    attributes exist, [text] when that one does, and [str(alternative)]. *)
Record alternative : Type := mkAlternative {
  alt_message_text : option string;
  alt_text : option string;
  alt_str : string
}.

(** What [operation.wait()] returns. *)
Inductive completion : Type :=
| Falsy                                   (* [None], or a falsy object *)
| NoAlternativesAttr                      (* no attribute [alternatives] *)
| Alternatives (alts : list alternative).

Definition system_prompt : string :=
  "Ты - аналитическая система с большим опытом. Твоя задача - анализировать табличные данные, делать выводы и находить аномалии или интересные тенденции.

Проанализируй предоставленные данные и дай развернутый ответ, включающий:
1. Общую характеристику данных
2. Выявленные паттерны и тренды
3. Аномалии или необычные значения
4. Практические выводы и рекомендации
5. Потенциальные области для дальнейшего исследования

Отвечай на русском языке, структурированно и профессионально.".

Section Analyzer.
Variable str_scalar : scalar -> string.
(** [self.model.configure(temperature=0.3).run_deferred(messages)]
    followed by [operation.wait()]; a message is a role with a text. *)
Variable run_and_wait : list (string * string) -> result completion.

(** [f"{i:2d}"] *)
Definition fmt_2d (i : nat) : string :=
  if decide (i < 10)%nat then " " ++ pretty i else pretty i.

(** The cell as it is printed: a [str] longer than 50 characters is cut
    to its first 47 and an ellipsis. *)
Definition shown (value : cell) : string :=
  match value with
  | Some (SStr v) =>
      if decide (50 < PyStr.py_len v)%nat
      then PyStr.py_take 47 v ++ "..."
      else v
  | other => str_cell str_scalar other
  end.

Definition data_line (headers : list label) (i : nat) (r : row)
  : string :=
  let row_values :=
    map (fun header => shown (default (Some (SStr "")) (row_get r header)))
      headers in
  fmt_2d i ++ ". " ++ String.concat " | " row_values.

(** [_prepare_data_for_analysis] *)
Definition prepare_data_for_analysis (table_data : list row) : string :=
  match table_data with
  | [] => "Данные отсутствуют"
  | first :: _ =>
      let headers := first.*1 in
      let header_line := String.concat " | " (map str_label headers) in
      let separator :=
        String.string_of_list_ascii
          (replicate (PyStr.py_len header_line) "-"%char) in
      let data_lines :=
        imap (fun i r => data_line headers (S i) r)
          (head 15 table_data) in
      "Заголовки: " ++ header_line ++ nl
      ++ "Разделитель: " ++ separator ++ nl
      ++ "Данные:" ++ nl
      ++ String.concat nl data_lines
  end.

Definition user_prompt (filename data_text : string) : string :=
  "Вот первые 15 строк таблицы из файла " ++ dquote ++ filename
  ++ dquote ++ ":" ++ nl ++ nl ++ data_text ++ nl ++ nl
  ++ "Пожалуйста, проанализируй эти данные и дай развернутый аналитический отчет.".

Definition analysis_text_of (a : alternative) : string :=
  match alt_message_text a with
  | Some t => t
  | None =>
      match alt_text a with
      | Some t => t
      | None => alt_str a
      end
  end.

(** The [try] block of [analyze_table_data]. *)
Definition analyze_body (table_data : list row) (filename : string)
  : result (gmap string field) :=
  let data_text := prepare_data_for_analysis table_data in
  let messages :=
    [("system", system_prompt);
     ("user", user_prompt filename data_text)] in
  res ← run_and_wait messages;
  match res with
  | Alternatives (alternative :: _) =>
      Ok (success_dict (analysis_text_of alternative) "yandexgpt"
            filename)
  | _ => Ok (failure_dict "Получен пустой ответ от нейросети")
  end.

Definition analyze_table_data (table_data : list row)
    (filename : string) : result (gmap string field) :=
  try_except (analyze_body table_data filename)
    (fun e => Ok (failure_dict
                    ("Ошибка анализа: " ++ Routing.str_exn e))).

End Analyzer.

End Yandex.

Module GigaChat.

(** One element of [response.choices]: [message.content] when both
    attributes exist, and [str(choice)]. *)
Record choice : Type := mkChoice {
  choice_message_content : option string;
  choice_str : string
}.

(** What [client.chat] returns. *)
Inductive response : Type :=
| Falsy
| NoChoicesAttr
| Choices (choices : list choice).

Definition system_prompt : string :=
  "Ты - аналитическая система с большим опытом. "
  ++ "Твоя задача - анализировать табличные данные, делать выводы и находить аномалии или интересные тенденции. "
  ++ "Отвечай на русском языке. Будь конкретным и полезным в своих выводах.".

Section Analyzer.
Variable str_scalar : scalar -> string.
(** [self.client.chat(full_prompt)] *)
Variable chat : string -> result response.

(** [', '.join(columns)]: [str.join] refuses an item that is not a
    [str]. *)
Fixpoint join_labels (columns : list label) : result (list string) :=
  match columns with
  | [] => Ok []
  | Some c :: rest => cs ← join_labels rest; Ok (c :: cs)
  | None :: _ =>
      Raise (TypeError "sequence item: expected str instance, NoneType found")
  end.

(** [value] after [if value is None or value == '': value = 'пусто'] *)
Definition or_empty (value : cell) : string :=
  match value with
  | None => "пусто"
  | Some (SStr "") => "пусто"
  | other => str_cell str_scalar other
  end.

Definition row_line (i : nat) (r : row) : string :=
  "Строка " ++ pretty i ++ ": "
  ++ String.concat ", "
       (map (fun kv => str_label kv.1 ++ "=" ++ or_empty kv.2) r)
  ++ nl.

Definition data_text (table_data : list row) (filename : string)
  : result string :=
  let intro :=
    "Вот первые 15 строк таблицы из файла " ++ filename ++ ":"
    ++ nl ++ nl in
  match table_data with
  | [] => Ok (intro ++ "Данные отсутствуют")
  | first :: _ =>
      columns ← join_labels first.*1;
      Ok (intro ++ "Столбцы: " ++ String.concat ", " columns ++ nl ++ nl
          ++ String.concat "" (imap (fun i r => row_line (S i) r)
                                 table_data))
  end.

Definition analysis_text_of (c : choice) : string :=
  default (choice_str c) (choice_message_content c).

(** The [try] block of [analyze_table_data]. *)
Definition analyze_body (table_data : list row) (filename : string)
  : result (gmap string field) :=
  text ← data_text table_data filename;
  let full_prompt := system_prompt ++ nl ++ nl ++ text in
  res ← chat full_prompt;
  match res with
  | Choices (choice :: _) =>
      Ok (success_dict (analysis_text_of choice) "gigachat" filename)
  | _ => Ok (failure_dict "GigaChat вернул пустой ответ")
  end.

Definition analyze_table_data (table_data : list row)
    (filename : string) : result (gmap string field) :=
  try_except (analyze_body table_data filename)
    (fun e => Ok (failure_dict
                    ("Ошибка анализа данных через GigaChat: "
                     ++ Routing.str_exn e))).

End Analyzer.

End GigaChat.

End RemoteAnalysis.

(** ** [pdf_generator.py]: the report generator *)

Module PdfReport.
Import Analytics.

(** The values a report-data dictionary holds. *)
#[local] Unset Elimination Schemes.
Inductive pyvalue : Type :=
| PNone
| PBool (b : bool)
| PInt (z : Z)
| PFloat (x : npfloat)
| PStr (s : string)
| PList (items : list pyvalue)
| PDict (items : list (string * pyvalue)).
#[local] Set Elimination Schemes.

(** Truth value of an object in an [if]. *)
Definition truthy (v : pyvalue) : bool :=
  match v with
  | PNone => false
  | PBool b => b
  | PInt z => negb (z =? 0)%Z
  | PFloat (Finite q) => negb (Qeq_bool q 0)
  | PFloat _ => true
  | PStr s => negb (String.eqb s "")
  | PList items => negb (bool_decide (length items = 0%nat))
  | PDict items => negb (bool_decide (length items = 0%nat))
  end.

Fixpoint lookup_key (items : list (string * pyvalue)) (key : string)
  : option pyvalue :=
  match items with
  | [] => None
  | (k, v) :: rest => if String.eqb k key then Some v else lookup_key rest key
  end.

(** [d.get(key, default)] on a dict *)
Definition dict_get (d : list (string * pyvalue)) (key : string)
    (default_value : pyvalue) : pyvalue :=
  default default_value (lookup_key d key).

(** [d[key]] on a dict *)
Definition dict_item (d : list (string * pyvalue)) (key : string)
  : result pyvalue :=
  match lookup_key d key with
  | Some v => Ok v
  | None => Raise (KeyError key)
  end.

(** [x.get(key, default)] on any object: only a dict has [get]. *)
Definition py_get (x : pyvalue) (key : string) (default_value : pyvalue)
  : result pyvalue :=
  match x with
  | PDict d => Ok (dict_get d key default_value)
  | _ => Raise (AttributeError "object has no attribute 'get'")
  end.

(** [x[key]] on any object, for a [str] key *)
Definition py_item (x : pyvalue) (key : string) : result pyvalue :=
  match x with
  | PDict d => dict_item d key
  | _ => Raise (TypeError "object is not subscriptable by a str")
  end.

Inductive flowable : Type :=
| Paragraph (text style : string)
| Spacer (width height : Z)
| HRFlowable (thickness : Z)
| Other (description : string).

(** The generator object: the names in its style sheet and its font. *)
Record generator : Type := mkGenerator {
  styles : gset string;
  font_name : string
}.

(** [styles[name]] and [styles.add(ParagraphStyle(name=..., parent=...))]:
    reportlab's [StyleSheet1] raises [KeyError] for an unknown name in the
    first and for a name already defined in the second. *)
Definition style_of (sheet : gset string) (name : string) : result string :=
  if decide (name ∈ sheet) then Ok name
  else Raise (KeyError ("Style '" ++ name ++ "' not found in stylesheet")).

Definition add_style (sheet : gset string) (name parent : string)
  : result (gset string) :=
  style_of sheet parent ;;
  if decide (name ∈ sheet)
  then Raise (KeyError ("Style '" ++ name ++ "' already defined in stylesheet"))
  else Ok ({[name]} ∪ sheet).

Section Generator.
(** [getSampleStyleSheet()], as the set of its style names *)
Variable sample_styles : gset string.
(** [os.name == 'nt'], [os.path.exists] and
    [pdfmetrics.registerFont(TTFont('CustomFont', path))] *)
Variable os_is_nt : bool.
Variable path_exists : string -> bool.
Variable register_font : string -> result unit.
(** [datetime.now().strftime('%d.%m.%Y %H:%M')] *)
Variable now_text : string.
(** [str(x)] in an f-string, and [format(x, ',')] of a number *)
Variable str_value : pyvalue -> string.
Variable comma_number : pyvalue -> string.
(** [SimpleDocTemplate(output_path, ...)], [Paragraph(text, style)] (which
    parses the markup of [text]) and [doc.build(story)] *)
Variable simple_doc_template : string -> result unit.
Variable paragraph : string -> string -> result flowable.
Variable doc_build : string -> list flowable -> result unit.
(** The three section builders of the class, [_add_data_table],
    [_add_analytics_section] and [_add_ai_analysis_section]: each returns
    the flowables of its section, or raises. *)
Variable add_data_table : generator -> pyvalue -> pyvalue -> result (list flowable).
Variable add_analytics_section : generator -> pyvalue -> result (list flowable).
Variable add_ai_analysis_section : generator -> pyvalue -> result (list flowable).

Definition font_paths : list string :=
  if os_is_nt then
    ["C:/Windows/Fonts/arial.ttf"; "C:/Windows/Fonts/calibri.ttf";
     "C:/Windows/Fonts/times.ttf"]
  else
    ["/usr/share/fonts/truetype/dejavu/DejaVuSans.ttf";
     "/usr/share/fonts/truetype/liberation/LiberationSans-Regular.ttf";
     "/System/Library/Fonts/Arial.ttf"].

(** The loop of [_setup_fonts]: the first existing font that registers. *)
Fixpoint first_registered (paths : list string) : option string :=
  match paths with
  | [] => None
  | font_path :: rest =>
      if path_exists font_path then
        match register_font font_path with
        | Ok _ => Some "CustomFont"
        | Raise _ => first_registered rest
        end
      else first_registered rest
  end.

Definition setup_fonts : string :=
  default "Helvetica" (first_registered font_paths).

(** [_setup_custom_styles], which runs outside of any [try]. *)
Definition setup_custom_styles (sheet : gset string) : result (gset string) :=
  sheet ← add_style sheet "ReportTitle" "Title";
  sheet ← add_style sheet "SectionTitle" "Heading1";
  sheet ← add_style sheet "NormalText" "Normal";
  sheet ← add_style sheet "SubsectionTitle" "Heading2";
  add_style sheet "AIAnalysis" "Normal".

(** [PDFReportGenerator()] *)
Definition new_generator : result generator :=
  let font := setup_fonts in
  sheet ← setup_custom_styles sample_styles;
  Ok (mkGenerator sheet font).

(** [f"{x:,}"]: the thousands separator is refused for a [str] and for
    objects without a numeric format. *)
Definition format_comma (x : pyvalue) : result string :=
  match x with
  | PInt _ | PFloat _ | PBool _ => Ok (comma_number x)
  | PStr _ => Raise (ValueError "Cannot specify ',' with 's'.")
  | _ => Raise (TypeError "unsupported format string")
  end.

(** [if data.get(key): story.extend(build(data[key]))] *)
Definition extend_if (data : list (string * pyvalue)) (key : string)
    (build : pyvalue -> result (list flowable)) (story : list flowable)
  : result (list flowable) :=
  if truthy (dict_get data key PNone) then
    section ← dict_item data key;
    elements ← build section;
    Ok (story ++ elements)%list
  else Ok story.

(** The [try] block of [generate_report], up to [doc.build(story)]. *)
Definition generate_body (g : generator) (data : list (string * pyvalue))
    (output_path : string) : result unit :=
  simple_doc_template output_path ;;
  title_style ← style_of (styles g) "ReportTitle";
  title ← paragraph "📊 Аналитический отчет" title_style;
  let story := [title] in
  let file_info :=
    "<b>Файл:</b> " ++ str_value (dict_get data "filename" (PStr "Не указан"))
    ++ "<br/>" in
  let file_info := file_info ++ "<b>Дата создания:</b> " ++ now_text ++ "<br/>" in
  total_rows ← format_comma (dict_get data "total_rows" (PInt 0));
  let file_info := file_info ++ "<b>Всего строк:</b> " ++ total_rows ++ "<br/>" in
  let file_info :=
    file_info ++ "<b>Всего столбцов:</b> "
    ++ str_value (dict_get data "total_columns" (PInt 0)) in
  summary ← py_get (dict_get data "analytics" (PDict [])) "summary_stats"
              (PDict []);
  shown ← py_get summary "completeness_percentage" PNone;
  file_info ←
    (if truthy shown then
       a ← dict_item data "analytics";
       s ← py_item a "summary_stats";
       completeness ← py_item s "completeness_percentage";
       Ok (file_info ++ "<br/><b>Заполненность данных:</b> "
           ++ str_value completeness ++ "%")
     else Ok file_info);
  normal ← style_of (styles g) "NormalText";
  info ← paragraph file_info normal;
  let story :=
    (story ++ [info; Spacer 1 15; HRFlowable 2; Spacer 1 15])%list in
  story ← extend_if data "table_data"
            (fun t => add_data_table g t (dict_get data "columns" (PList [])))
            story;
  story ← extend_if data "analytics" (add_analytics_section g) story;
  story ← extend_if data "ai_analyses" (add_ai_analysis_section g) story;
  doc_build output_path story.

(** [generate_report]: [True] after the [try] block, [False] from the
    [except Exception] handler. *)
Definition generate_report (g : generator) (data : list (string * pyvalue))
    (output_path : string) : result bool :=
  try_except (generate_body g data output_path ;; Ok true)
    (fun _ => Ok false).

Definition create_pdf_report (data : list (string * pyvalue))
    (output_path : string) : result bool :=
  g ← new_generator;
  generate_report g data output_path.

End Generator.

(** The names [getSampleStyleSheet()] of reportlab defines. *)
Definition reportlab_sample_styles : gset string :=
  list_to_set
    ["Normal"; "BodyText"; "Italic"; "Heading1"; "Title"; "Heading2";
     "Heading3"; "Heading4"; "Heading5"; "Heading6"; "Bullet"; "Definition";
     "Code"; "UnorderedList"; "OrderedList"].

End PdfReport.

(** ** Concrete inputs

    Small frames, documents and stand-ins for the library calls, on which
    the statements below are run. *)

Module Samples.
Import Pandas.

Definition all_digits (s : string) : bool :=
  negb (String.eqb s "")
  && String.eqb (PyStr.filter_chars
                   (fun c => negb ((48 <=? nat_of_ascii c)%nat
                                   && (nat_of_ascii c <=? 57)%nat)) s) "".

(** A date parser that accepts ISO dates of ten characters and numbers. *)
Definition sample_to_datetime (v : scalar) : result unit :=
  match v with
  | SStr s =>
      if (String.length s =? 10)%nat
         && String.eqb (String.substring 4 1 s) "-"
         && String.eqb (String.substring 7 1 s) "-"
      then Ok () else Raise (ValueError "Unknown datetime string format")
  | SBool _ => Raise (TypeError "<class 'bool'> is not convertible to datetime")
  | _ => Ok ()
  end.

(** A number parser that accepts digit strings and numbers. *)
Definition sample_to_numeric (v : scalar) : result unit :=
  match v with
  | SStr s =>
      if all_digits s then Ok ()
      else Raise (ValueError "Unable to parse string")
  | STimestamp _ => Raise (TypeError "Invalid object type")
  | _ => Ok ()
  end.

(** Stand-ins for the pandas reductions, exact on rationals; the standard
    deviation is cut to three decimals. *)
Definition numeric_value (v : scalar) : option Q :=
  match v with
  | SInt z => Some (inject_Z z)
  | SFloat n d => Some (n # d)
  | SBool b => Some (if b then 1 else 0)%Q
  | _ => None
  end.

Definition numbers (s : Series) : list Q := omap numeric_value (dropna s).

Definition q_sum (l : list Q) : Q := foldr Qplus 0%Q l.
Definition q_mean (l : list Q) : Q :=
  (q_sum l / inject_Z (Z.of_nat (length l)))%Q.

Fixpoint q_insert (x : Q) (l : list Q) : list Q :=
  match l with
  | [] => [x]
  | y :: r => if Qle_bool x y then x :: l else y :: q_insert x r
  end.
Definition q_sort (l : list Q) : list Q := foldr q_insert [] l.

Definition or_nan (l : list Q) (q : Q) : result Analytics.npfloat :=
  match l with
  | [] => Ok Analytics.NaN
  | _ => Ok (Analytics.Finite (Qred q))
  end.

Definition sample_sum (s : Series) : result Analytics.npfloat :=
  Ok (Analytics.Finite (Qred (q_sum (numbers s)))).
Definition sample_mean (s : Series) : result Analytics.npfloat :=
  or_nan (numbers s) (q_mean (numbers s)).
Definition sample_min (s : Series) : result Analytics.npfloat :=
  or_nan (numbers s) (default 0%Q (q_sort (numbers s) !! 0%nat)).
Definition sample_max (s : Series) : result Analytics.npfloat :=
  or_nan (numbers s) (default 0%Q (last (q_sort (numbers s)))).
Definition sample_median (s : Series) : result Analytics.npfloat :=
  let sorted := q_sort (numbers s) in
  let n := length sorted in
  or_nan sorted
    (if Nat.even n
     then ((default 0 (sorted !! (n / 2 - 1)%nat)
            + default 0 (sorted !! (n / 2)%nat)) / 2)%Q
     else default 0%Q (sorted !! (n / 2)%nat)).
Definition sample_std (s : Series) : result Analytics.npfloat :=
  let l := numbers s in
  let m := q_mean l in
  match l with
  | [] | [_] => Ok Analytics.NaN
  | _ =>
      let var :=
        (q_sum (map (fun x => (x - m) * (x - m)) l)
         / inject_Z (Z.of_nat (length l - 1)))%Q in
      Ok (Analytics.Finite
            (Qred (inject_Z (Z.sqrt (Qfloor (var * 1000000))) / 1000)%Q))
  end.

(** [str] of a cell value, without pandas' float formatting. *)
Definition sample_str (v : scalar) : string :=
  match v with
  | SStr s => s
  | SInt z => pretty z
  | SFloat n d => pretty n ++ "/" ++ pretty (Z.pos d)
  | SBool b => if b then "True" else "False"
  | STimestamp ns => pretty ns
  end.

(** Occurrence counts, most frequent first. *)
Fixpoint bump (v : scalar) (counts : list (scalar * Z)) : list (scalar * Z) :=
  match counts with
  | [] => [(v, 1%Z)]
  | (w, n) :: rest =>
      if decide (v = w) then (w, (n + 1)%Z) :: rest else (w, n) :: bump v rest
  end.
Fixpoint by_count (x : scalar * Z) (l : list (scalar * Z))
  : list (scalar * Z) :=
  match l with
  | [] => [x]
  | y :: r => if (y.2 <? x.2)%Z then x :: l else y :: by_count x r
  end.
Definition sample_value_counts (s : Series) : result (list (scalar * Z)) :=
  Ok (foldr by_count [] (foldl (fun acc v => bump v acc) [] (dropna s))).

(** Stand-ins for reportlab: a host without the fonts, a markup parser that
    refuses an unclosed tag, and a document builder that needs a path. *)
Definition sample_paragraph (text style : string)
  : result PdfReport.flowable :=
  if (length (filter (fun c => c = "<"%char) (String.list_ascii_of_string text))
      =? length (filter (fun c => c = ">"%char)
                   (String.list_ascii_of_string text)))%nat
  then Ok (PdfReport.Paragraph text style)
  else Raise (ValueError "paragraph text has an unclosed tag").

Definition sample_doc_build (output_path : string)
    (story : list PdfReport.flowable) : result unit :=
  if String.eqb output_path ""
  then Raise (LibraryError "No such file or directory: ''")
  else Ok ().

Definition sample_section (title : string) (g : PdfReport.generator)
    (v : PdfReport.pyvalue) : result (list PdfReport.flowable) :=
  s ← PdfReport.style_of (PdfReport.styles g) "SectionTitle";
  p ← sample_paragraph title s;
  Ok [p].

Definition sample_str_value (v : PdfReport.pyvalue) : string :=
  match v with
  | PdfReport.PNone => "None"
  | PdfReport.PBool b => if b then "True" else "False"
  | PdfReport.PInt z => pretty z
  | PdfReport.PFloat (Analytics.Finite q) =>
      pretty (Qnum q) ++ "/" ++ pretty (Z.pos (Qden q))
  | PdfReport.PFloat _ => "nan"
  | PdfReport.PStr s => s
  | PdfReport.PList _ => "[...]"
  | PdfReport.PDict _ => "{...}"
  end.

Definition sample_report_data : list (string * PdfReport.pyvalue) :=
  [("filename", PdfReport.PStr "test_data.csv");
   ("total_rows", PdfReport.PInt 100);
   ("total_columns", PdfReport.PInt 5);
   ("columns", PdfReport.PList [PdfReport.PStr "make"; PdfReport.PStr "year"]);
   ("table_data",
    PdfReport.PList
      [PdfReport.PDict [("make", PdfReport.PStr "Toyota");
                        ("year", PdfReport.PInt 2020)]]);
   ("analytics",
    PdfReport.PDict
      [("summary_stats",
        PdfReport.PDict
          [("numeric_columns", PdfReport.PInt 2);
           ("completeness_percentage",
            PdfReport.PFloat (Analytics.Finite (191 # 2)))])])].

(** Stand-ins for the coercing converters: digit strings become integers,
    numbers become timestamps, everything else becomes null. *)
Fixpoint digits_value (s : string) (acc : Z) : Z :=
  match s with
  | EmptyString => acc
  | String c r =>
      digits_value r (acc * 10 + Z.of_nat (nat_of_ascii c - 48))%Z
  end.

Definition coerce_numeric_cell (c : cell) : cell :=
  match c with
  | Some (SStr s) =>
      if all_digits s then Some (SInt (digits_value s 0)) else None
  | Some (STimestamp _) => None
  | other => other
  end.

Definition sample_to_numeric_coerce (s : Series) : result Series :=
  let values := map coerce_numeric_cell (s_values s) in
  Ok (mkSeries (if forallb notnull values then Int64 else Float64) values).

Definition coerce_datetime_cell (c : cell) : cell :=
  match c with
  | Some (SInt z) => Some (STimestamp z)
  | Some (SFloat n d) => Some (STimestamp (n / Z.pos d))
  | Some (STimestamp t) => Some (STimestamp t)
  | _ => None
  end.

Definition sample_to_datetime_coerce (s : Series) : result Series :=
  Ok (mkSeries Datetime64 (map coerce_datetime_cell (s_values s))).

(** A one-page document with one table, whose third column and second data
    row are empty. *)
Definition price_list_pdf : PdfTable.pdf :=
  PdfTable.mkPdf
    [PdfTable.mkPage
       [[[Some "make"; Some "price"; None];
         [Some "Toyota"; Some "21500"; None];
         [None; None; None];
         [Some "Honda"; Some "18000"; None]]]].


(** A frame of car sales. *)
Definition sales_frame : DataFrame :=
  mkDataFrame
    [(Some "make", Object); (Some "year", Int64);
     (Some "sellingprice", Float64); (Some "saledate", Object);
     (Some "note", Object)]
    [[Some (SStr "Toyota"); Some (SInt 2014); Some (SFloat 21500 1);
      Some (SStr "2015-01-14"); None];
     [Some (SStr "Honda"); Some (SInt 2015); None;
      Some (SStr "2015-02-03"); None];
     [Some (SStr "Toyota"); Some (SInt 2015); Some (SFloat 30000 1);
      Some (SStr "2015-03-09"); None]].

(** The same columns with the same leading values, and other rows after
    the third. *)
Definition sales_frame_longer : DataFrame :=
  mkDataFrame (df_columns sales_frame)
    (df_data sales_frame ++
     [[Some (SStr "not a date"); Some (SInt 2016); Some (SFloat 1 2);
       Some (SStr "12"); Some (SStr "x")];
      [None; Some (SInt 2017); None; Some (SStr "soon"); None]])%list.


(** A frame in which one label occurs twice. *)
Definition repeated_label_frame : DataFrame :=
  mkDataFrame [(Some "price", Object); (Some "price", Object)]
    [[Some (SStr "1"); Some (SStr "2")]].

End Samples.

(** ** Upload names that pass through [secure_filename] unchanged *)

Module UploadNames.
Import PyStr Routing.

Fixpoint all_chars (p : ascii -> bool) (s : string) : bool :=
  match s with
  | EmptyString => true
  | String c r => p c && all_chars p r
  end.

(** A stem of letters, digits, [_], [.] and [-] that starts with none of
    [.] and [_]: what [secure_filename] neither rewrites nor strips. *)
Definition plain_stem (stem : string) : bool :=
  all_chars Werkzeug.filename_char stem
  && match stem with
     | EmptyString => false
     | String c _ => negb (Werkzeug.dot_or_underscore c)
     end.

(** The reader the branch comments of [upload_file] name for an extension. *)
Definition reader_for (ext : string) : reader :=
  if String.eqb ext "pdf" then PdfTableExtractor
  else if String.eqb ext "csv" then CsvReader
  else ExcelReader.

(** The first of the results that is not an exception; when all raise, the
    exception of the first. *)
Definition first_success {DF} (r1 r2 r3 : result DF) : result DF :=
  match r1 with
  | Ok df => Ok df
  | Raise e =>
      match r2 with
      | Ok df => Ok df
      | Raise _ =>
          match r3 with
          | Ok df => Ok df
          | Raise _ => Raise e
          end
      end
  end.

End UploadNames.

(** * The figures behind the default charts *)

Module ChartShapes.
Import Charts.

Section Figures.
Variable plotly_json : figure -> result string.

(** A chart entry that carries the JSON of a bar figure with 1 to 10 bars,
    and one that carries a scatter figure with at least 2 points. *)
Definition bar_figure_of (c : chart) : Prop :=
  chart_type c = "bar" /\ chart_title c = bar_title
  /\ exists x y,
       plotly_json (BarFigure x y bar_title) = Ok (chart_data c)
       /\ length x = length y /\ (1 <= length x <= 10)%nat.

Definition line_figure_of (c : chart) : Prop :=
  chart_type c = "line" /\ chart_title c = line_title
  /\ exists x y,
       plotly_json (ScatterFigure x y line_title) = Ok (chart_data c)
       /\ length x = length y /\ (2 <= length x)%nat.

End Figures.

End ChartShapes.

(** * The categories offered for custom charts *)

Module Categories.
Import Pandas Analytics Charts.

(** The entry written for a text column. *)
Record category : Type := mkCategory {
  cat_type : string;
  cat_unique_count : Z;
  cat_sample_values : gmap string Z
}.

(** A value of the [categories] dict: one of the three lists of column
    labels, or the entry of a text column. *)
Inductive entry : Type :=
| ColumnList (cols : list label)
| ColumnEntry (c : category).

Definition fallback : category := mkCategory "text" 0 ∅.

Section GetCategories.
(** [s.value_counts()] and [str(key)] *)
Variable value_counts : Series -> result (list (scalar * Z)).
Variable str_scalar : scalar -> string.

(** The body of the [try] for one text column.  Under a repeated label
    [df[col].nunique()] is a [Series] with one count per occurrence, and
    [int(unique_count)] refuses it. *)
Definition category_of (df : DataFrame) (col : label) : result category :=
  x ← getitem df col;
  match x with
  | ItemSeries s =>
      let unique_count := nunique s in
      counts ← value_counts s;
      let sample_values := head 5 counts in
      let sample_dict :=
        update ∅ (map (fun kv => (str_scalar kv.1, kv.2)) sample_values) in
      Ok (mkCategory "text" (Z.of_nat unique_count) sample_dict)
  | ItemFrame _ =>
      Raise (TypeError "cannot convert the series to <class 'int'>")
  end.

(** [try: ... categories[col] = {...}
    except Exception: categories[col] = {'type': 'text', 'unique_count': 0,
    'sample_values': {}}] *)
Definition category_step (df : DataFrame) (categories : gmap label entry)
    (col : label) : gmap label entry :=
  match category_of df col with
  | Ok c => <[col := ColumnEntry c]> categories
  | Raise _ => <[col := ColumnEntry fallback]> categories
  end.

(** What an iteration leaves under the column it visits. *)
Definition written_entry (df : DataFrame) (col : label) : entry :=
  ColumnEntry (match category_of df col with
               | Ok c => c
               | Raise _ => fallback
               end).

(** [get_available_categories]: the loop runs over the list that was
    stored under ['text_columns'] when the dict was built. *)
Definition get_available_categories (df : DataFrame)
    (data_types : gmap label string) : gmap label entry :=
  let text_columns := columns_of_kind data_types "text" in
  let categories : gmap label entry :=
    <[Some "datetime_columns" :=
        ColumnList (columns_of_kind data_types "datetime")]>
      (<[Some "numeric_columns" :=
           ColumnList (columns_of_kind data_types "numeric")]>
         {[Some "text_columns" := ColumnList text_columns]}) in
  foldl (category_step df) categories text_columns.

End GetCategories.

End Categories.

(** * Paging through a stored file *)

Module LoadMore.
Import PyStr Pandas Routing.

(** [os.path.join(a, b)] on a POSIX host: an absolute second part replaces
    the first. *)
Definition path_join (a b : string) : string :=
  match b with
  | String "/"%char _ => b
  | _ => if String.eqb a "" || endswith a "/" then a ++ b else a ++ "/" ++ b
  end.

(** A bound of a Python slice over [n] items: a negative index counts from
    the end, and both are clamped to the sequence. *)
Definition slice_bound (n i : Z) : Z :=
  if (i <? 0)%Z then Z.max 0 (i + n) else Z.min i n.

(** [l[start:stop]] *)
Definition py_slice {A} (l : list A) (start stop : Z) : list A :=
  let n := Z.of_nat (length l) in
  let lo := slice_bound n start in
  let hi := slice_bound n stop in
  take (Z.to_nat (hi - lo)) (drop (Z.to_nat lo) l).

(** [df.iloc[start:stop]] *)
Definition iloc (df : DataFrame) (start stop : Z) : DataFrame :=
  mkDataFrame (df_columns df) (py_slice (df_data df) start stop).

(** The JSON body of the request: the file name when one is given, and the
    two integers, whose defaults [data.get] supplies. *)
Record request : Type := mkRequest {
  req_filename : option string;
  req_start_row : option Z;
  req_rows_count : option Z
}.

Section LoadMoreData.
(** The rows as they are sent: [convert_dataframe_to_json_safe],
    [to_json(orient='records')] and [json.loads]. *)
Context {J : Type}.
Variable to_json_records : DataFrame -> result J.
(** [os.path.exists] *)
Variable path_exists : string -> bool.
Variable extract_table_from_pdf : string -> result DataFrame.
(** [pd.read_csv(path, encoding=...)] and [pd.read_excel(path)] *)
Variable read_csv : string -> string -> result DataFrame.
Variable read_excel : string -> result DataFrame.

Inductive response : Type :=
| JsonError (status : Z) (error : string)
| Page (data : J) (start_row end_row : Z) (has_more_data : bool).

(** The file is read once: a CSV as utf-8 only. *)
Definition read_stored (filename filepath : string) : result DataFrame :=
  if endswith filename ".pdf" then extract_table_from_pdf filepath
  else if endswith filename ".csv" then read_csv filepath "utf-8"
  else read_excel filepath.

(** The body of the [try]. *)
Definition load_more_body (data : request) : result response :=
  let filename := req_filename data in
  let start_row := default 0%Z (req_start_row data) in
  let rows_count := default 100%Z (req_rows_count data) in
  match filename with
  | None | Some "" => Ok (JsonError 400 "Имя файла не указано")
  | Some filename =>
      let filepath := path_join UPLOAD_FOLDER filename in
      if negb (path_exists filepath) then Ok (JsonError 404 "Файл не найден")
      else
        df ← read_stored filename filepath;
        let df := where_notnull_none (dropna_columns (dropna_rows df)) in
        let end_row := Z.min (start_row + rows_count) (Z.of_nat (len df)) in
        let df_slice := iloc df start_row end_row in
        data_json ← to_json_records df_slice;
        Ok (Page data_json start_row end_row
              (end_row <? Z.of_nat (len df))%Z)
  end.

(** [except Exception as e: return jsonify({'error': ...}), 500] *)
Definition load_more_data (data : request) : response :=
  match load_more_body data with
  | Ok r => r
  | Raise e => JsonError 500 ("Ошибка загрузки данных: " ++ str_exn e)
  end.

End LoadMoreData.

End LoadMore.

(** * The route of the Yandex analysis *)

Module YandexRoute.
Import PyStr Pandas Routing RemoteAnalysis.

Definition missing_settings_msg : string :=
  "Не заданы переменные окружения YANDEX_FOLDER_ID и YANDEX_AUTH_TOKEN. "
  ++ "Проверьте файл .env".
Definition no_analyzer_msg : string :=
  "Не удалось инициализировать анализатор Яндекс.GPT. Проверьте настройки в .env файле.".

(** [df.head(n)] *)
Definition frame_head (n : nat) (df : DataFrame) : DataFrame :=
  mkDataFrame (df_columns df) (take n (df_data df)).

(** Truth value of a result field in an [if]. *)
Definition field_truthy (f : field) : bool :=
  match f with
  | FBool b => b
  | FStr s => negb (String.eqb s "")
  end.

(** [d[key]] *)
Definition dict_item (d : gmap string field) (key : string) : result field :=
  match d !! key with
  | Some v => Ok v
  | None => Raise (KeyError key)
  end.

(** What the route answers: an error body with its status, the analysis
    (status 200), or the failure the analyzer reported (status 500). *)
Inductive response : Type :=
| JsonError (status : Z) (error : string)
| Completed (content model filename : field)
| Failed (error : field).

Section Route.
(** The SDK object and the model object of [yandex_cloud_ml_sdk] *)
Context {SDK Model : Type}.
(** [os.environ] *)
Variable environ : gmap string string.
(** [YCloudML(folder_id=..., auth=...)] and
    [sdk.models.completions(name)] *)
Variable YCloudML : string -> string -> result SDK.
Variable completions : SDK -> string -> result Model.
(** [model.configure(temperature=0.3).run_deferred(messages)] followed by
    [operation.wait()] *)
Variable run_and_wait :
  Model -> list (string * string) -> result Yandex.completion.
Variable str_scalar : scalar -> string.
Variable path_exists : string -> bool.
Variable extract_table_from_pdf : string -> result DataFrame.
Variable read_csv : string -> string -> result DataFrame.
Variable read_excel : string -> result DataFrame.
(** [convert_dataframe_to_json_safe(df).to_dict('records')] *)
Variable to_records : DataFrame -> result (list row).

Record analyzer : Type := mkAnalyzer {
  folder_id : string;
  auth_token : string;
  sdk : SDK;
  model : Model
}.

(** [YandexGPTAnalyzer.__init__] *)
Definition YandexGPTAnalyzer : result analyzer :=
  let folder_id := environ !! "YANDEX_FOLDER_ID" in
  let auth_token := environ !! "YANDEX_AUTH_TOKEN" in
  match folder_id, auth_token with
  | Some folder_id, Some auth_token =>
      if String.eqb folder_id "" || String.eqb auth_token "" then
        Raise (ValueError missing_settings_msg)
      else
        sdk ← YCloudML folder_id auth_token;
        model ← completions sdk "yandexgpt";
        Ok (mkAnalyzer folder_id auth_token sdk model)
  | _, _ => Raise (ValueError missing_settings_msg)
  end.

(** [create_yandex_analyzer] *)
Definition create_yandex_analyzer : option analyzer :=
  match YandexGPTAnalyzer with
  | Ok a => Some a
  | Raise _ => None
  end.

(** The inner [try] that reads the file: a CSV that fails as utf-8 is
    retried as cp1251, then latin-1; when nothing works the handler returns
    the 500 response itself, with the text of the first error. *)
Definition read_or_respond (filename filepath : string)
  : DataFrame + response :=
  match LoadMore.read_stored extract_table_from_pdf read_csv read_excel
          filename filepath with
  | Ok df => inl df
  | Raise e =>
      let failed := JsonError 500 ("Ошибка чтения файла: " ++ str_exn e) in
      if endswith filename ".csv" then
        match read_csv filepath "cp1251" with
        | Ok df => inl df
        | Raise _ =>
            match read_csv filepath "latin-1" with
            | Ok df => inl df
            | Raise _ => inr failed
            end
        end
      else inr failed
  end.

(** The body of the outer [try]; [filename] is [data.get('filename')]. *)
Definition yandex_analysis_body (filename : option string)
  : result response :=
  match filename with
  | None | Some "" => Ok (JsonError 400 "Имя файла не указано")
  | Some filename =>
      let filepath := LoadMore.path_join UPLOAD_FOLDER filename in
      if negb (path_exists filepath) then Ok (JsonError 404 "Файл не найден")
      else
        match read_or_respond filename filepath with
        | inr answer => Ok answer
        | inl df =>
            let df := where_notnull_none (dropna_columns (dropna_rows df)) in
            let df_sample := frame_head 15 df in
            table_data ← to_records df_sample;
            match create_yandex_analyzer with
            | None => Ok (JsonError 500 no_analyzer_msg)
            | Some a =>
                analysis_result ←
                  Yandex.analyze_table_data str_scalar
                    (run_and_wait (model a)) table_data filename;
                success ← dict_item analysis_result "success";
                if field_truthy success then
                  content ← dict_item analysis_result "analysis";
                  model_name ← dict_item analysis_result "model";
                  name ← dict_item analysis_result "filename";
                  Ok (Completed content model_name name)
                else
                  error ← dict_item analysis_result "error";
                  Ok (Failed error)
            end
        end
  end.

(** [except Exception as e: return jsonify({'error': ...}), 500] *)
Definition yandex_analysis (filename : option string) : response :=
  match yandex_analysis_body filename with
  | Ok r => r
  | Raise e => JsonError 500 ("Ошибка анализа: " ++ str_exn e)
  end.

End Route.

End YandexRoute.

(** * The data table of the report *)

Module DataTable.
Import Analytics PdfReport.

(** [int(x)] of a float: towards zero; infinities and NaN are refused. *)
Definition int_of_float (x : npfloat) : result Z :=
  match x with
  | Finite q => Ok (Z.quot (Qnum q) (Zpos (Qden q)))
  | PosInf | NegInf =>
      Raise (LibraryError "OverflowError: cannot convert float infinity to integer")
  | NaN => Raise (ValueError "cannot convert float NaN to integer")
  end.

(** [x != i] for a float and an int *)
Definition float_differs (x : npfloat) (i : Z) : bool :=
  match x with
  | Finite q => negb (Qeq_bool q (inject_Z i))
  | _ => true
  end.

Fixpoint mapM {A B} (f : A -> result B) (l : list A) : result (list B) :=
  match l with
  | [] => Ok []
  | x :: rest => y ← f x; ys ← mapM f rest; Ok (y :: ys)
  end.

Definition dash : string := "—".

Section AddDataTable.
(** [s.strip()], [len(s)] and [s[:n]] of a [str], which count code
    points *)
Variable py_strip : string -> string.
Variable str_len : string -> nat.
Variable str_take : nat -> string -> string.
(** [str(x)] of a value that is not a [str], and [f"{x:.2f}"] *)
Variable str_value : pyvalue -> string.
Variable format_2f : npfloat -> string.
(** [Paragraph(text, style)], and [Table(rows, repeatRows=1)] with the
    [TableStyle] that names the generator's font *)
Variable paragraph : string -> string -> result flowable.
Variable make_table : list (list string) -> string -> result flowable.

(** [str(value)] *)
Definition py_str (value : pyvalue) : string :=
  match value with
  | PStr s => s
  | other => str_value other
  end.

(** [value is None or value == '' or str(value).strip() == '' or
    (isinstance(value, float) and math.isnan(value))] *)
Definition is_blank (value : pyvalue) : bool :=
  match value with PNone => true | _ => false end
  || match value with PStr "" => true | _ => false end
  || String.eqb (py_strip (py_str value)) ""
  || match value with PFloat NaN => true | _ => false end.

(** One cell of the table, as the [str] appended to the row. *)
Definition format_cell (value : pyvalue) : result string :=
  if is_blank value then Ok dash
  else
    match value with
    | PStr s =>
        if decide (25 < str_len s)%nat then Ok (str_take 22 s ++ "...")
        else Ok s
    | PFloat NaN => Ok dash
    | PFloat x =>
        i ← int_of_float x;
        Ok (if float_differs x i then format_2f x else str_value (PInt i))
    | PInt _ | PBool _ => Ok (str_value value)
    | other => Ok (str_value other)
    end.

(** The rows handed to [Table]: the header row, then one row for each of
    the first 30 records, with one cell per column. *)
Definition table_row (columns : list string) (row : list (string * pyvalue))
  : result (list string) :=
  mapM (fun col => format_cell (dict_get row col (PStr ""))) columns.

Definition table_rows (table_data : list (list (string * pyvalue)))
    (columns : list string) : result (list (list string)) :=
  rows ← mapM (table_row columns) (take 30 table_data);
  Ok (columns :: rows).

(** [_add_data_table], for records keyed by [str] and [str] column
    names. *)
Definition add_data_table (g : generator)
    (table_data : list (list (string * pyvalue))) (columns : list string)
  : result (list flowable) :=
  section_title ← style_of (styles g) "SectionTitle";
  title ← paragraph "📋 Данные" section_title;
  let elements := [title] in
  if bool_decide (table_data = []) || bool_decide (columns = []) then
    normal ← style_of (styles g) "NormalText";
    nothing ← paragraph "Данные отсутствуют" normal;
    Ok (elements ++ [nothing])%list
  else
    rows ← table_rows table_data columns;
    table ← make_table rows (font_name g);
    let elements := (elements ++ [table; Spacer 1 12])%list in
    if decide (30 < length table_data)%nat then
      normal ← style_of (styles g) "NormalText";
      note ← paragraph ("<i>Показаны первые 30 строк из "
                        ++ pretty (length table_data) ++ "</i>") normal;
      Ok (elements ++ [note])%list
    else Ok elements.

End AddDataTable.

End DataTable.

(** * Further sample data *)

Module MoreSamples.
Import Pandas Samples.

(** A host whose stored CSV decodes as cp1251 only, and whose other
    readers load. *)
Definition cp1251_csv (filepath encoding : string) (nrows : option Z)
  : result nat :=
  if String.eqb encoding "cp1251" then Ok 2%nat
  else Raise (ValueError "codec can't decode byte 0xcc in position 0").

(** The order of group keys of one kind: strings by code point, numbers
    and timestamps by value. *)
Definition key_leb (a b : scalar) : bool :=
  match a, b with
  | SStr x, SStr y => String.leb x y
  | SInt x, SInt y => (x <=? y)%Z
  | SFloat n d, SFloat m e => Qle_bool (n # d) (m # e)
  | SBool x, SBool y => implb x y
  | STimestamp x, STimestamp y => (x <=? y)%Z
  | _, _ => true
  end.

Fixpoint insert_by_key {V} (x : scalar * V) (l : list (scalar * V))
  : list (scalar * V) :=
  match l with
  | [] => [x]
  | y :: rest =>
      if key_leb x.1 y.1 then x :: l else y :: insert_by_key x rest
  end.
Definition sort_by_key {V} (l : list (scalar * V)) : list (scalar * V) :=
  foldr insert_by_key [] l.

(** Group sizes and group sums, the groups sorted by their key. *)
Definition sample_groupby_size (df : DataFrame) (key : label)
  : result (list (scalar * Z)) :=
  x ← getitem df key;
  match x with
  | ItemSeries s =>
      Ok (sort_by_key (foldl (fun acc v => bump v acc) [] (dropna s)))
  | ItemFrame _ => Raise (ValueError "Grouper is not 1-dimensional")
  end.

Fixpoint add_to (k : scalar) (q : Q) (acc : list (scalar * Q))
  : list (scalar * Q) :=
  match acc with
  | [] => [(k, q)]
  | (k', q') :: rest =>
      if decide (k = k') then (k', (q' + q)%Q) :: rest
      else (k', q') :: add_to k q rest
  end.

Definition sample_groupby_sum (df : DataFrame) (key column : label)
  : result (list (scalar * scalar)) :=
  x ← getitem df key;
  y ← getitem df column;
  match x, y with
  | ItemSeries ks, ItemSeries vs =>
      let sums :=
        foldl (fun acc kv =>
                 match kv.1 with
                 | Some k => add_to k (default 0%Q (kv.2 ≫= numeric_value)) acc
                 | None => acc
                 end) [] (zip (s_values ks) (s_values vs)) in
      Ok (map (fun kq => (kq.1, SFloat (Qnum (Qred kq.2)) (Qden (Qred kq.2))))
            (sort_by_key sums))
  | _, _ => Raise (ValueError "Grouper is not 1-dimensional")
  end.

Definition sample_float_scalar (v : scalar) : result Analytics.npfloat :=
  match numeric_value v with
  | Some q => Ok (Analytics.Finite q)
  | None => Raise (ValueError "could not convert string to float")
  end.

Definition sample_plotly_json (fig : Charts.figure) : result string :=
  match fig with
  | Charts.BarFigure x _ _ => Ok ("bar: " ++ String.concat ", " x)
  | Charts.ScatterFigure x _ _ => Ok ("scatter: " ++ String.concat ", " x)
  end.

Definition sales_types : gmap label string :=
  <[Some "make" := "text"]>
    (<[Some "year" := "numeric"]>
       (<[Some "sellingprice" := "numeric"]>
          {[Some "saledate" := "datetime"]})).

(** A host with the sales frame stored as a CSV, and nothing else. *)
Definition stored_sales : string := "uploads/20250918_214023_sales.csv".
Definition sample_path_exists (filepath : string) : bool :=
  String.eqb filepath stored_sales || String.eqb filepath "/srv/sales.xlsx".
Definition sample_read_csv (filepath encoding : string) : result DataFrame :=
  if String.eqb filepath stored_sales then Ok sales_frame
  else Raise (LibraryError "No such file or directory").
Definition sample_read_excel (filepath : string) : result DataFrame :=
  if String.eqb filepath "/srv/sales.xlsx" then Ok sales_frame
  else Raise (LibraryError "No such file or directory").
Definition sample_extract_pdf (filepath : string) : result DataFrame :=
  Raise (ValueError PdfTable.no_pages_msg).

(** The number of rows stands for their JSON. *)
Definition sample_to_json (df : DataFrame) : result nat := Ok (len df).

(** The records of a frame, keyed by the labels. *)
Definition sample_to_records (df : DataFrame)
  : result (list RemoteAnalysis.row) :=
  Ok (map (fun r => zip (columns df) r) (df_data df)).

(** An SDK that accepts any folder and token, and a model that answers
    with one alternative. *)
Definition sample_sdk (folder_id auth_token : string) : result unit := Ok ().
Definition sample_completions (sdk : unit) (name : string) : result string :=
  Ok name.
Definition sample_run (model : string) (messages : list (string * string))
  : result RemoteAnalysis.Yandex.completion :=
  Ok (RemoteAnalysis.Yandex.Alternatives
        [RemoteAnalysis.Yandex.mkAlternative (Some "Продажи растут") None
           "Alternative(...)"]).

(** Records for the table of a report, and stand-ins for the string
    functions on ASCII text. *)
Definition sample_records : list (list (string * PdfReport.pyvalue)) :=
  [[("make", PdfReport.PStr "Toyota"); ("year", PdfReport.PInt 2014);
    ("price", PdfReport.PFloat (Analytics.Finite (43001 # 2)))];
   [("make", PdfReport.PStr "Honda"); ("year", PdfReport.PNone);
    ("price", PdfReport.PFloat Analytics.NaN)]].

Definition sample_format_2f (x : Analytics.npfloat) : string :=
  match x with
  | Analytics.Finite q =>
      let cents := Analytics.round_half_even (q * 100) in
      pretty (cents / 100)%Z ++ "." ++ pretty ((cents mod 100) / 10)%Z
      ++ pretty (cents mod 10)%Z
  | Analytics.PosInf => "inf"
  | Analytics.NegInf => "-inf"
  | Analytics.NaN => "nan"
  end.

Definition sample_make_table (rows : list (list string)) (font : string)
  : result PdfReport.flowable :=
  Ok (PdfReport.Other ("Table of " ++ pretty (length rows) ++ " rows")).

Definition sample_generator : PdfReport.generator :=
  PdfReport.mkGenerator
    (list_to_set ["SectionTitle"; "NormalText"; "Normal"]) "Helvetica".

End MoreSamples.

(** * Markdown of an analysis as report elements *)

Module Markdown.
Import PyStr PdfReport.

(** [s.split(sep)] for a one-character separator *)
Fixpoint split_on (sep : ascii) (s : string) : list string :=
  match s with
  | EmptyString => [""]
  | String c rest =>
      if Ascii.eqb c sep then "" :: split_on sep rest
      else match split_on sep rest with
           | [] => [String c ""]
           | first :: others => String c first :: others
           end
  end.

(** [s[n:]] and [s[:n]], used behind an ASCII prefix of at least [n]
    characters, where characters and bytes coincide. *)
Definition drop_chars (n : nat) (s : string) : string :=
  String.substring n (String.length s - n) s.
Definition take_chars (n : nat) (s : string) : string :=
  String.substring 0 n s.

(** [s.startswith(p)] *)
Definition startswith (s p : string) : bool := String.prefix p s.

Fixpoint foldM {A S} (step : S -> A -> result S) (state : S) (l : list A)
  : result S :=
  match l with
  | [] => Ok state
  | x :: rest => state ← step state x; foldM step state rest
  end.

(** Elements that come as a paragraph or rule followed by a spacer of
    height 2, 4, 6 or 8. *)
Inductive in_pairs (content : flowable -> Prop) : list flowable -> Prop :=
| pairs_nil : in_pairs content []
| pairs_cons (f : flowable) (h : Z) (rest : list flowable) :
    content f -> h ∈ [2; 4; 6; 8]%Z -> in_pairs content rest ->
    in_pairs content (f :: Spacer 1 h :: rest).

Section Convert.
(** [s.strip()] *)
Variable py_strip : string -> string.
(** The two [re.sub] calls that turn [**x**] into bold and [*x*] into
    italic markup *)
Variable inline_markup : string -> string.
Variable paragraph : string -> string -> result flowable.
Variable g : generator.

(** [Paragraph(text, self.styles['AIAnalysis'])] *)
Definition ai_paragraph (text : string) : result flowable :=
  style ← style_of (styles g) "AIAnalysis";
  paragraph text style.

(** [if current_paragraph: ...] in front of a heading, a rule or a list
    item: the pending paragraph is emitted as it stands. *)
Definition flush (elements : list flowable) (current : list string)
  : result (list flowable) :=
  match current with
  | [] => Ok elements
  | _ =>
      p ← ai_paragraph (join " " current);
      Ok (elements ++ [p; Spacer 1 4])%list
  end.

(** The same at a blank line and at the end of the text, where the bold
    and italic markup is converted first. *)
Definition flush_marked (elements : list flowable) (current : list string)
  : result (list flowable) :=
  match current with
  | [] => Ok elements
  | _ =>
      p ← ai_paragraph (inline_markup (join " " current));
      Ok (elements ++ [p; Spacer 1 4])%list
  end.

Definition heading (elements : list flowable) (current : list string)
    (text : string) (space : Z) : result (list flowable * list string) :=
  elements ← flush elements current;
  p ← ai_paragraph text;
  Ok ((elements ++ [p; Spacer 1 space])%list, []).

(** One iteration of the loop over the lines. *)
Definition line_step (state : list flowable * list string) (line : string)
  : result (list flowable * list string) :=
  let '(elements, current) := state in
  let line := py_strip line in
  if startswith line "###" then
    heading elements current
      ("<b>" ++ py_strip (drop_chars 3 line) ++ "</b>") 4
  else if startswith line "##" then
    heading elements current
      ("<b><font size='12'>" ++ py_strip (drop_chars 2 line)
       ++ "</font></b>") 6
  else if startswith line "#" then
    heading elements current
      ("<b><font size='14'>" ++ py_strip (drop_chars 1 line)
       ++ "</font></b>") 8
  else if startswith line "---" || startswith line "***" then
    elements ← flush elements current;
    Ok ((elements ++ [HRFlowable 1; Spacer 1 6])%list, [])
  else if startswith line "- " || startswith line "* " then
    heading elements current
      ("• " ++ inline_markup (py_strip (drop_chars 2 line))) 2
  else if startswith line "1. " || startswith line "2. "
          || startswith line "3. " || startswith line "4. "
          || startswith line "5. " then
    heading elements current
      (take_chars 2 line ++ " "
       ++ inline_markup (py_strip (drop_chars 3 line))) 2
  else if String.eqb line "" then
    elements ← flush_marked elements current;
    Ok (elements, [])
  else Ok (elements, (current ++ [line])%list).

(** [_convert_markdown_to_reportlab] *)
Definition convert_markdown_to_reportlab (text : string)
  : result (list flowable) :=
  if String.eqb text "" || String.eqb (py_strip text) "" then Ok []
  else
    state ← foldM line_step ([], []) (split_on (ascii_of_nat 10) text);
    flush_marked state.1 state.2.

End Convert.

End Markdown.

(** * Routing of an upload *)

Section RoutingFacts.
Import PyStr Routing.

Lemma length_append_string (a b : string) :
  String.length (a ++ b) = (String.length a + String.length b)%nat.
Proof. induction a as [|c a IH]; simpl; [done | by rewrite IH]. Qed.

Lemma endswith_unfold (s suf : string) :
  endswith s suf
  = String.eqb s suf
    || match s with
       | EmptyString => false
       | String _ r => endswith r suf
       end.
Proof. by destruct s. Qed.

Lemma endswith_short (u suf : string) :
  (String.length u < String.length suf)%nat -> endswith u suf = false.
Proof.
  induction u as [|x u IH]; intros Hu; rewrite endswith_unfold;
    apply orb_false_intro; try done.
  - apply String.eqb_neq. intros <-. simpl in Hu. lia.
  - apply String.eqb_neq. intros <-. simpl in Hu. lia.
  - apply IH. simpl in Hu. lia.
Qed.

Lemma endswith_same_length (u suf : string) :
  String.length u = String.length suf -> u ≠ suf -> endswith u suf = false.
Proof.
  intros Hlen Hne. rewrite endswith_unfold.
  apply orb_false_intro; [by apply String.eqb_neq|].
  destruct u as [|x u]; [done|]. apply endswith_short. simpl in Hlen. lia.
Qed.

(** A name cannot end with two different suffixes of one length. *)
Lemma endswith_exclusive (s a b : string) :
  String.length a = String.length b -> a ≠ b ->
  endswith s a = true -> endswith s b = false.
Proof.
  intros Hlen Hne. induction s as [|c s IH]; rewrite (endswith_unfold _ a).
  - rewrite orb_false_r. intros Ha%String.eqb_eq. subst a.
    destruct b; [by destruct Hne | discriminate Hlen].
  - intros [Ha%String.eqb_eq | Ha]%orb_true_iff.
    + subst a. rewrite endswith_unfold. apply orb_false_intro.
      * by apply String.eqb_neq.
      * apply endswith_short. simpl in Hlen. lia.
    + rewrite endswith_unfold. apply orb_false_intro; [|by apply IH].
      apply String.eqb_neq. intros <-.
      rewrite endswith_short in Ha; [done|]. simpl in Hlen. lia.
Qed.

(** A stored name that ends in [tail] ends with a suffix of the same length
    only if that suffix is [tail]. *)
Lemma endswith_app_other (stem tail suf : string) :
  String.length tail = String.length suf ->
  tail ≠ suf ->
  endswith (stem ++ tail) suf = false.
Proof.
  intros Hlen Hne. induction stem as [|c stem IH].
  - by apply endswith_same_length.
  - change (String c stem ++ tail) with (String c (stem ++ tail)).
    rewrite endswith_unfold. apply orb_false_intro; [|exact IH].
    apply String.eqb_neq. intros Heq.
    apply (f_equal String.length) in Heq. simpl in Heq.
    rewrite length_append_string in Heq. lia.
Qed.

Lemma endswith_app_same (stem suf : string) : endswith (stem ++ suf) suf = true.
Proof.
  induction stem as [|c stem IH].
  - rewrite endswith_unfold. change ("" ++ suf) with suf.
    by rewrite String.eqb_refl.
  - change (String c stem ++ suf) with (String c (stem ++ suf)).
    rewrite endswith_unfold. by rewrite IH, orb_true_r.
Qed.

Context {DF : Type}.
Variable nfkd_ascii : string -> string.
Variable now_stamp : string.
Variable getsize : string -> Z.
Variable extract_table_from_pdf : string -> result DF.
Variable read_csv : string -> string -> option Z -> result DF.
Variable read_excel : string -> option Z -> result DF.

Local Abbreviation upload :=
  (upload_file nfkd_ascii now_stamp getsize extract_table_from_pdf read_csv
     read_excel).
Local Abbreviation read :=
  (read_uploaded getsize extract_table_from_pdf read_csv read_excel).

(** The name is refused, with status 400 and before any reader runs, when
    [allowed_file] says no. *)
Lemma upload_rejects_disallowed (files : gmap string string) (name : string) :
  files !! "file" = Some name ->
  allowed_file name = false ->
  exists msg, upload files = ([], JsonError 400 msg).
Proof.
  intros Hf Hno. unfold upload_file. rewrite Hf, Hno. simpl.
  destruct (String.eqb name ""); eauto.
Qed.

(** [allowed_file] is false for a name without a dot. *)
Lemma allowed_file_no_dot (name : string) :
  contains_char "." name = false -> allowed_file name = false.
Proof. intros H. unfold allowed_file. by rewrite H. Qed.

(** With a dot, it tests the lowercased text after the last dot. *)
Lemma allowed_file_extension (stem ext : string) :
  rsplit1 "." ext = [ext] ->
  allowed_file (stem ++ "." ++ ext)
  = bool_decide (lower ext ∈ ALLOWED_EXTENSIONS).
Proof.
  intros Hext. unfold allowed_file.
  assert (Hc : contains_char "." (stem ++ "." ++ ext) = true).
  { induction stem as [|c stem IH]; simpl; [done|]. by rewrite IH, orb_true_r. }
  assert (Hs : rsplit_last "." (stem ++ "." ++ ext) = Some (stem, ext)).
  { clear Hc. unfold rsplit1 in Hext.
    destruct (rsplit_last "." ext) as [[h t]|] eqn:He; [done|].
    induction stem as [|c stem IH].
    - change ("" ++ "." ++ ext) with (String "." ext).
      cbn [rsplit_last]. by rewrite He, Ascii.eqb_refl.
    - change (String c stem ++ "." ++ ext)
        with (String c (stem ++ "." ++ ext)).
      cbn [rsplit_last]. by rewrite IH. }
  rewrite Hc. unfold rsplit1. by rewrite Hs.
Qed.

Local Ltac all_csv :=
  let r := fresh "r" in
  let Hr := fresh "Hr" in
  intros r Hr;
  repeat (apply elem_of_cons in Hr as [Hr|Hr]; [exact Hr|]);
  by apply elem_of_nil in Hr.

(** The reader is chosen by the suffix of the stored name. *)
Lemma read_uploaded_dispatch (filename filepath : string) :
  let calls := (read filename filepath).1 in
  (endswith filename ".pdf" = true -> calls = [PdfTableExtractor])
  /\ (endswith filename ".pdf" = false -> endswith filename ".csv" = true ->
      forall r, r ∈ calls -> r = CsvReader)
  /\ (endswith filename ".pdf" = false -> endswith filename ".csv" = false ->
      calls = [ExcelReader]).
Proof.
  unfold read_uploaded, read_first, read_retry. cbn zeta.
  repeat split.
  - intros Hp. rewrite Hp.
    rewrite (endswith_exclusive filename ".pdf" ".csv") by done.
    by destruct (extract_table_from_pdf filepath).
  - intros Hp Hc. rewrite Hp, Hc.
    destruct (read_csv filepath "utf-8" _); cbn; [all_csv|].
    destruct (read_csv filepath "cp1251" _); cbn; [all_csv|].
    destruct (read_csv filepath "latin-1" _); cbn; all_csv.
  - intros Hp Hc. rewrite Hp, Hc.
    by destruct (read_excel filepath _).
Qed.

End RoutingFacts.

(** C3, at the upload name [.pdf]: [allowed_file] accepts it as a PDF,
    [secure_filename] strips the leading dot, and the stored name
    [<stamp>_pdf] ends neither in [.pdf] nor in [.csv], so the one reader
    called is the Excel reader and the PDF table extractor is never called. *)
Theorem upload_dot_pdf_read_as_excel :
  forall (DF : Type) (nfkd_ascii : string -> string) (now_stamp : string)
         (getsize : string -> Z)
         (extract_table_from_pdf : string -> result DF)
         (read_csv : string -> string -> option Z -> result DF)
         (read_excel : string -> option Z -> result DF),
    Routing.allowed_file ".pdf" = true
    /\ PyStr.endswith ".pdf" ".pdf" = true
    /\ Werkzeug.secure_filename nfkd_ascii ".pdf" = "pdf"
    /\ (Routing.upload_file nfkd_ascii now_stamp getsize
          extract_table_from_pdf read_csv read_excel
          {["file" := ".pdf"]}).1 = [Routing.ExcelReader].
Proof.
  intros. repeat split; try by vm_compute.
  unfold Routing.upload_file. rewrite lookup_singleton_eq.
  change (String.eqb ".pdf" "") with false.
  replace (Routing.allowed_file ".pdf") with true by (by vm_compute).
  replace (Werkzeug.secure_filename nfkd_ascii ".pdf") with "pdf"
    by (by vm_compute).
  cbv [negb].
  unfold Routing.read_uploaded, Routing.read_first.
  assert (Hp : PyStr.endswith (now_stamp ++ "_" ++ "pdf") ".pdf" = false).
  { by apply (endswith_app_other now_stamp "_pdf" ".pdf"). }
  assert (Hc : PyStr.endswith (now_stamp ++ "_" ++ "pdf") ".csv" = false).
  { by apply (endswith_app_other now_stamp "_pdf" ".csv"). }
  rewrite Hp, Hc. unfold Routing.read_retry. rewrite Hc.
  by destruct (read_excel _ _).
Qed.

(** * Frames and their columns *)

Section MonadFacts.

Lemma bind_ok_inv {A B} (m : result A) (k : A -> result B) (b : B) :
  (m ≫= k) = Ok b -> exists a, m = Ok a /\ k a = Ok b.
Proof. destruct m as [a|e]; [eauto | done]. Qed.

Lemma bind_ok {A B} (m : result A) (k : A -> result B) (a : A) :
  m = Ok a -> (m ≫= k) = k a.
Proof. by intros ->. Qed.

Lemma bind_raise {A B} (m : result A) (k : A -> result B) (e : exn) :
  m = Raise e -> (m ≫= k) = Raise e.
Proof. by intros ->. Qed.

Lemma try_except_total {A} (body : result A) (handler : exn -> result A) :
  (forall e, exists a, handler e = Ok a) ->
  exists a, try_except body handler = Ok a.
Proof. intros H. destruct body as [a|e]; simpl; eauto. Qed.

End MonadFacts.

Ltac inv_bind H :=
  repeat match type of H with
    | (_ ≫= _) = Ok _ =>
        let x := fresh "x" in
        let Hx := fresh "Hx" in
        apply bind_ok_inv in H as (x & Hx & H)
    end.

(** Membership in a list that is written out. *)
Ltac in_list :=
  repeat first [apply list_elem_of_here | apply list_elem_of_further].

Section FrameFacts.
Import Pandas.

Lemma positions_from_absent (cols : list (label * dtype)) (column : label)
    (j : nat) :
  column ∉ cols.*1 -> positions_from j cols column = [].
Proof.
  revert j. induction cols as [|[l d] cols IH]; intros j Hnot; [done|].
  cbn [positions_from]. rewrite fmap_cons, not_elem_of_cons in Hnot.
  destruct Hnot as [Hne Hnot]. simpl in Hne.
  destruct (decide (l = column)); [congruence | by apply IH].
Qed.

Lemma positions_from_unique (cols : list (label * dtype)) (column : label)
    (j : nat) :
  NoDup cols.*1 -> column ∈ cols.*1 ->
  exists i d, positions_from j cols column = [(j + i)%nat]
              /\ cols !! i = Some (column, d).
Proof.
  revert j. induction cols as [|[l d] cols IH]; intros j Hnd Hin.
  - by apply elem_of_nil in Hin.
  - rewrite fmap_cons in Hnd, Hin. apply NoDup_cons in Hnd as [Hl Hnd].
    cbn [positions_from]. simpl in Hl.
    destruct (decide (l = column)) as [->|Hne].
    + exists 0%nat, d. rewrite positions_from_absent by done.
      by rewrite Nat.add_0_r.
    + apply elem_of_cons in Hin as [Heq|Hin]; [simpl in Heq; congruence|].
      destruct (IH (S j) Hnd Hin) as (i & d' & Hp & Hi).
      exists (S i), d'. rewrite Hp. split; [f_equal; lia | done].
Qed.

(** With pairwise distinct labels, indexing by a label of the frame yields
    the [Series] at the label's position. *)
Lemma getitem_unique (df : DataFrame) (column : label) :
  NoDup (columns df) -> column ∈ columns df ->
  exists i d, df_columns df !! i = Some (column, d)
              /\ getitem df column = Ok (ItemSeries (series_at df i)).
Proof.
  intros Hnd Hin. unfold getitem, positions.
  destruct (positions_from_unique _ _ 0%nat Hnd Hin) as (i & d & -> & Hi).
  eauto.
Qed.


(** A repeated label makes [df[column]] a frame. *)
Lemma positions_from_lower (cols : list (label * dtype)) (column : label)
    (j k : nat) :
  k ∈ positions_from j cols column -> (j <= k)%nat.
Proof.
  revert j. induction cols as [|[l d] cols IH]; intros j Hk.
  - by apply elem_of_nil in Hk.
  - cbn [positions_from] in Hk. destruct (decide (l = column)).
    + apply elem_of_cons in Hk as [->|Hk]; [lia|]. apply IH in Hk. lia.
    + apply IH in Hk. lia.
Qed.

Lemma positions_from_present (cols : list (label * dtype)) (column : label)
    (j : nat) :
  column ∈ cols.*1 -> positions_from j cols column ≠ [].
Proof.
  revert j. induction cols as [|[l d] cols IH]; intros j Hin.
  - by apply elem_of_nil in Hin.
  - cbn [positions_from]. destruct (decide (l = column)); [done|].
    rewrite fmap_cons in Hin. apply elem_of_cons in Hin as [Heq|Hin].
    + simpl in Heq. congruence.
    + by apply IH.
Qed.

End FrameFacts.

(** * Column-type inference *)

Section DetectFacts.
Import Pandas TypeInference.
Variable to_datetime : scalar -> result unit.
Variable to_numeric : scalar -> result unit.

Local Abbreviation detect_column := (detect_column to_datetime to_numeric).
Local Abbreviation detect_loop := (detect_loop to_datetime to_numeric).
Local Abbreviation detect_data_types :=
  (detect_data_types to_datetime to_numeric).

Lemma probe_sample_label (probe : scalar -> result unit) (hit : string)
    (s : Series) (t : string) :
  probe_sample probe hit s = Ok t -> t = hit \/ t = "text".
Proof.
  unfold probe_sample. case_decide; [|intros [= <-]; by right].
  destruct (head 3 (dropna s) !! 0%nat); [|done].
  destruct (probe _); simpl; [intros [= <-]; by left | done].
Qed.

(** On a [Series] an iteration never raises and picks one of the three
    labels. *)
Lemma detect_column_series (s : Series) :
  exists t, detect_column (ItemSeries s) = Ok t /\ t ∈ type_labels.
Proof.
  unfold TypeInference.detect_column, type_labels. cbn [item_dtype].
  rewrite (bind_ok _ _ (s_dtype s)) by done.
  case_decide; [eexists; split; [done | in_list]|].
  case_decide; [|eexists; split; [done | in_list]].
  destruct (probe_sample to_datetime "datetime" s) as [t|e] eqn:Hd; simpl.
  { exists t. split; [done|].
    apply probe_sample_label in Hd as [->| ->]; in_list. }
  destruct (probe_sample to_numeric "numeric" s) as [t|e'] eqn:Hn; simpl.
  { exists t. split; [done|].
    apply probe_sample_label in Hn as [->| ->]; in_list. }
  eexists; split; [done | in_list].
Qed.

(** On a frame it raises: the dtype is read before any [try]. *)
Lemma detect_column_frame (d : DataFrame) :
  detect_column (ItemFrame d)
  = Raise (AttributeError "'DataFrame' object has no attribute 'dtype'").
Proof. done. Qed.

(** What the loop has stored when it returns. *)
Lemma detect_loop_returns (df : DataFrame) (cols : list label)
    (init data_types : gmap label string) :
  detect_loop df cols init = Ok data_types ->
  (forall column, column ∈ cols ->
     exists x t, getitem df column = Ok x /\ detect_column x = Ok t
                 /\ data_types !! column = Some t)
  /\ (forall column, column ∉ cols -> data_types !! column = init !! column).
Proof.
  revert init. induction cols as [|c cols IH]; intros init Hrun.
  - injection Hrun as <-. split; [|done]. intros column Hin.
    by apply elem_of_nil in Hin.
  - cbn [TypeInference.detect_loop] in Hrun.
    apply bind_ok_inv in Hrun as (x & Hx & Hrun).
    apply bind_ok_inv in Hrun as (t & Ht & Hrun).
    destruct (IH _ Hrun) as [Hin Hout]. split.
    + intros column Hc. destruct (decide (column ∈ cols)) as [Hr|Hr].
      { by apply Hin. }
      apply elem_of_cons in Hc as [->|Hc]; [|done].
      exists x, t. repeat split; [done..|].
      rewrite (Hout _ Hr). apply lookup_insert_eq.
    + intros column Hc. apply not_elem_of_cons in Hc as [Hne Hc].
      rewrite (Hout _ Hc). by apply lookup_insert_ne.
Qed.

(** The loop returns when every label it visits selects a [Series]. *)
Lemma detect_loop_total (df : DataFrame) (cols : list label)
    (init : gmap label string) :
  (forall column, column ∈ cols ->
     exists s, getitem df column = Ok (ItemSeries s)) ->
  exists data_types, detect_loop df cols init = Ok data_types.
Proof.
  revert init. induction cols as [|c cols IH]; intros init Hall.
  - by eexists.
  - cbn [TypeInference.detect_loop].
    destruct (Hall c) as [s Hs]; [by left|].
    destruct (detect_column_series s) as (t & Ht & _).
    rewrite (bind_ok _ _ _ Hs), (bind_ok _ _ _ Ht).
    apply IH. intros column Hc. apply Hall. by right.
Qed.

Lemma getitem_label (df : DataFrame) (column : label) (x : item) :
  getitem df column = Ok x -> column ∈ columns df.
Proof.
  intros Hx. destruct (decide (column ∈ columns df)) as [|Hnot]; [done|].
  unfold getitem, positions in Hx.
  by rewrite (positions_from_absent _ _ _ Hnot) in Hx.
Qed.

Lemma detect_data_types_returns (df : DataFrame)
    (data_types : gmap label string) (column : label) (x : item) :
  detect_data_types df = Ok data_types ->
  getitem df column = Ok x ->
  exists t, detect_column x = Ok t /\ data_types !! column = Some t.
Proof.
  intros Hrun Hx. apply detect_loop_returns in Hrun as [Hin _].
  destruct (Hin column (getitem_label _ _ _ Hx)) as (x' & t & Hx' & Ht & Hm).
  rewrite Hx in Hx'. injection Hx' as <-. eauto.
Qed.

(** An [object] column whose first non-null value neither parser accepts is
    labelled text. *)
Lemma detect_column_fallback (s : Series) (v : scalar) (e1 e2 : exn) :
  s_dtype s = Object ->
  head 3 (dropna s) !! 0%nat = Some v ->
  to_datetime v = Raise e1 -> to_numeric v = Raise e2 ->
  detect_column (ItemSeries s) = Ok "text".
Proof.
  intros Hd Hv H1 H2. unfold TypeInference.detect_column. cbn [item_dtype].
  rewrite (bind_ok _ _ (s_dtype s)) by done. rewrite Hd.
  case_decide as Hnum.
  { apply elem_of_cons in Hnum as [|Hnum]; [done|].
    apply elem_of_cons in Hnum as [|Hnum]; [done|].
    by apply elem_of_nil in Hnum. }
  case_decide; [|done].
  unfold probe_sample. rewrite Hv.
  assert (Hlen : (0 < length (head 3 (dropna s)))%nat).
  { apply lookup_lt_Some in Hv. lia. }
  case_decide; [|done]. by rewrite H1, H2.
Qed.

(** The label of a column is a function of its dtype and of the first three
    values [dropna] leaves. *)
Lemma detect_column_sample_only (s1 s2 : Series) :
  s_dtype s1 = s_dtype s2 ->
  head 3 (dropna s1) = head 3 (dropna s2) ->
  detect_column (ItemSeries s1) = detect_column (ItemSeries s2).
Proof.
  intros Hd Hs. unfold TypeInference.detect_column, probe_sample.
  cbn [item_dtype]. by rewrite Hd, Hs.
Qed.

(** With pairwise distinct labels the loop runs to its end. *)
Lemma detect_data_types_total (df : DataFrame) :
  NoDup (columns df) -> exists data_types, detect_data_types df = Ok data_types.
Proof.
  intros Hnd. apply detect_loop_total. intros column Hc.
  destruct (getitem_unique df column Hnd Hc) as (i & d & _ & Hg). eauto.
Qed.

(** C2 (amended): on a frame whose column labels are pairwise distinct,
    [detect_data_types] returns, its result has exactly the frame's labels as
    keys, every value is one of numeric, datetime and text, and an object
    column whose first non-null value makes both probes raise is text. *)
Theorem detect_data_types_distinct_labels (df : DataFrame) :
  NoDup (columns df) ->
  exists data_types,
    detect_data_types df = Ok data_types
    /\ dom data_types = list_to_set (columns df)
    /\ (forall column t, data_types !! column = Some t -> t ∈ type_labels)
    /\ (forall column s v e1 e2,
          getitem df column = Ok (ItemSeries s) ->
          s_dtype s = Object ->
          head 3 (dropna s) !! 0%nat = Some v ->
          to_datetime v = Raise e1 -> to_numeric v = Raise e2 ->
          data_types !! column = Some "text").
Proof.
  intros Hnd. destruct (detect_data_types_total df Hnd) as [m Hm].
  exists m. split; [exact Hm|].
  pose proof (detect_loop_returns _ _ _ _ Hm) as [Hin Hout].
  repeat split.
  - apply set_eq. intros column.
    rewrite elem_of_dom, elem_of_list_to_set. split.
    + intros [t Ht]. destruct (decide (column ∈ columns df)); [done|].
      rewrite Hout in Ht by done. by rewrite lookup_empty in Ht.
    + intros Hc. destruct (Hin _ Hc) as (x & t & _ & _ & Ht). eauto.
  - intros column t Ht.
    destruct (decide (column ∈ columns df)) as [Hc|Hc].
    + destruct (Hin _ Hc) as (x & t' & Hx & Hx' & Ht').
      rewrite Ht in Ht'. injection Ht' as <-.
      destruct (getitem_unique df column Hnd Hc) as (i & d & _ & Hg).
      rewrite Hg in Hx. injection Hx as <-.
      destruct (detect_column_series (series_at df i)) as (t' & Hs & Hl).
      rewrite Hs in Hx'. by injection Hx' as <-.
    + rewrite Hout in Ht by done. by rewrite lookup_empty in Ht.
  - intros column s v e1 e2 Hg Hd Hv H1 H2.
    destruct (detect_data_types_returns _ _ _ _ Hm Hg) as (t & Ht & Hl).
    rewrite (detect_column_fallback s v e1 e2) in Ht by done.
    by injection Ht as <-.
Qed.

(** C5: the labels [detect_data_types] gives to two columns, of one frame or
    of two, are equal when the columns have the same dtype and the same first
    three non-null values. *)
Theorem detect_data_types_sample_only (df1 df2 : DataFrame)
    (m1 m2 : gmap label string) (c1 c2 : label) (s1 s2 : Series) :
  detect_data_types df1 = Ok m1 ->
  detect_data_types df2 = Ok m2 ->
  getitem df1 c1 = Ok (ItemSeries s1) ->
  getitem df2 c2 = Ok (ItemSeries s2) ->
  s_dtype s1 = s_dtype s2 ->
  head 3 (dropna s1) = head 3 (dropna s2) ->
  exists t, m1 !! c1 = Some t /\ m2 !! c2 = Some t.
Proof.
  intros H1 H2 Hg1 Hg2 Hd Hs.
  destruct (detect_data_types_returns _ _ _ _ H1 Hg1) as (t1 & Ht1 & Hl1).
  destruct (detect_data_types_returns _ _ _ _ H2 Hg2) as (t2 & Ht2 & Hl2).
  rewrite (detect_column_sample_only s1 s2 Hd Hs) in Ht1.
  rewrite Ht1 in Ht2. injection Ht2 as <-. eauto.
Qed.

End DetectFacts.

Section DetectExamples.
Import Pandas TypeInference Samples.

Lemma detect_data_types_distinct_labels_witness :
  NoDup (columns sales_frame)
  /\ exists data_types,
       detect_data_types sample_to_datetime sample_to_numeric sales_frame
       = Ok data_types
       /\ data_types !! Some "make" = Some "text".
Proof.
  assert (Hnd : NoDup (columns sales_frame)).
  { apply (bool_decide_unpack _). by vm_compute. }
  split; [exact Hnd|].
  destruct (detect_data_types_distinct_labels sample_to_datetime
              sample_to_numeric sales_frame Hnd)
    as (m & Hm & _ & _ & Hfall).
  exists m. split; [exact Hm|].
  eapply (Hfall (Some "make") _ (SStr "Toyota")); reflexivity.
Defined.

(** C2 as stated fails on a frame with a repeated label: [df[column]] is
    then a frame, which has no [dtype]. *)
Lemma detect_data_types_repeated_label_raises :
  detect_data_types sample_to_datetime sample_to_numeric repeated_label_frame
  = Raise (AttributeError "'DataFrame' object has no attribute 'dtype'").
Proof. reflexivity. Qed.

Lemma detect_data_types_sample_only_witness :
  exists t,
    (exists m, detect_data_types sample_to_datetime sample_to_numeric
                 sales_frame = Ok m /\ m !! Some "saledate" = Some t)
    /\ (exists m, detect_data_types sample_to_datetime sample_to_numeric
                    sales_frame_longer = Ok m /\ m !! Some "saledate" = Some t).
Proof.
  destruct (detect_data_types_total sample_to_datetime sample_to_numeric
              sales_frame) as [m1 H1];
    [apply (bool_decide_unpack _); by vm_compute|].
  destruct (detect_data_types_total sample_to_datetime sample_to_numeric
              sales_frame_longer) as [m2 H2];
    [apply (bool_decide_unpack _); by vm_compute|].
  destruct (detect_data_types_sample_only sample_to_datetime sample_to_numeric
              sales_frame sales_frame_longer m1 m2
              (Some "saledate") (Some "saledate")
              (series_at sales_frame 3) (series_at sales_frame_longer 3)
              H1 H2 eq_refl eq_refl eq_refl eq_refl) as (t & Ht1 & Ht2).
  exists t. split; eauto.
Defined.

End DetectExamples.

(** * Descriptive statistics *)

Section NumericFacts.
Import Analytics.

Lemma round_half_even_lower (q : Q) :
  (0 <= q)%Q -> (0 <= round_half_even q)%Z.
Proof.
  intros Hq. unfold round_half_even.
  assert (Hf : (0 <= Qfloor q)%Z).
  { change 0%Z with (Qfloor 0). by apply Qfloor_resp_le. }
  destruct (_ ?= _)%Q; [destruct (Z.even _)|..]; lia.
Qed.

Lemma round_half_even_upper (q : Q) (n : Z) :
  (q <= inject_Z n)%Q -> (round_half_even q <= n)%Z.
Proof.
  intros Hq. unfold round_half_even.
  assert (Hf : (Qfloor q <= n)%Z).
  { rewrite <- (Qfloor_Z n). by apply Qfloor_resp_le. }
  destruct (decide (Qfloor q = n)) as [Heq|Hne].
  - assert (Hlt : (q - inject_Z (Qfloor q) ?= 1 # 2)%Q = Lt).
    { rewrite Heq. apply Qlt_alt. change (q - inject_Z n < 1 # 2)%Q. lra. }
    rewrite Hlt. lia.
  - destruct (_ ?= _)%Q; [destruct (Z.even _)|..]; lia.
Qed.

Lemma round_half_even_cases (q : Q) :
  round_half_even q = Qfloor q \/ round_half_even q = (Qfloor q + 1)%Z.
Proof.
  unfold round_half_even.
  destruct (_ ?= _)%Q; [destruct (Z.even _)|..]; auto.
Qed.

Lemma round_half_even_mono (q1 q2 : Q) :
  (q1 <= q2)%Q -> (round_half_even q1 <= round_half_even q2)%Z.
Proof.
  intros Hle. pose proof (Qfloor_resp_le _ _ Hle) as Hf.
  destruct (Z.eq_dec (Qfloor q1) (Qfloor q2)) as [Heq|Hne].
  - unfold round_half_even. rewrite <- Heq.
    destruct (q1 - inject_Z (Qfloor q1) ?= 1 # 2)%Q eqn:H1;
      destruct (q2 - inject_Z (Qfloor q1) ?= 1 # 2)%Q eqn:H2;
      first [apply Qeq_alt in H1 | apply Qlt_alt in H1 | apply Qgt_alt in H1];
      first [apply Qeq_alt in H2 | apply Qlt_alt in H2 | apply Qgt_alt in H2];
      try (destruct (Z.even _)); first [lia | exfalso; lra].
  - destruct (round_half_even_cases q1) as [H1|H1],
             (round_half_even_cases q2) as [H2|H2]; rewrite H1, H2; lia.
Qed.

Lemma round_half_even_Z (z : Z) : round_half_even (inject_Z z) = z.
Proof.
  unfold round_half_even. rewrite Qfloor_Z.
  assert (H : (inject_Z z - inject_Z z ?= 1 # 2)%Q = Lt).
  { apply Qlt_alt. change (inject_Z z - inject_Z z < 1 # 2)%Q. lra. }
  by rewrite H.
Qed.

Lemma round_half_even_between (q : Q) (a b : Z) :
  (inject_Z a <= q <= inject_Z b)%Q ->
  (a <= round_half_even q <= b)%Z.
Proof.
  intros [Ha Hb]. split.
  - rewrite <- (round_half_even_Z a). by apply round_half_even_mono.
  - rewrite <- (round_half_even_Z b). by apply round_half_even_mono.
Qed.

Lemma pow2_pos (z : Z) : (0 < 2 ^ z)%Q.
Proof. apply Qpower_0_lt. lra. Qed.

Lemma pow2_Z (z : Z) : (0 <= z)%Z -> (inject_Z (2 ^ z) == 2 ^ z)%Q.
Proof. intros Hz. by rewrite Zpower_Qpower. Qed.

Lemma pow2_succ (z : Z) : (2 ^ (z + 1) == 2 * 2 ^ z)%Q.
Proof. rewrite Qpower_plus by lra. rewrite Qpower_1_r. lra. Qed.

Lemma ilog2_spec (q : Q) :
  (0 < q)%Q -> (2 ^ ilog2 q <= q)%Q /\ (q < 2 ^ (ilog2 q + 1))%Q.
Proof.
  intros Hq. unfold ilog2. destruct (Qle_bool 1 q) eqn:H1.
  - apply Qle_bool_iff in H1.
    assert (Hf : (1 <= Qfloor q)%Z).
    { change 1%Z with (Qfloor 1). by apply Qfloor_resp_le. }
    destruct (Z.log2_spec (Qfloor q)) as [Hlo Hhi]; [lia|].
    pose proof (Z.log2_nonneg (Qfloor q)) as He.
    pose proof (Qfloor_le q) as Hfl. pose proof (Qlt_floor q) as Hfu.
    split.
    + rewrite <- pow2_Z by done. eapply Qle_trans; [|exact Hfl].
      by rewrite <- Zle_Qle.
    + rewrite <- pow2_Z by lia. eapply Qlt_le_trans; [exact Hfu|].
      rewrite <- Zle_Qle. rewrite <- Z.add_1_r in Hhi. lia.
  - assert (Hlt : (q < 1)%Q).
    { apply Qnot_le_lt. intros H. apply Qle_bool_iff in H. congruence. }
    set (x := (/ q)%Q).
    assert (Hx : (q * x == 1)%Q) by (apply Qmult_inv_r; lra).
    assert (Hx1 : (1 < x)%Q) by nra.
    pose proof (Qle_ceiling x) as Hcu. pose proof (Qceiling_lt x) as Hcl.
    set (c := Qceiling x) in *.
    assert (Hc : (1 < c)%Z).
    { rewrite (Zlt_Qlt 1 c). eapply Qlt_le_trans; [exact Hx1 | exact Hcu]. }
    destruct (Z.log2_up_spec c Hc) as [Hlo Hhi].
    set (L := Z.log2_up c) in *.
    assert (HL : (0 < L)%Z) by (apply Z.log2_up_pos; lia).
    assert (Hp : (0 < 2 ^ L)%Q) by apply pow2_pos.
    assert (Hp' : (0 < 2 ^ (L - 1))%Q) by apply pow2_pos.
    split.
    + rewrite Qpower_opp.
      assert (Hxle : (x <= 2 ^ L)%Q).
      { eapply Qle_trans; [exact Hcu|]. rewrite <- pow2_Z by lia.
        by rewrite <- Zle_Qle. }
      apply Qle_shift_inv_r; [done|]. nra.
    + replace (- L + 1)%Z with (- (L - 1))%Z by lia. rewrite Qpower_opp.
      assert (Hxgt : (2 ^ (L - 1) < x)%Q).
      { eapply Qle_lt_trans; [|exact Hcl]. rewrite <- pow2_Z by lia.
        rewrite <- Zle_Qle. replace (Z.pred L) with (L - 1)%Z in Hlo by lia.
        lia. }
      apply Qlt_shift_inv_l; [done|]. nra.
Qed.

Lemma ilog2_mono (x y : Q) :
  (0 < x)%Q -> (x <= y)%Q -> (ilog2 x <= ilog2 y)%Z.
Proof.
  intros Hx Hxy.
  destruct (ilog2_spec x Hx) as [Hlo _].
  destruct (ilog2_spec y) as [_ Hhi]; [lra|].
  assert (H : (2 ^ ilog2 x < 2 ^ (ilog2 y + 1))%Q) by lra.
  apply Qpower_lt_compat_l_inv in H; [lia | lra].
Qed.

Lemma binary64_pos_mono (x y : Q) :
  (0 < x)%Q -> (x <= y)%Q -> (binary64_pos x <= binary64_pos y)%Q.
Proof.
  intros Hx Hxy. unfold binary64_pos. cbn zeta.
  pose proof (ilog2_mono x y Hx Hxy) as He.
  set (ex := Z.max (ilog2 x) (-1022)). set (ey := Z.max (ilog2 y) (-1022)).
  assert (Hexy : (ex <= ey)%Z) by (unfold ex, ey; lia).
  pose proof (pow2_pos (ex - 52)) as Hux.
  pose proof (pow2_pos (ey - 52)) as Huy.
  destruct (Z.eq_dec ex ey) as [Heq|Hne].
  - rewrite <- Heq. apply Qmult_le_compat_r; [|lra].
    rewrite <- Zle_Qle. apply round_half_even_mono.
    apply Qmult_le_compat_r; [done|]. apply Qlt_le_weak, Qinv_lt_0_compat.
    done.
  - assert (Hlt : (ex < ey)%Z) by lia.
    assert (Hey : ey = ilog2 y) by (unfold ex, ey in *; lia).
    destruct (ilog2_spec x Hx) as [_ Hxhi].
    destruct (ilog2_spec y) as [Hylo _]; [lra|].
    assert (Hx53 : (x / 2 ^ (ex - 52) <= inject_Z (2 ^ 53))%Q).
    { apply Qle_shift_div_r; [done|]. rewrite pow2_Z by lia.
      rewrite <- Qpower_plus by lra. replace (53 + (ex - 52))%Z with (ex + 1)%Z by lia.
      apply Qlt_le_weak. eapply Qlt_le_trans; [exact Hxhi|].
      apply Qpower_le_compat_l; [unfold ex; lia | lra]. }
    assert (Hy52 : (inject_Z (2 ^ 52) <= y / 2 ^ (ey - 52))%Q).
    { apply Qle_shift_div_l; [done|]. rewrite pow2_Z by lia.
      rewrite <- Qpower_plus by lra. replace (52 + (ey - 52))%Z with ey by lia.
      by rewrite Hey. }
    assert (Hrx : (round_half_even (x / 2 ^ (ex - 52)) <= 2 ^ 53)%Z).
    { rewrite <- (round_half_even_Z (2 ^ 53)). by apply round_half_even_mono. }
    assert (Hry : (2 ^ 52 <= round_half_even (y / 2 ^ (ey - 52)))%Z).
    { rewrite <- (round_half_even_Z (2 ^ 52)). by apply round_half_even_mono. }
    rewrite Zle_Qle in Hrx, Hry.
    apply (Qle_trans _ (2 ^ (ex + 1))%Q).
    + replace (ex + 1)%Z with (53 + (ex - 52))%Z by lia.
      rewrite Qpower_plus by lra. rewrite <- (pow2_Z 53) by lia.
      apply Qmult_le_compat_r; [done | lra].
    + apply (Qle_trans _ (2 ^ ey)%Q).
      * apply Qpower_le_compat_l; [lia | lra].
      * replace ey with (52 + (ey - 52))%Z at 1 by lia.
        rewrite Qpower_plus by lra. rewrite <- (pow2_Z 52) by lia.
        apply Qmult_le_compat_r; [done | lra].
Qed.

Lemma binary64_pos_nonneg (x : Q) : (0 < x)%Q -> (0 <= binary64_pos x)%Q.
Proof.
  intros Hx. unfold binary64_pos. cbn zeta.
  pose proof (pow2_pos (Z.max (ilog2 x) (-1022) - 52)) as Hu.
  apply Qmult_le_0_compat; [|lra].
  change 0%Q with (inject_Z 0). rewrite <- Zle_Qle.
  rewrite <- (round_half_even_Z 0). apply round_half_even_mono.
  apply Qle_shift_div_l; [done|]. change (inject_Z 0) with 0%Q. lra.
Qed.

Lemma binary64_mono (x y : Q) :
  (0 <= x)%Q -> (x <= y)%Q -> (binary64 x <= binary64 y)%Q.
Proof.
  intros Hx Hxy. unfold binary64. rewrite !Qred_correct.
  destruct (x ?= 0)%Q eqn:Cx.
  - destruct (y ?= 0)%Q eqn:Cy.
    + lra.
    + apply Qlt_alt in Cy. lra.
    + apply Qgt_alt in Cy. by apply binary64_pos_nonneg.
  - apply Qlt_alt in Cx. lra.
  - apply Qgt_alt in Cx. destruct (y ?= 0)%Q eqn:Cy.
    + apply Qeq_alt in Cy. lra.
    + apply Qlt_alt in Cy. lra.
    + by apply binary64_pos_mono.
Qed.

Lemma binary64_fixed :
  binary64 0 = 0%Q /\ binary64 1 = 1%Q /\ binary64 100 = 100%Q
  /\ binary64 10000 = 10000%Q.
Proof. by vm_compute. Qed.

(** Rounding keeps a value between two floats that bound it. *)
Lemma binary64_between (lo hi q : Q) :
  (0 <= lo)%Q -> binary64 lo = lo -> binary64 hi = hi ->
  (lo <= q <= hi)%Q -> (lo <= binary64 q <= hi)%Q.
Proof.
  intros H0 Hlo Hhi [H1 H2]. split.
  - apply (Qle_trans _ (binary64 lo)); [rewrite Hlo; lra|].
    apply binary64_mono; lra.
  - apply (Qle_trans _ (binary64 hi)); [|rewrite Hhi; lra].
    apply binary64_mono; lra.
Qed.

Lemma binary64_unit (q : Q) :
  (0 <= q <= 1)%Q -> (0 <= binary64 q <= 1)%Q.
Proof.
  destruct binary64_fixed as (F0 & F1 & _).
  apply binary64_between; [lra | exact F0 | exact F1].
Qed.

Lemma ratio_bounds (c l : Z) :
  (0 <= c <= l)%Z -> (0 < l)%Z ->
  (0 <= binary64 (inject_Z c) / binary64 (inject_Z l) <= 1)%Q.
Proof.
  intros [H0 H1] Hl. destruct binary64_fixed as (F0 & F1 & _).
  assert (Hc0 : (0 <= inject_Z c)%Q) by (rewrite <- (Zle_Qle 0); done).
  assert (Hc1 : (inject_Z c <= inject_Z l)%Q) by (rewrite <- Zle_Qle; done).
  assert (Hl1 : (1 <= inject_Z l)%Q) by (rewrite <- (Zle_Qle 1); lia).
  assert (Ha : (0 <= binary64 (inject_Z c))%Q).
  { apply (Qle_trans _ (binary64 0)); [rewrite F0; lra|].
    apply binary64_mono; lra. }
  assert (Hab : (binary64 (inject_Z c) <= binary64 (inject_Z l))%Q).
  { apply binary64_mono; lra. }
  assert (Hb : (1 <= binary64 (inject_Z l))%Q).
  { apply (Qle_trans _ (binary64 1)); [rewrite F1; lra|].
    apply binary64_mono; lra. }
  split.
  - apply Qle_shift_div_l; lra.
  - apply Qle_shift_div_r; lra.
Qed.

(** Rounding to two decimals keeps a percentage a percentage. *)
Lemma round2_percentage (q : Q) :
  (0 <= q <= 100)%Q -> percentage (round2 (Finite q)).
Proof.
  intros [H0 H1]. eexists. split; [reflexivity|].
  destruct binary64_fixed as (F0 & _ & F100 & F10000).
  assert (Hy : (0 <= binary64 (q * 100) <= 10000)%Q).
  { apply binary64_between; [lra | exact F0 | exact F10000 | lra]. }
  destruct (round_half_even_between (binary64 (q * 100)) 0 10000)
    as [Hlo Hhi].
  { change (inject_Z 0) with 0%Q. change (inject_Z 10000) with 10000%Q.
    exact Hy. }
  rewrite (Zle_Qle 0) in Hlo. rewrite Zle_Qle in Hhi.
  change (inject_Z 0) with 0%Q in Hlo.
  change (inject_Z 10000) with 10000%Q in Hhi.
  apply binary64_between; [lra | exact F0 | exact F100 |].
  split.
  - apply Qle_shift_div_l; lra.
  - apply Qle_shift_div_r; lra.
Qed.

(** [round((c / l) * 100, 2)] *)
Lemma share_percentage (c l : Z) :
  (0 <= c <= l)%Z -> (0 < l)%Z ->
  percentage (round2 (times_100 (true_divide c l))).
Proof.
  intros Hc Hl. unfold true_divide.
  destruct (Z.eqb_spec l 0) as [->|_]; [lia|]. cbn [times_100].
  destruct binary64_fixed as (F0 & _ & F100 & _).
  apply round2_percentage.
  pose proof (binary64_unit _ (ratio_bounds c l Hc Hl)).
  apply binary64_between; [lra | exact F0 | exact F100 | lra].
Qed.

(** [round((1 - c / l) * 100, 2)] *)
Lemma rest_percentage (c l : Z) :
  (0 <= c <= l)%Z -> (0 < l)%Z ->
  percentage (round2 (times_100 (one_minus (true_divide c l)))).
Proof.
  intros Hc Hl. unfold true_divide.
  destruct (Z.eqb_spec l 0) as [->|_]; [lia|]. cbn [one_minus times_100].
  destruct binary64_fixed as (F0 & _ & F100 & _).
  apply round2_percentage.
  pose proof (binary64_unit _ (ratio_bounds c l Hc Hl)) as Hx.
  assert (Hr : (0 <= binary64 (1 - binary64 (binary64 (inject_Z c)
                                              / binary64 (inject_Z l)))
                <= 1)%Q) by (apply binary64_unit; lra).
  apply binary64_between; [lra | exact F0 | exact F100 | lra].
Qed.

End NumericFacts.

Section CountFacts.
Import Pandas.

Lemma length_omap_le {A B} (f : A -> option B) (l : list A) :
  (length (omap f l) <= length l)%nat.
Proof.
  induction l as [|a l IH]; csimpl; [lia|]. destruct (f a); csimpl; lia.
Qed.

Lemma count_le (s : Series) : (count s <= length (s_values s))%nat.
Proof. apply length_omap_le. Qed.

Lemma null_count_le (s : Series) : (null_count s <= length (s_values s))%nat.
Proof. unfold null_count. apply length_filter. Qed.

Lemma series_at_length (df : DataFrame) (j : nat) :
  length (s_values (series_at df j)) = len df.
Proof. unfold series_at, column_values, len. simpl. apply length_map. Qed.

Lemma sum_list_bounded (l : list nat) (b : nat) :
  Forall (fun x => x <= b)%nat l -> (sum_list l <= length l * b)%nat.
Proof. induction 1; simpl; lia. Qed.

Lemma total_nulls_le (df : DataFrame) :
  (total_nulls df <= len df * ncols df)%nat.
Proof.
  unfold total_nulls.
  etransitivity; [apply (sum_list_bounded _ (len df))|].
  - apply Forall_map, Forall_forall. intros j _.
    rewrite <- (series_at_length df j). apply null_count_le.
  - rewrite length_map, length_seq. lia.
Qed.

Lemma getitem_series (df : DataFrame) (column : label) (s : Series) :
  getitem df column = Ok (ItemSeries s) -> exists j, s = series_at df j.
Proof.
  unfold getitem. destruct (positions df column) as [|j [|k js]]; [done| |done].
  intros [= <-]. eauto.
Qed.

End CountFacts.

Section AnalyticsFacts.
Import Pandas Analytics.
Variables series_sum series_mean series_min series_max series_median
  series_std : Series -> result npfloat.
Variable value_counts : Series -> result (list (scalar * Z)).
Variable str_scalar : scalar -> string.

Local Abbreviation numeric_stats :=
  (numeric_stats series_sum series_mean series_min series_max series_median
     series_std).
Local Abbreviation column_info :=
  (column_info series_sum series_mean series_min series_max series_median
     series_std value_counts str_scalar).
Local Abbreviation info_loop :=
  (info_loop series_sum series_mean series_min series_max series_median
     series_std value_counts str_scalar).
Local Abbreviation get_basic_analytics :=
  (get_basic_analytics series_sum series_mean series_min series_max
     series_median series_std value_counts str_scalar).

(** Whether the [try] returns or the [except] takes over, the update writes
    the six statistics, and writes 0.0 for a column without a value. *)
Lemma numeric_stats_shape (s : Series) :
  exists a b c d e f,
    match numeric_stats s with Ok stats => stats | Raise _ => zero_stats end
    = [("sum", VFloat a); ("mean", VFloat b); ("min", VFloat c);
       ("max", VFloat d); ("median", VFloat e); ("std", VFloat f)]
    /\ (isnull_all s = true ->
        a = zero /\ b = zero /\ c = zero /\ d = zero /\ e = zero /\ f = zero).
Proof.
  unfold Analytics.numeric_stats, stat_or_zero.
  destruct (isnull_all s); cbn [negb].
  - by exists zero, zero, zero, zero, zero, zero.
  - destruct (series_sum s) as [a|]; cbn;
      [|by exists zero, zero, zero, zero, zero, zero].
    destruct (series_mean s) as [b|]; cbn;
      [|by exists zero, zero, zero, zero, zero, zero].
    destruct (series_min s) as [c|]; cbn;
      [|by exists zero, zero, zero, zero, zero, zero].
    destruct (series_max s) as [d|]; cbn;
      [|by exists zero, zero, zero, zero, zero, zero].
    destruct (series_median s) as [e|]; cbn;
      [|by exists zero, zero, zero, zero, zero, zero].
    destruct (series_std s) as [f|]; cbn;
      [|by exists zero, zero, zero, zero, zero, zero].
    by exists a, b, c, d, e, f.
Qed.

Lemma update_lookup_other {V} (d : gmap string V) (kvs : list (string * V))
    (key : string) :
  key ∉ kvs.*1 -> update d kvs !! key = d !! key.
Proof.
  revert d. induction kvs as [|[k v] kvs IH]; intros d Hk; [done|].
  rewrite fmap_cons in Hk. apply not_elem_of_cons in Hk as [Hne Hk].
  change (update d ((k, v) :: kvs)) with (update (<[k:=v]> d) kvs).
  rewrite IH by done. by apply lookup_insert_ne.
Qed.

(** The entry of a [Series]. *)
Lemma column_info_series (df : DataFrame) (s : Series) :
  exists info,
    column_info df (ItemSeries s) = Ok info
    /\ info !! "completeness" = Some (VFloat (completeness df s))
    /\ (s_dtype s ∈ [Int64; Float64] ->
        (forall k, k ∈ stat_keys -> exists x, info !! k = Some (VFloat x))
        /\ (isnull_all s = true ->
            forall k, k ∈ stat_keys -> info !! k = Some (VFloat zero))).
Proof.
  unfold Analytics.column_info. cbn [item_dtype].
  rewrite (bind_ok _ _ (s_dtype s)) by done.
  set (col_info := update ∅ _).
  assert (Hc : col_info !! "completeness"
               = Some (VFloat (completeness df s))) by done.
  assert (Hnone : forall k, k ∈ stat_keys -> col_info !! k = None).
  { intros k Hk. unfold col_info. rewrite update_lookup_other; [done|].
    cbn. unfold stat_keys in Hk.
    rewrite !elem_of_cons, elem_of_nil in Hk. rewrite !not_elem_of_cons.
    repeat split; try apply not_elem_of_nil;
      intros ->; repeat destruct Hk as [Hk|Hk]; done. }
  unfold is_numeric_dtype, is_object_dtype.
  case_bool_decide as Hnum.
  - destruct (numeric_stats_shape s)
      as (a & b & c & d & e & f & -> & Hzero).
    eexists. split; [reflexivity|]. split.
    + rewrite update_lookup_other; [done|]. cbn.
      rewrite !not_elem_of_cons. repeat split; try done.
      apply not_elem_of_nil.
    + intros _. split.
      * intros k Hk. unfold stat_keys in Hk.
        rewrite !elem_of_cons, elem_of_nil in Hk.
        destruct Hk as [->|[->|[->|[->|[->|[->|[]]]]]]]; by eexists.
      * intros Hall k Hk.
        destruct (Hzero Hall) as (-> & -> & -> & -> & -> & ->).
        unfold stat_keys in Hk. rewrite !elem_of_cons, elem_of_nil in Hk.
        destruct Hk as [->|[->|[->|[->|[->|[->|[]]]]]]]; done.
  - case_bool_decide.
    + eexists. split; [reflexivity|]. split; [|done].
      rewrite update_lookup_other; [done|].
      unfold text_stats. destruct (value_counts s); cbn;
        rewrite !not_elem_of_cons; repeat split; try done;
        apply not_elem_of_nil.
    + eexists. split; [reflexivity|]. by split.
Qed.

Lemma info_loop_returns (df : DataFrame) (cols : list label)
    (init info : gmap label (gmap string value)) :
  info_loop df cols init = Ok info ->
  (forall column, column ∈ cols ->
     exists x col_info, getitem df column = Ok x
                        /\ column_info df x = Ok col_info
                        /\ info !! column = Some col_info)
  /\ (forall column, column ∉ cols -> info !! column = init !! column).
Proof.
  revert init. induction cols as [|c cols IH]; intros init Hrun.
  - injection Hrun as <-. split; [|done]. intros column Hin.
    by apply elem_of_nil in Hin.
  - cbn [Analytics.info_loop] in Hrun.
    apply bind_ok_inv in Hrun as (x & Hx & Hrun).
    apply bind_ok_inv in Hrun as (t & Ht & Hrun).
    destruct (IH _ Hrun) as [Hin Hout]. split.
    + intros column Hc. destruct (decide (column ∈ cols)) as [Hr|Hr].
      { by apply Hin. }
      apply elem_of_cons in Hc as [->|Hc]; [|done].
      exists x, t. repeat split; [done..|].
      rewrite (Hout _ Hr). apply lookup_insert_eq.
    + intros column Hc. apply not_elem_of_cons in Hc as [Hne Hc].
      rewrite (Hout _ Hc). by apply lookup_insert_ne.
Qed.

Lemma info_loop_total (df : DataFrame) (cols : list label)
    (init : gmap label (gmap string value)) :
  (forall column, column ∈ cols ->
     exists s, getitem df column = Ok (ItemSeries s)) ->
  exists info, info_loop df cols init = Ok info.
Proof.
  revert init. induction cols as [|c cols IH]; intros init Hall.
  - by eexists.
  - cbn [Analytics.info_loop].
    destruct (Hall c) as [s Hs]; [by left|].
    destruct (column_info_series df s) as (t & Ht & _).
    rewrite (bind_ok _ _ _ Hs), (bind_ok _ _ _ Ht).
    apply IH. intros column Hc. apply Hall. by right.
Qed.

Lemma columns_where_total (df : DataFrame) (test : dtype -> bool)
    (cols : list label) :
  (forall column, column ∈ cols ->
     exists s, getitem df column = Ok (ItemSeries s)) ->
  exists selected, columns_where df test cols = Ok selected.
Proof.
  induction cols as [|c cols IH]; intros Hall; [by eexists|].
  cbn [columns_where]. destruct (Hall c) as [s Hs]; [by left|].
  rewrite (bind_ok _ _ _ Hs). cbn [item_dtype].
  rewrite (bind_ok _ _ (s_dtype s)) by done.
  destruct IH as [sel Hsel]; [intros column Hc; apply Hall; by right|].
  rewrite (bind_ok _ _ _ Hsel). by eexists.
Qed.

Lemma distinct_labels_select_series (df : DataFrame) :
  NoDup (columns df) ->
  forall column, column ∈ columns df ->
    exists s, getitem df column = Ok (ItemSeries s).
Proof.
  intros Hnd column Hc.
  destruct (getitem_unique df column Hnd Hc) as (i & d & _ & Hg). eauto.
Qed.

Lemma get_basic_analytics_total (df : DataFrame) :
  NoDup (columns df) -> exists a, get_basic_analytics df = Ok a.
Proof.
  intros Hnd. pose proof (distinct_labels_select_series df Hnd) as Hsel.
  unfold Analytics.get_basic_analytics.
  destruct (columns_where_total df is_numeric_dtype _ Hsel) as [n Hn].
  destruct (columns_where_total df is_object_dtype _ Hsel) as [t Ht].
  destruct (info_loop_total df (columns df) ∅ Hsel) as [info Hinfo].
  rewrite (bind_ok _ _ _ Hn), (bind_ok _ _ _ Ht), (bind_ok _ _ _ Hinfo).
  by eexists.
Qed.

Lemma get_basic_analytics_returns (df : DataFrame) (a : analytics) :
  get_basic_analytics df = Ok a ->
  total_rows a = Z.of_nat (len df)
  /\ total_columns a = Z.of_nat (ncols df)
  /\ completeness_percentage (summary_stats a) = frame_completeness df
  /\ info_loop df (columns df) ∅ = Ok (columns_info a).
Proof.
  unfold Analytics.get_basic_analytics. intros Hrun.
  apply bind_ok_inv in Hrun as (n & Hn & Hrun).
  apply bind_ok_inv in Hrun as (t & Ht & Hrun).
  apply bind_ok_inv in Hrun as (info & Hinfo & Hrun).
  by injection Hrun as <-.
Qed.


(** C10: on a frame with a row and a column, neither divisor of
    [get_basic_analytics] is zero, the completeness of the frame and of each
    column is a finite value between 0 and 100, these are the values the
    function reports, and it does report them when the labels are distinct. *)
Theorem completeness_is_a_percentage (df : DataFrame) :
  (0 < len df)%nat -> (0 < ncols df)%nat ->
  (Z.of_nat (len df) * Z.of_nat (ncols df))%Z ≠ 0%Z
  /\ Z.of_nat (len df) ≠ 0%Z
  /\ percentage (frame_completeness df)
  /\ (forall j, percentage (completeness df (series_at df j)))
  /\ (forall a, get_basic_analytics df = Ok a ->
        percentage (completeness_percentage (summary_stats a))
        /\ forall column info,
             columns_info a !! column = Some info ->
             exists x, info !! "completeness" = Some (VFloat x)
                       /\ percentage x)
  /\ (NoDup (columns df) -> exists a, get_basic_analytics df = Ok a).
Proof.
  intros Hrows Hcols.
  assert (Hframe : percentage (frame_completeness df)).
  { apply rest_percentage; [|lia]. pose proof (total_nulls_le df). nia. }
  assert (Hcol : forall j, percentage (completeness df (series_at df j))).
  { intros j. apply share_percentage; [|lia].
    pose proof (count_le (series_at df j)) as Hle.
    rewrite series_at_length in Hle. lia. }
  do 2 (split; [lia|]). do 2 (split; [done|]).
  split; [|apply get_basic_analytics_total].
  - intros a Ha.
    destruct (get_basic_analytics_returns df a Ha) as (_ & _ & Hfc & Hloop).
    split; [by rewrite Hfc|].
    apply info_loop_returns in Hloop as [Hin Hout].
    intros column info Hlook.
    destruct (decide (column ∈ columns df)) as [Hmem|Hmem].
    + destruct (Hin _ Hmem) as (x & info' & Hx & Hinfo & Hlook').
      rewrite Hlook in Hlook'. injection Hlook' as <-.
      destruct x as [s|d]; [|done].
      destruct (getitem_series _ _ _ Hx) as [j ->].
      destruct (column_info_series df (series_at df j))
        as (info' & Hinfo' & Hcompl & _).
      rewrite Hinfo' in Hinfo. injection Hinfo as <-. eauto.
    + rewrite Hout in Hlook by done. by rewrite lookup_empty in Hlook.
Qed.

End AnalyticsFacts.

Section AnalyticsExamples.
Import Pandas Analytics Samples.

Local Abbreviation sample_analytics :=
  (get_basic_analytics sample_sum sample_mean sample_min sample_max
     sample_median sample_std sample_value_counts sample_str).



Lemma completeness_is_a_percentage_witness :
  (0 < len sales_frame)%nat /\ (0 < ncols sales_frame)%nat
  /\ percentage (frame_completeness sales_frame)
  /\ exists a, sample_analytics sales_frame = Ok a
               /\ percentage (completeness_percentage (summary_stats a)).
Proof.
  assert (Hr : (0 < len sales_frame)%nat) by (vm_compute; lia).
  assert (Hc : (0 < ncols sales_frame)%nat) by (vm_compute; lia).
  destruct (completeness_is_a_percentage sample_sum sample_mean sample_min
              sample_max sample_median sample_std sample_value_counts
              sample_str sales_frame Hr Hc)
    as (_ & _ & Hf & _ & Hret & Htot).
  destruct Htot as [a Ha]; [apply (bool_decide_unpack _); by vm_compute|].
  repeat split; [done..|].
  exists a. split; [done|]. by apply Hret.
Defined.

End AnalyticsExamples.

(** * The two charts *)

Section ChartFacts.
Import Pandas Analytics Charts.
Variable groupby_size : DataFrame -> label -> result (list (scalar * Z)).
Variable groupby_sum :
  DataFrame -> label -> label -> result (list (scalar * scalar)).
Variable str_scalar : scalar -> string.
Variable float_scalar : scalar -> result npfloat.
Variable plotly_json : figure -> result string.

Local Abbreviation bar_chart :=
  (bar_chart groupby_size str_scalar plotly_json).
Local Abbreviation line_chart :=
  (line_chart groupby_sum str_scalar float_scalar plotly_json).
Local Abbreviation create_charts :=
  (create_charts groupby_size groupby_sum str_scalar float_scalar plotly_json).

Lemma columns_of_kind_spec (data_types : gmap label string) (kind : string)
    (column : label) :
  column ∈ columns_of_kind data_types kind <-> data_types !! column = Some kind.
Proof.
  unfold columns_of_kind. rewrite list_elem_of_fmap. split.
  - intros ([c k] & -> & Hin). apply list_elem_of_filter in Hin as [Hk Hin].
    apply elem_of_map_to_list in Hin. simpl in *. by subst.
  - intros Hl. exists (column, kind). split; [done|].
    apply list_elem_of_filter. split; [done|]. by apply elem_of_map_to_list.
Qed.

Lemma bar_chart_shape (df : DataFrame) (c : chart) :
  bar_chart df = Ok (Some c) -> chart_type c = "bar".
Proof.
  unfold Charts.bar_chart. intros H.
  apply bind_ok_inv in H as (sizes & _ & H).
  case_decide; [|done].
  apply bind_ok_inv in H as (data & _ & H). by injection H as <-.
Qed.

Lemma line_chart_shape (df : DataFrame) (c : chart) :
  line_chart df = Ok (Some c) ->
  chart_type c = "line"
  /\ exists grouped,
       groupby_sum df (Some "year") (Some "sellingprice") = Ok grouped
       /\ (1 < length grouped)%nat.
Proof.
  unfold Charts.line_chart. intros H.
  apply bind_ok_inv in H as (grouped & Hg & H).
  case_decide; [|done].
  apply bind_ok_inv in H as (ys & _ & H).
  apply bind_ok_inv in H as (data & _ & H). injection H as <-. eauto.
Qed.

Lemma append_guarded_elem (charts : list chart) (body : result (option chart))
    (c : chart) :
  c ∈ append_guarded charts body -> c ∈ charts \/ body = Ok (Some c).
Proof.
  unfold append_guarded. destruct body as [[c'|]|e]; [|by left..].
  rewrite elem_of_app, list_elem_of_singleton. intros [?| ->]; auto.
Qed.

Lemma append_guarded_length (charts : list chart)
    (body : result (option chart)) :
  (length (append_guarded charts body) <= S (length charts))%nat.
Proof.
  unfold append_guarded. destruct body as [[c'|]|e]; [|lia..].
  rewrite length_app. simpl. lia.
Qed.

(** C8: [create_charts] returns, with at most two charts, each a bar or a
    line chart; a bar chart is there only if [make] is a text column and some
    column is numeric, a line chart only if [year] and [sellingprice] are
    numeric columns and the grouping has more than one point. *)
Theorem create_charts_guarded (df : DataFrame)
    (data_types : gmap label string) :
  exists charts,
    create_charts df data_types = Ok charts
    /\ (length charts <= 2)%nat
    /\ (forall c, c ∈ charts ->
          chart_type c = "bar" \/ chart_type c = "line")
    /\ (forall c, c ∈ charts -> chart_type c = "bar" ->
          data_types !! Some "make" = Some "text"
          /\ exists column, data_types !! column = Some "numeric")
    /\ (forall c, c ∈ charts -> chart_type c = "line" ->
          data_types !! Some "year" = Some "numeric"
          /\ data_types !! Some "sellingprice" = Some "numeric"
          /\ exists grouped,
               groupby_sum df (Some "year") (Some "sellingprice") = Ok grouped
               /\ (1 < length grouped)%nat).
Proof.
  unfold Charts.create_charts. cbn zeta.
  set (numeric := columns_of_kind data_types "numeric").
  set (text := columns_of_kind data_types "text").
  set (first := if _ && _ then append_guarded [] (bar_chart df) else []).
  set (second := if _ && _ then append_guarded first (line_chart df) else first).
  assert (Hfirst : (length first <= 1)%nat
            /\ forall c, c ∈ first ->
                 bar_chart df = Ok (Some c)
                 /\ Some "make" ∈ text /\ (0 < length numeric)%nat).
  { unfold first. destruct (bool_decide (Some "make" ∈ text)) eqn:Hm;
      [|split; [simpl; lia | by intros c Hc%elem_of_nil]].
    destruct (bool_decide (0 < length numeric)%nat) eqn:Hn;
      [|split; [simpl; lia | by intros c Hc%elem_of_nil]].
    apply bool_decide_eq_true in Hm, Hn. cbn [andb]. split.
    - apply (append_guarded_length []).
    - intros c [Hc%elem_of_nil| Hc]%append_guarded_elem; [done|]. done. }
  destruct Hfirst as [Hlen1 Hbar].
  assert (Hsecond : (length second <= 2)%nat
            /\ forall c, c ∈ second ->
                 c ∈ first
                 \/ (line_chart df = Ok (Some c)
                     /\ Some "year" ∈ numeric
                     /\ Some "sellingprice" ∈ numeric)).
  { unfold second. destruct (bool_decide (Some "year" ∈ numeric)) eqn:Hy;
      [|cbn [andb]; split; [lia | by left]].
    destruct (bool_decide (Some "sellingprice" ∈ numeric)) eqn:Hs;
      [|cbn [andb]; split; [lia | by left]].
    apply bool_decide_eq_true in Hy, Hs. cbn [andb]. split.
    - pose proof (append_guarded_length first (line_chart df)). lia.
    - intros c [Hc|Hc]%append_guarded_elem; [by left | by right]. }
  destruct Hsecond as [Hlen2 Hline].
  exists second. split; [done|]. split; [done|]. split; [|split].
  - intros c [Hc|(Hc & _)]%Hline.
    + left. eapply bar_chart_shape, Hbar, Hc.
    + right. by apply line_chart_shape in Hc as [? _].
  - intros c [Hc|(Hc & _)]%Hline Hty.
    + destruct (Hbar _ Hc) as (_ & Hm & Hn). split.
      * by apply columns_of_kind_spec.
      * destruct numeric as [|column rest] eqn:Hnum; [simpl in Hn; lia|].
        exists column. apply columns_of_kind_spec. fold numeric.
        rewrite Hnum. by left.
    + apply line_chart_shape in Hc as [Hc _]. by rewrite Hc in Hty.
  - intros c [Hc|(Hc & Hy & Hs)]%Hline Hty.
    + apply Hbar in Hc as (Hc & _). apply bar_chart_shape in Hc.
      by rewrite Hc in Hty.
    + split; [by apply columns_of_kind_spec|].
      split; [by apply columns_of_kind_spec|].
      by apply line_chart_shape in Hc as [_ ?].
Qed.

End ChartFacts.

(** * The remote analysers *)

Section RemoteFacts.
Import Pandas RemoteAnalysis.



Lemma success_not_failure (d : gmap string field) (filename : string) :
  success_shape d filename -> failure_shape d -> False.
Proof. intros (Hs & _) (Hf & _). congruence. Qed.

Variable str_scalar : scalar -> string.
Variable run_and_wait : list (string * string) -> result Yandex.completion.
Variable chat : string -> result GigaChat.response.




End RemoteFacts.

(** * The report generator *)

Section ReportFacts.
Import Analytics PdfReport.
Variable sample_styles : gset string.
Variable os_is_nt : bool.
Variable path_exists : string -> bool.
Variable register_font : string -> result unit.
Variable now_text : string.
Variable str_value : pyvalue -> string.
Variable comma_number : pyvalue -> string.
Variable simple_doc_template : string -> result unit.
Variable paragraph : string -> string -> result flowable.
Variable doc_build : string -> list flowable -> result unit.
Variable add_data_table :
  generator -> pyvalue -> pyvalue -> result (list flowable).
Variable add_analytics_section : generator -> pyvalue -> result (list flowable).
Variable add_ai_analysis_section :
  generator -> pyvalue -> result (list flowable).

Local Abbreviation new_generator :=
  (new_generator sample_styles os_is_nt path_exists register_font).
Local Abbreviation generate_body :=
  (generate_body now_text str_value comma_number simple_doc_template paragraph
     doc_build add_data_table add_analytics_section add_ai_analysis_section).
Local Abbreviation generate_report :=
  (generate_report now_text str_value comma_number simple_doc_template
     paragraph doc_build add_data_table add_analytics_section
     add_ai_analysis_section).
Local Abbreviation create_pdf_report :=
  (create_pdf_report sample_styles os_is_nt path_exists register_font now_text
     str_value comma_number simple_doc_template paragraph doc_build
     add_data_table add_analytics_section add_ai_analysis_section).

Lemma add_style_ok (sheet : gset string) (name parent : string) :
  parent ∈ sheet -> name ∉ sheet ->
  add_style sheet name parent = Ok ({[name]} ∪ sheet).
Proof.
  intros Hp Hn. unfold add_style, style_of.
  destruct (decide (parent ∈ sheet)); [|done]. cbn.
  by destruct (decide (name ∈ sheet)).
Qed.

(** [generate_report] answers with a boolean, [True] exactly when its
    [try] block ran to the end. *)
Lemma generate_report_bool (g : generator) (data : list (string * pyvalue))
    (output_path : string) :
  exists b, generate_report g data output_path = Ok b
            /\ (b = true <-> exists u, generate_body g data output_path = Ok u).
Proof.
  unfold PdfReport.generate_report.
  destruct (generate_body g data output_path) as [u|e]; simpl.
  - exists true. split; [done|]. split; eauto.
  - exists false. split; [done|]. split; [done|]. by intros [u Hu].
Qed.

(** C7: with reportlab's sample style sheet holding the four parent styles
    and none of the five names the generator adds, [create_pdf_report]
    returns a boolean for every data dictionary and output path: [True] when
    the [try] block of [generate_report] built the document, [False] when a
    step of it raised. *)
Theorem create_pdf_report_returns_bool (data : list (string * pyvalue))
    (output_path : string) :
  (forall parent, parent ∈ ["Title"; "Heading1"; "Normal"; "Heading2"] ->
     parent ∈ sample_styles) ->
  (forall name,
     name ∈ ["ReportTitle"; "SectionTitle"; "NormalText"; "SubsectionTitle";
             "AIAnalysis"] -> name ∉ sample_styles) ->
  exists g b,
    new_generator = Ok g
    /\ create_pdf_report data output_path = Ok b
    /\ (b = true <-> exists u, generate_body g data output_path = Ok u)
    /\ (b = false <-> exists e, generate_body g data output_path = Raise e).
Proof.
  intros Hparents Hfresh.
  assert (Hsheet : exists sheet, setup_custom_styles sample_styles = Ok sheet).
  { unfold setup_custom_styles.
    rewrite add_style_ok; [|apply Hparents; in_list|apply Hfresh; in_list].
    cbn. rewrite add_style_ok; cycle 1.
    { apply elem_of_union_r, Hparents. in_list. }
    { apply not_elem_of_union. split; [by apply not_elem_of_singleton|].
      apply Hfresh. in_list. }
    cbn. rewrite add_style_ok; cycle 1.
    { do 2 apply elem_of_union_r. apply Hparents. in_list. }
    { rewrite !not_elem_of_union, !not_elem_of_singleton.
      repeat split; [done..|]. apply Hfresh. in_list. }
    cbn. rewrite add_style_ok; cycle 1.
    { do 3 apply elem_of_union_r. apply Hparents. in_list. }
    { rewrite !not_elem_of_union, !not_elem_of_singleton.
      repeat split; [done..|]. apply Hfresh. in_list. }
    cbn. rewrite add_style_ok; cycle 1.
    { do 4 apply elem_of_union_r. apply Hparents. in_list. }
    { rewrite !not_elem_of_union, !not_elem_of_singleton.
      repeat split; [done..|]. apply Hfresh. in_list. }
    by eexists. }
  destruct Hsheet as [sheet Hsheet].
  unfold PdfReport.create_pdf_report, PdfReport.new_generator.
  rewrite (bind_ok _ _ _ Hsheet). eexists. 
  destruct (generate_report_bool
              (mkGenerator sheet (setup_fonts os_is_nt path_exists register_font))
              data output_path) as (b & Hb & Htrue).
  exists b. split; [done|]. split; [exact Hb|]. split; [exact Htrue|].
  destruct (generate_body _ data output_path) as [u|e] eqn:Hbody.
  - destruct b; [|destruct Htrue as [_ Ht]; by discriminate Ht; eauto].
    split; [done|]. by intros [e He].
  - destruct b; [destruct Htrue as [[u Hu] _]; done|]. split; eauto.
Qed.

End ReportFacts.

(** * Cleaning a frame *)

Section CleanFacts.
Import Pandas.

Lemma map_is_fmap {A B} (f : A -> B) (l : list A) : map f l = f <$> l.
Proof. induction l as [|a l IH]; [done|]. simpl. by rewrite IH. Qed.


Lemma row_has_value_spec (n : nat) (row : list cell) :
  row_has_value n row = true
  <-> exists j, (j < n)%nat /\ notnull (cell_at row j) = true.
Proof.
  unfold row_has_value. rewrite existsb_exists. split.
  - intros (j & Hj%in_seq & Hv). exists j. split; [lia | done].
  - intros (j & Hj & Hv). exists j. split; [apply in_seq; lia | done].
Qed.

Lemma column_has_value_spec (df : DataFrame) (j : nat) :
  column_has_value df j = true
  <-> exists row, row ∈ df_data df /\ notnull (cell_at row j) = true.
Proof.
  unfold column_has_value, column_values. rewrite existsb_exists. split.
  - intros (c & Hc%in_map_iff & Hv). destruct Hc as (row & <- & Hrow).
    exists row. split; [by apply list_elem_of_In | done].
  - intros (row & Hrow & Hv). exists (cell_at row j). split; [|done].
    apply in_map_iff. exists row. split; [done | by apply list_elem_of_In].
Qed.


Lemma kept_columns_spec (df : DataFrame) (j : nat) :
  j ∈ kept_columns df <-> (j < ncols df)%nat /\ column_has_value df j = true.
Proof.
  unfold kept_columns. rewrite list_elem_of_filter, elem_of_seq.
  split; intros [? ?]; split; done || lia.
Qed.



Lemma dropna_columns_data (df : DataFrame) :
  df_data (dropna_columns df)
  = map (fun row => map (cell_at row) (kept_columns df)) (df_data df).
Proof. done. Qed.




Lemma where_notnull_none_data (df : DataFrame) :
  df_data (where_notnull_none df)
  = map (fun row =>
           map (fun j => if notnull (cell_at row j) then cell_at row j
                         else None) (seq 0 (ncols df))) (df_data df).
Proof. done. Qed.




(** The rows that remain are the rows with a value. *)
Lemma clean_len (df : DataFrame) :
  len (PdfTable.clean df)
  = length (filter (fun row => row_has_value (ncols df) row = true)
              (df_data df)).
Proof.
  unfold PdfTable.clean, len. rewrite where_notnull_none_data, length_map.
  rewrite dropna_columns_data, length_map. done.
Qed.


End CleanFacts.

(** * The first table of a PDF *)

Section ExtractFacts.
Import Pandas PdfTable.
Variable pdfplumber_open : string -> result pdf.
Variable to_numeric_coerce : Series -> result Series.
Variable to_datetime_coerce : Series -> result Series.

Local Abbreviation coerce_types :=
  (coerce_types to_numeric_coerce to_datetime_coerce).
Local Abbreviation extract_table :=
  (extract_table to_numeric_coerce to_datetime_coerce).
Local Abbreviation extract_table_from_pdf :=
  (extract_table_from_pdf pdfplumber_open to_numeric_coerce
     to_datetime_coerce).

Lemma setitem_columns (df : DataFrame) (column : label) (s : Series) :
  columns (setitem df column s) = columns df.
Proof.
  unfold columns, setitem. cbn [df_columns]. apply list_eq. intros i.
  rewrite !list_lookup_fmap, list_lookup_imap.
  destruct (df_columns df !! i) as [[l d]|]; [|done]. simpl.
  by case_decide.
Qed.

Lemma setitem_len (df : DataFrame) (column : label) (s : Series) :
  len (setitem df column s) = len df.
Proof. unfold len, setitem. cbn [df_data]. apply length_imap. Qed.

Lemma coerce_step_shape (convert : item -> result Series) (df : DataFrame)
    (column : label) :
  columns (coerce_step convert df column) = columns df
  /\ len (coerce_step convert df column) = len df.
Proof.
  unfold coerce_step. destruct (getitem df column) as [x|]; [|done]. cbn.
  destruct (convert x) as [s|]; [|done]. cbn.
  split; [apply setitem_columns | apply setitem_len].
Qed.

Lemma coerce_loop_shape (cols : list label) (df : DataFrame) :
  let df' := foldl (coerce_column to_numeric_coerce to_datetime_coerce)
               df cols in
  columns df' = columns df /\ len df' = len df.
Proof.
  revert df. induction cols as [|c cols IH]; intros df; [done|].
  cbn [foldl]. cbn zeta in *.
  destruct (IH (coerce_column to_numeric_coerce to_datetime_coerce df c))
    as [Hc Hl].
  rewrite Hc, Hl. unfold coerce_column.
  destruct (coerce_step_shape
              (pd_to_datetime to_datetime_coerce)
              (coerce_step (pd_to_numeric to_numeric_coerce) df c) c)
    as [Hc' Hl'].
  rewrite Hc', Hl'. apply coerce_step_shape.
Qed.

(** The coercion loop changes cells and dtypes, not the labels or the number
    of rows. *)
Lemma coerce_types_shape (df : DataFrame) :
  columns (coerce_types df) = columns df /\ len (coerce_types df) = len df.
Proof. apply coerce_loop_shape. Qed.

Lemma data_width_le (rows : list (list (option string))) (n : nat) :
  Forall (fun r => length r = n) rows -> (data_width rows <= n)%nat.
Proof. induction 1 as [|r rows Hr _ IH]; simpl; lia. Qed.

(** The frame built from a header row and at least one row of its width. *)
Lemma DataFrame_of_rows_rectangular (headers row : list (option string))
    (rows : list (list (option string))) :
  rectangular headers (row :: rows) ->
  DataFrame_of_rows (row :: rows) headers
  = Ok (mkDataFrame (map (fun h => (h, Object)) headers)
          (map (map (fmap SStr)) (row :: rows))).
Proof.
  intros Hrect. unfold DataFrame_of_rows. rewrite decide_True; [done|].
  apply Forall_cons in Hrect as [Hrow Hrows].
  apply data_width_le in Hrows. simpl. lia.
Qed.

Lemma has_text_row_has_value (r : list (option string)) (n : nat) :
  length r = n ->
  row_has_value n (map (fmap SStr) r) = has_text r.
Proof.
  intros Hlen. apply eq_true_iff_eq.
  rewrite row_has_value_spec. unfold has_text. rewrite existsb_exists. split.
  - intros (j & Hj & Hv). unfold cell_at in Hv.
    rewrite map_is_fmap, list_lookup_fmap in Hv.
    destruct (r !! j) as [c|] eqn:Hc; [|done]. exists c. split.
    + apply list_elem_of_In, list_elem_of_lookup. eauto.
    + destruct c; [done|]. done.
  - intros (c & Hc%list_elem_of_In & Hv).
    apply list_elem_of_lookup in Hc as [j Hj]. exists j. split.
    + apply lookup_lt_Some in Hj. lia.
    + unfold cell_at. rewrite map_is_fmap, list_lookup_fmap, Hj.
      destruct c; [done|]. done.
Qed.

Lemma filter_map_length {A B} (f : A -> B) (P : B -> bool) (Q : A -> bool)
    (l : list A) :
  Forall (fun x => P (f x) = Q x) l ->
  length (filter (fun y => P y = true) (map f l))
  = length (filter (fun x => Q x = true) l).
Proof.
  induction 1 as [|x l Hx _ IH]; [done|]. simpl.
  rewrite !filter_cons. rewrite Hx.
  destruct (decide (Q x = true)); simpl; by rewrite IH.
Qed.

Lemma header_labels (headers : list (option string)) :
  (map (fun h : option string => (h, Object)) headers).*1 = headers.
Proof.
  induction headers as [|h hs IH]; [done|]. simpl. f_equal. exact IH.
Qed.

(** The outcome on a first table with a header row and rows of its width. *)
Lemma extract_table_success (doc : pdf) (first : page) (rest : list page)
    (tables : list table) (headers row : list (option string))
    (rows : list (list (option string))) :
  pages doc = first :: rest ->
  extract_tables first = (headers :: row :: rows) :: tables ->
  rectangular headers (row :: rows) ->
  extract_table doc
  = Ok (coerce_types
          (clean (mkDataFrame (map (fun h => (h, Object)) headers)
                    (map (map (fmap SStr)) (row :: rows))))).
Proof.
  intros Hp Ht Hrect. unfold PdfTable.extract_table. rewrite Hp, Ht.
  by rewrite (DataFrame_of_rows_rectangular headers row rows Hrect).
Qed.

Lemma extract_table_from_pdf_opened (filepath : string) (doc : pdf) :
  pdfplumber_open filepath = Ok doc ->
  extract_table_from_pdf filepath = extract_table doc.
Proof.
  intros Ho. unfold PdfTable.extract_table_from_pdf. rewrite Ho. cbn.
  by destruct (extract_table doc).
Qed.



End ExtractFacts.

Section ExtractExamples.
Import Pandas PdfTable Samples.

Local Abbreviation sample_extract doc :=
  (extract_table_from_pdf (fun _ => Ok doc) sample_to_numeric_coerce
     sample_to_datetime_coerce "report.pdf").



(** With the stand-in converters the text column of that document comes back
    entirely null: the coercion loop runs after the cleaning steps. *)
Example price_list_text_column_nulled :
  exists df,
    sample_extract price_list_pdf = Ok df
    /\ column_has_value df 0 = false /\ column_has_value df 1 = true.
Proof. eexists. split; [reflexivity|]. by vm_compute. Qed.


End ExtractExamples.

Section ReportExamples.
Import PdfReport Samples.

Local Abbreviation sample_report :=
  (create_pdf_report reportlab_sample_styles false (fun _ => false)
     (fun _ => Ok ()) "18.09.2025 21:40" sample_str_value sample_str_value
     (fun _ => Ok ()) sample_paragraph sample_doc_build
     (fun g t _ => sample_section "Данные" g t)
     (sample_section "Аналитика") (sample_section "Анализ от нейросетей")).

Lemma create_pdf_report_returns_bool_witness :
  (exists b, sample_report sample_report_data "report.pdf" = Ok b)
  /\ (exists b, sample_report [("total_rows", PStr "many")] "report.pdf" = Ok b).
Proof.
  assert (Hparents : forall parent,
            parent ∈ ["Title"; "Heading1"; "Normal"; "Heading2"] ->
            parent ∈ reportlab_sample_styles).
  { intros parent Hp. rewrite !elem_of_cons, elem_of_nil in Hp.
    destruct Hp as [->|[->|[->|[->|[]]]]];
      apply (bool_decide_unpack _); by vm_compute. }
  assert (Hfresh : forall name,
            name ∈ ["ReportTitle"; "SectionTitle"; "NormalText";
                    "SubsectionTitle"; "AIAnalysis"] ->
            name ∉ reportlab_sample_styles).
  { intros name Hn. rewrite !elem_of_cons, elem_of_nil in Hn.
    destruct Hn as [->|[->|[->|[->|[->|[]]]]]];
      apply (bool_decide_unpack _); by vm_compute. }
  split.
  - destruct (create_pdf_report_returns_bool reportlab_sample_styles false
                (fun _ => false) (fun _ => Ok ()) "18.09.2025 21:40"
                sample_str_value sample_str_value (fun _ => Ok ())
                sample_paragraph sample_doc_build
                (fun g t _ => sample_section "Данные" g t)
                (sample_section "Аналитика")
                (sample_section "Анализ от нейросетей")
                sample_report_data "report.pdf" Hparents Hfresh)
      as (g & b & _ & Hb & _).
    by exists b.
  - destruct (create_pdf_report_returns_bool reportlab_sample_styles false
                (fun _ => false) (fun _ => Ok ()) "18.09.2025 21:40"
                sample_str_value sample_str_value (fun _ => Ok ())
                sample_paragraph sample_doc_build
                (fun g t _ => sample_section "Данные" g t)
                (sample_section "Аналитика")
                (sample_section "Анализ от нейросетей")
                [("total_rows", PStr "many")] "report.pdf" Hparents Hfresh)
      as (g & b & _ & Hb & _).
    by exists b.
Defined.

End ReportExamples.

(** * More on the routing of an upload *)

Section UploadNameFacts.
Import PyStr Routing Werkzeug UploadNames.

Lemma append_String (x : ascii) (a b : string) :
  String x a ++ b = String x (a ++ b).
Proof. done. Qed.

Lemma append_assoc_string (a b c : string) : (a ++ b) ++ c = a ++ (b ++ c).
Proof.
  induction a as [|x a IH]; [done|]. by rewrite !append_String, IH.
Qed.

Lemma append_empty_r (a : string) : a ++ "" = a.
Proof. induction a as [|x a IH]; [done|]. by rewrite append_String, IH. Qed.

Lemma rsplit_last_None (sep : ascii) (s : string) :
  rsplit_last sep s = None <-> contains_char sep s = false.
Proof.
  induction s as [|c s IH]; [done|]. cbn [rsplit_last contains_char].
  rewrite (Ascii.eqb_sym sep c).
  destruct (rsplit_last sep s) as [[h t]|].
  - split; [done|]. intros [_ Hs]%orb_false_iff. by apply IH in Hs.
  - destruct (Ascii.eqb c sep); [done|]. simpl. split; [|done].
    intros _. by apply IH.
Qed.

Lemma rsplit_last_Some (sep : ascii) (s h t : string) :
  rsplit_last sep s = Some (h, t) ->
  s = h ++ String sep t /\ contains_char sep t = false.
Proof.
  revert h. induction s as [|c s IH]; intros h; [done|].
  cbn [rsplit_last].
  destruct (rsplit_last sep s) as [[h' t']|] eqn:Hs.
  - intros [= <- <-]. destruct (IH h' eq_refl) as [-> Ht]. done.
  - destruct (Ascii.eqb_spec c sep) as [->|]; [|done].
    intros [= <- <-]. split; [done|]. by apply rsplit_last_None.
Qed.

Lemma rsplit1_no_sep (sep : ascii) (s : string) :
  contains_char sep s = false -> rsplit1 sep s = [s].
Proof. intros H%rsplit_last_None. unfold rsplit1. by rewrite H. Qed.

Context {DF : Type}.
Variable nfkd_ascii : string -> string.
Variable now_stamp : string.
Variable getsize : string -> Z.
Variable extract_table_from_pdf : string -> result DF.
Variable read_csv : string -> string -> option Z -> result DF.
Variable read_excel : string -> option Z -> result DF.

Local Abbreviation upload :=
  (upload_file nfkd_ascii now_stamp getsize extract_table_from_pdf read_csv
     read_excel).
Local Abbreviation read :=
  (read_uploaded getsize extract_table_from_pdf read_csv read_excel).

(** [allowed_file] accepts exactly the names that have a dot and whose text
    after the last dot, lowercased, is one of xlsx, xls, csv and pdf. *)
Theorem allowed_file_iff (name : string) :
  allowed_file name = true
  <-> exists stem ext,
        name = stem ++ "." ++ ext
        /\ contains_char "." ext = false
        /\ lower ext ∈ ALLOWED_EXTENSIONS.
Proof.
  split.
  - unfold allowed_file. intros [Hdot Hext]%andb_true_iff.
    unfold rsplit1 in Hext.
    destruct (rsplit_last "." name) as [[h t]|] eqn:Hs.
    + apply rsplit_last_Some in Hs as [-> Ht]. exists h, t.
      split; [done|]. split; [done|]. by apply bool_decide_eq_true in Hext.
    + apply rsplit_last_None in Hs. congruence.
  - intros (stem & ext & -> & Hext & Hin).
    rewrite allowed_file_extension by by apply rsplit1_no_sep.
    by apply bool_decide_eq_true.
Qed.

(** The handler answers 400 exactly when the form has no file, the file has
    no name, or [allowed_file] refuses the name; no reader has run then. *)
Theorem upload_bad_request_iff (files : gmap string string) :
  (exists msg, (upload files).2 = JsonError 400 msg)
  <-> (files !! "file" = None
       \/ files !! "file" = Some ""
       \/ exists name, files !! "file" = Some name
                       /\ allowed_file name = false).
Proof.
  unfold upload_file. destruct (files !! "file") as [name|] eqn:Hf.
  - destruct (String.eqb_spec name "") as [->|Hne].
    { split; [by right; left | by eexists]. }
    destruct (allowed_file name) eqn:Ha; cbn [negb].
    + split.
      * intros [msg Hmsg]. destruct (read_uploaded _ _ _ _ _ _) as [calls [df|e]];
          simpl in Hmsg; discriminate.
      * intros [?|[[= ->]|(n & [= <-] & Hn)]]; [done|done|]. congruence.
    + split; [|by eexists]. intros _. right; right. by exists name.
  - split; [by left | by eexists].
Qed.

Lemma upload_bad_request_no_reader (files : gmap string string) (msg : string) :
  (upload files).2 = JsonError 400 msg -> (upload files).1 = [].
Proof.
  unfold upload_file. destruct (files !! "file") as [name|]; [|done].
  destruct (String.eqb name ""); [done|].
  destruct (negb (allowed_file name)); [done|].
  destruct (read_uploaded _ _ _ _ _ _) as [calls [df|e]]; simpl; discriminate.
Qed.

(** A stored name ending in [.csv] is read as utf-8, then cp1251, then
    latin-1, stopping at the first that loads; when all three fail the
    error of the utf-8 attempt is the one raised.  No more than three calls
    are made. *)
Theorem read_uploaded_csv_retry (filename filepath : string) :
  endswith filename ".csv" = true ->
  (read filename filepath).2
  = first_success
      (read_csv filepath "utf-8" (nrows_for getsize filepath))
      (read_csv filepath "cp1251" (nrows_for getsize filepath))
      (read_csv filepath "latin-1" (nrows_for getsize filepath))
  /\ (length (read filename filepath).1 <= 3)%nat.
Proof.
  intros Hc.
  assert (Hp : endswith filename ".pdf" = false).
  { by apply (endswith_exclusive filename ".csv" ".pdf"). }
  unfold read_uploaded, read_first, read_retry, first_success.
  rewrite Hp, Hc.
  destruct (read_csv filepath "utf-8" _); [split; [done | simpl; lia]|].
  destruct (read_csv filepath "cp1251" _); [split; [done | simpl; lia]|].
  destruct (read_csv filepath "latin-1" _); split; done || (simpl; lia).
Qed.

(** Any other stored name is read once, by the PDF extractor or the Excel
    reader, and what that call raises is raised unchanged. *)
Theorem read_uploaded_single_attempt (filename filepath : string) :
  endswith filename ".csv" = false ->
  read filename filepath
  = if endswith filename ".pdf"
    then ([PdfTableExtractor], extract_table_from_pdf filepath)
    else ([ExcelReader], read_excel filepath (nrows_for getsize filepath)).
Proof.
  intros Hc. unfold read_uploaded, read_first, read_retry. rewrite Hc.
  destruct (endswith filename ".pdf").
  - by destruct (extract_table_from_pdf filepath).
  - by destruct (read_excel filepath _).
Qed.

End UploadNameFacts.

Section PlainNameFacts.
Import PyStr Routing Werkzeug UploadNames.
Variable nfkd_ascii : string -> string.

Lemma filename_char_facts (c : ascii) :
  filename_char c = true ->
  is_ascii c = true /\ Ascii.eqb c "/" = false /\ is_space c = false.
Proof.
  destruct c as [[] [] [] [] [] [] [] []]; vm_compute; intros H;
    first [discriminate H | done].
Qed.

Lemma all_chars_app (p : ascii -> bool) (a b : string) :
  all_chars p (a ++ b) = all_chars p a && all_chars p b.
Proof.
  induction a as [|x a IH]; [done|].
  rewrite append_String. cbn [all_chars]. by rewrite IH, andb_assoc.
Qed.

Lemma all_chars_impl (p q : ascii -> bool) (s : string) :
  (forall c, p c = true -> q c = true) ->
  all_chars p s = true -> all_chars q s = true.
Proof.
  intros Hpq. induction s as [|x s IH]; [done|]. cbn [all_chars].
  intros [Hx Hs]%andb_true_iff. by rewrite (Hpq _ Hx), IH.
Qed.

Lemma filter_chars_all (p : ascii -> bool) (s : string) :
  all_chars p s = true -> filter_chars p s = s.
Proof.
  induction s as [|x s IH]; [done|]. cbn [all_chars filter_chars].
  intros [-> Hs]%andb_true_iff. by rewrite IH.
Qed.

Lemma map_chars_fixed (f : ascii -> ascii) (s : string) :
  all_chars (fun c => Ascii.eqb (f c) c) s = true -> map_chars f s = s.
Proof.
  induction s as [|x s IH]; [done|]. cbn [all_chars map_chars].
  intros [Hx%Ascii.eqb_eq Hs]%andb_true_iff. by rewrite Hx, IH.
Qed.

Lemma split_ws_aux_no_space (cur s : string) :
  all_chars (fun c => negb (is_space c)) s = true ->
  split_ws_aux cur s
  = if String.eqb (cur ++ s) "" then [] else [cur ++ s].
Proof.
  revert cur. induction s as [|x s IH]; intros cur.
  - intros _. cbn [split_ws_aux]. by rewrite append_empty_r.
  - cbn [all_chars split_ws_aux]. intros [Hx%negb_true_iff Hs]%andb_true_iff.
    rewrite Hx, IH by done. by rewrite append_assoc_string.
Qed.

Lemma rstrip_app_keep (p : ascii -> bool) (a b : string) :
  b ≠ "" -> rstrip p b = b -> rstrip p (a ++ b) = a ++ b.
Proof.
  intros Hb Hkeep. induction a as [|x a IH]; [done|].
  rewrite append_String. cbn [rstrip]. rewrite IH.
  destruct (a ++ b) eqn:Hab; [|done].
  destruct a; [|done]. by destruct Hb.
Qed.

(** What [secure_filename] does to a name of safe characters that starts
    and ends with none of [.] and [_]: nothing. *)
Lemma secure_filename_fixed (c : ascii) (rest : string) :
  all_chars filename_char (String c rest) = true ->
  dot_or_underscore c = false ->
  rstrip dot_or_underscore (String c rest) = String c rest ->
  secure_filename nfkd_ascii (String c rest) = String c rest.
Proof.
  intros Hsafe Hfirst Hlast. unfold secure_filename, to_ascii. cbn zeta.
  rewrite (filter_chars_all is_ascii); cycle 1.
  { eapply all_chars_impl; [|exact Hsafe].
    intros x Hx. by apply filename_char_facts in Hx as (? & _). }
  rewrite String.eqb_refl.
  rewrite map_chars_fixed; cycle 1.
  { eapply all_chars_impl; [|exact Hsafe].
    intros x Hx. apply filename_char_facts in Hx as (_ & -> & _).
    apply Ascii.eqb_refl. }
  unfold split_ws. rewrite split_ws_aux_no_space; cycle 1.
  { eapply all_chars_impl; [|exact Hsafe].
    intros x Hx. by apply filename_char_facts in Hx as (_ & _ & ->). }
  change ("" ++ String c rest) with (String c rest).
  change (String.eqb (String c rest) "") with false. cbn [join].
  rewrite filter_chars_all by done.
  unfold strip. cbn [lstrip]. by rewrite Hfirst.
Qed.

Lemma secure_filename_plain (stem ext : string) :
  plain_stem stem = true ->
  ext ∈ ["pdf"; "csv"; "xlsx"; "xls"] ->
  secure_filename nfkd_ascii (stem ++ "." ++ ext) = stem ++ "." ++ ext.
Proof.
  unfold plain_stem. intros [Hsafe Hfirst]%andb_true_iff Hext.
  destruct stem as [|c rest]; [done|]. apply negb_true_iff in Hfirst.
  rewrite append_String. rewrite <- (append_String c rest).
  assert (Htail : all_chars filename_char ("." ++ ext) = true
                  /\ "." ++ ext ≠ ""
                  /\ rstrip dot_or_underscore ("." ++ ext) = "." ++ ext).
  { rewrite !elem_of_cons, elem_of_nil in Hext.
    destruct Hext as [->|[->|[->|[->|[]]]]]; by vm_compute. }
  destruct Htail as (Hts & Htn & Htr).
  rewrite append_String. apply secure_filename_fixed; [|done|].
  - rewrite <- append_String, all_chars_app. by rewrite Hsafe, Hts.
  - rewrite <- append_String. by apply rstrip_app_keep.
Qed.

Lemma allowed_file_plain (stem ext : string) :
  ext ∈ ["pdf"; "csv"; "xlsx"; "xls"] ->
  allowed_file (stem ++ "." ++ ext) = true.
Proof.
  intros Hext. rewrite !elem_of_cons, elem_of_nil in Hext.
  destruct Hext as [->|[->|[->|[->|[]]]]];
    by rewrite allowed_file_extension by done.
Qed.

(** The suffix tests of the dispatch, on a stored name that ends in one of
    the four extensions. *)
Lemma endswith_extension (stem ext : string) :
  ext ∈ ["pdf"; "csv"; "xlsx"; "xls"] ->
  endswith (stem ++ "." ++ ext) ".pdf" = String.eqb ext "pdf"
  /\ endswith (stem ++ "." ++ ext) ".csv" = String.eqb ext "csv".
Proof.
  intros Hext. rewrite !elem_of_cons, elem_of_nil in Hext.
  destruct Hext as [->|[->|[->|[->|[]]]]].
  - split; [apply endswith_app_same | by apply endswith_app_other].
  - split; [by apply endswith_app_other | apply endswith_app_same].
  - change ("." ++ "xlsx") with ("." ++ "xlsx"%string).
    rewrite <- (append_assoc_string stem "." "xlsx").
    split; by apply endswith_app_other.
  - split; by apply endswith_app_other.
Qed.

Context {DF : Type}.
Variable now_stamp : string.
Variable getsize : string -> Z.
Variable extract_table_from_pdf : string -> result DF.
Variable read_csv : string -> string -> option Z -> result DF.
Variable read_excel : string -> option Z -> result DF.

Local Abbreviation upload :=
  (upload_file nfkd_ascii now_stamp getsize extract_table_from_pdf read_csv
     read_excel).

(** An upload whose name is a plain stem followed by [.pdf], [.csv],
    [.xlsx] or [.xls] (lowercase) is stored under the stamp, an underscore
    and the name as given, and is read by the reader of its extension and
    by no other. *)
Theorem upload_plain_name_reader (files : gmap string string)
    (stem ext : string) :
  plain_stem stem = true ->
  ext ∈ ["pdf"; "csv"; "xlsx"; "xls"] ->
  files !! "file" = Some (stem ++ "." ++ ext) ->
  (upload files).1 ≠ []
  /\ (forall r, r ∈ (upload files).1 -> r = reader_for ext)
  /\ (forall name df, (upload files).2 = Loaded name df ->
        name = now_stamp ++ "_" ++ stem ++ "." ++ ext).
Proof.
  intros Hstem Hext Hfile. unfold upload_file. rewrite Hfile.
  assert (Hne : String.eqb (stem ++ "." ++ ext) "" = false).
  { apply String.eqb_neq. unfold plain_stem in Hstem.
    destruct stem; [by rewrite andb_false_r in Hstem | done]. }
  rewrite Hne, allowed_file_plain, secure_filename_plain by done.
  cbn [negb].
  set (filename := now_stamp ++ "_" ++ stem ++ "." ++ ext).
  set (filepath := UPLOAD_FOLDER ++ "/" ++ filename).
  destruct (endswith_extension (now_stamp ++ "_" ++ stem) ext Hext)
    as [Hp Hc].
  rewrite !append_assoc_string in Hp, Hc. fold filename in Hp, Hc.
  pose proof (read_uploaded_dispatch getsize extract_table_from_pdf read_csv
                read_excel filename filepath) as (Hpdf & Hcsv & Hxls).
  cbn zeta in Hpdf, Hcsv, Hxls.
  assert (Hcalls :
            (read_uploaded getsize extract_table_from_pdf read_csv read_excel
               filename filepath).1 ≠ []
            /\ forall r,
                 r ∈ (read_uploaded getsize extract_table_from_pdf read_csv
                        read_excel filename filepath).1 ->
                 r = reader_for ext).
  { unfold reader_for. destruct (String.eqb ext "pdf") eqn:Epdf.
    - rewrite (Hpdf Hp). split; [done|]. by intros r ->%list_elem_of_singleton.
    - destruct (String.eqb ext "csv") eqn:Ecsv.
      + split; [|by apply Hcsv].
        unfold read_uploaded, read_first. rewrite Hp, Hc.
        by destruct (read_csv filepath "utf-8" _); [|destruct (read_retry _ _ _ _ _)].
      + rewrite (Hxls Hp Hc). split; [done|].
        by intros r ->%list_elem_of_singleton. }
  destruct (read_uploaded _ _ _ _ _ _) as [calls [df|e]]; simpl in *.
  - destruct Hcalls as [Hn Hr]. repeat split; [done..|]. by intros ? ? [= <- _].
  - destruct Hcalls as [Hn Hr]. repeat split; done.
Qed.

End PlainNameFacts.

Section PlainNameExamples.
Import Routing UploadNames.

Lemma upload_plain_name_reader_witness :
  Forall (fun r => r = CsvReader)
    (upload_file (DF:=nat) (fun _ => "") "20250918_214023"
       (fun _ => 2048%Z) (fun _ => Ok 1%nat) (fun _ _ _ => Ok 2%nat)
       (fun _ _ => Ok 3%nat) {["file" := "car_prices-2015.csv"]}).1.
Proof.
  destruct (upload_plain_name_reader (fun _ => "") (DF:=nat)
              "20250918_214023"
              (fun _ => 2048%Z) (fun _ => Ok 1%nat) (fun _ _ _ => Ok 2%nat)
              (fun _ _ => Ok 3%nat) {["file" := "car_prices-2015.csv"]}
              "car_prices-2015" "csv") as (_ & Hr & _).
  - reflexivity.
  - in_list.
  - reflexivity.
  - apply Forall_forall. exact Hr.
Defined.

End PlainNameExamples.

(** * More on column-type inference *)

Section DetectCases.
Import Pandas TypeInference.
Variable to_datetime : scalar -> result unit.
Variable to_numeric : scalar -> result unit.

Local Abbreviation detect_column := (detect_column to_datetime to_numeric).
Local Abbreviation detect_loop := (detect_loop to_datetime to_numeric).
Local Abbreviation detect_data_types :=
  (detect_data_types to_datetime to_numeric).

Lemma head_lookup_first {A} (l : list A) (n : nat) :
  head (S n) l !! 0%nat = l !! 0%nat.
Proof. by destruct l. Qed.

(** The label of a column, case by case: int64 and float64 are numeric
    whatever they hold; any dtype but object is text; an object column is
    judged on its first non-null value alone, the date probe first, the
    number probe only if the date probe raised, and is text when it has no
    value or both probes raised. *)
Theorem detect_column_cases (s : Series) :
  detect_column (ItemSeries s)
  = Ok (if decide (s_dtype s ∈ [Int64; Float64]) then "numeric"
        else if decide (s_dtype s = Object) then
          match dropna s with
          | [] => "text"
          | v :: _ =>
              if is_ok (to_datetime v) then "datetime"
              else if is_ok (to_numeric v) then "numeric"
              else "text"
          end
        else "text").
Proof.
  unfold TypeInference.detect_column. cbn [item_dtype].
  rewrite (bind_ok _ _ (s_dtype s)) by done.
  case_decide; [done|]. case_decide; [|done].
  unfold probe_sample. rewrite !head_lookup_first.
  destruct (dropna s) as [|v rest] eqn:Hd; [done|].
  cbn [head take length lookup list_lookup].
  rewrite decide_True by lia.
  destruct (to_datetime v); [done|]. cbn.
  by destruct (to_numeric v).
Qed.

(** Positions of labels that all occur once. *)
Lemma positions_single_NoDup (cols : list (label * dtype)) (j : nat) :
  (forall c, c ∈ cols.*1 -> exists i, positions_from j cols c = [i]) ->
  NoDup cols.*1.
Proof.
  revert j. induction cols as [|[l d] cols IH]; intros j Hall.
  - constructor.
  - rewrite fmap_cons. cbn [fst]. apply NoDup_cons. split.
    + intros Hin. destruct (Hall l) as [i Hi]; [by left|].
      cbn [positions_from] in Hi. rewrite decide_True in Hi by done.
      injection Hi as _ Hi. by apply (positions_from_present _ _ (S j)) in Hin.
    + apply (IH (S j)). intros c Hc.
      destruct (Hall c) as [i Hi]; [by right|].
      cbn [positions_from] in Hi. destruct (decide (l = c)) as [->|Hne].
      * injection Hi as _ Hi.
        by apply (positions_from_present _ _ (S j)) in Hc.
      * eauto.
Qed.

Lemma getitem_series_single (df : DataFrame) (column : label) (s : Series) :
  getitem df column = Ok (ItemSeries s) ->
  exists i, positions df column = [i].
Proof.
  unfold getitem. destruct (positions df column) as [|i [|k js]]; [done| |done].
  eauto.
Qed.

(** A frame in which every label selects a [Series] has distinct labels. *)
Lemma series_everywhere_NoDup (df : DataFrame) :
  (forall column, column ∈ columns df ->
     exists s, getitem df column = Ok (ItemSeries s)) ->
  NoDup (columns df).
Proof.
  intros Hall. apply (positions_single_NoDup _ 0). intros c Hc.
  destruct (Hall c Hc) as [s Hs]. by apply getitem_series_single in Hs.
Qed.

(** [detect_data_types] returns exactly on the frames whose column labels are
    pairwise distinct; on every other frame it raises. *)
Theorem detect_data_types_returns_iff (df : DataFrame) :
  (exists data_types, detect_data_types df = Ok data_types)
  <-> NoDup (columns df).
Proof.
  split; [|apply detect_data_types_total].
  intros [m Hm]. apply series_everywhere_NoDup. intros column Hc.
  apply detect_loop_returns in Hm as [Hin _].
  destruct (Hin column Hc) as (x & t & Hx & Ht & _).
  destruct x as [s|d]; [eauto | done].
Qed.

End DetectCases.

(** * More on the descriptive statistics *)

Section AnalyticsInvariants.
Import Pandas Analytics.
Variables series_sum series_mean series_min series_max series_median
  series_std : Series -> result npfloat.
Variable value_counts : Series -> result (list (scalar * Z)).
Variable str_scalar : scalar -> string.

Local Abbreviation numeric_stats :=
  (numeric_stats series_sum series_mean series_min series_max series_median
     series_std).
Local Abbreviation column_info :=
  (column_info series_sum series_mean series_min series_max series_median
     series_std value_counts str_scalar).
Local Abbreviation info_loop :=
  (info_loop series_sum series_mean series_min series_max series_median
     series_std value_counts str_scalar).
Local Abbreviation get_basic_analytics :=
  (get_basic_analytics series_sum series_mean series_min series_max
     series_median series_std value_counts str_scalar).

Lemma count_plus_null_count (s : Series) :
  (count s + null_count s = length (s_values s))%nat.
Proof.
  unfold count, null_count, dropna.
  induction (s_values s) as [|c l IH]; [done|].
  rewrite filter_cons. destruct c as [v|]; csimpl; lia.
Qed.

Lemma length_remove_dups_le {A} `{EqDecision A} (l : list A) :
  (length (remove_dups l) <= length l)%nat.
Proof.
  induction l as [|x l IH]; [done|]. cbn [remove_dups].
  case_decide; simpl; lia.
Qed.

Lemma nunique_le_count (s : Series) : (nunique s <= count s)%nat.
Proof. apply length_remove_dups_le. Qed.

(** The keys written before the dtype is looked at keep their values. *)
Lemma column_info_counts (df : DataFrame) (s : Series)
    (info : gmap string value) :
  column_info df (ItemSeries s) = Ok info ->
  info !! "non_null_count" = Some (VInt (Z.of_nat (count s)))
  /\ info !! "null_count" = Some (VInt (Z.of_nat (null_count s)))
  /\ info !! "unique_count" = Some (VInt (Z.of_nat (nunique s)))
  /\ info !! "dtype" = Some (VStr (dtype_name (s_dtype s))).
Proof.
  unfold Analytics.column_info. cbn [item_dtype].
  rewrite (bind_ok _ _ (s_dtype s)) by done.
  set (col_info := update ∅ _).
  assert (Hbase : col_info !! "non_null_count"
                  = Some (VInt (Z.of_nat (count s)))
                  /\ col_info !! "null_count"
                     = Some (VInt (Z.of_nat (null_count s)))
                  /\ col_info !! "unique_count"
                     = Some (VInt (Z.of_nat (nunique s)))
                  /\ col_info !! "dtype"
                     = Some (VStr (dtype_name (s_dtype s)))) by done.
  destruct (is_numeric_dtype (s_dtype s)).
  { destruct (numeric_stats_shape series_sum series_mean series_min series_max
                series_median series_std s)
      as (a & b & c & d & e & f & Hshape & _).
    rewrite Hshape. intros [= <-].
    rewrite !lookup_insert_ne by done. exact Hbase. }
  destruct (is_object_dtype (s_dtype s)); [|by intros [= <-]].
  intros [= <-]. unfold text_stats.
  assert (Hcons : forall (d : gmap string value) k v kvs,
            update d ((k, v) :: kvs) = update (<[k:=v]> d) kvs) by done.
  assert (Hnil : forall d : gmap string value, update d [] = d) by done.
  destruct (value_counts s); cbn -[update head nunique]; unfold empty_text_stats;
    rewrite !Hcons, !Hnil, !lookup_insert_ne by done; exact Hbase.
Qed.

(** For every entry of [columns_info]: the non-null and the null count add
    up to [total_rows], and the number of distinct values is at most the
    non-null count. *)
Theorem column_counts_add_up (df : DataFrame) (a : analytics)
    (column : label) (info : gmap string value) :
  get_basic_analytics df = Ok a ->
  columns_info a !! column = Some info ->
  exists n k u,
    info !! "non_null_count" = Some (VInt n)
    /\ info !! "null_count" = Some (VInt k)
    /\ info !! "unique_count" = Some (VInt u)
    /\ (n + k = total_rows a)%Z
    /\ (0 <= u <= n)%Z.
Proof.
  intros Ha Hlook.
  destruct (get_basic_analytics_returns _ _ _ _ _ _ _ _ df a Ha)
    as (Hrows & _ & _ & Hloop).
  apply info_loop_returns in Hloop as [Hin Hout].
  destruct (decide (column ∈ columns df)) as [Hmem|Hmem]; cycle 1.
  { rewrite Hout in Hlook by done. by rewrite lookup_empty in Hlook. }
  destruct (Hin _ Hmem) as (x & info' & Hx & Hinfo & Hlook').
  rewrite Hlook in Hlook'. injection Hlook' as <-.
  destruct x as [s|d]; [|done].
  destruct (getitem_series _ _ _ Hx) as [j ->].
  destruct (column_info_counts df _ _ Hinfo) as (Hn & Hk & Hu & _).
  eexists _, _, _. split; [exact Hn|]. split; [exact Hk|].
  split; [exact Hu|].
  pose proof (count_plus_null_count (series_at df j)) as Hsum.
  rewrite series_at_length in Hsum.
  pose proof (nunique_le_count (series_at df j)). rewrite Hrows. lia.
Qed.

Lemma columns_where_disjoint (df : DataFrame) (t1 t2 : dtype -> bool)
    (cols sel1 sel2 : list label) :
  (forall d, t1 d = true -> t2 d = false) ->
  columns_where df t1 cols = Ok sel1 ->
  columns_where df t2 cols = Ok sel2 ->
  (length sel1 + length sel2 <= length cols)%nat.
Proof.
  intros Hdis. revert sel1 sel2.
  induction cols as [|c cols IH]; intros sel1 sel2.
  - by intros [= <-] [= <-].
  - cbn [columns_where]. intros H1 H2.
    apply bind_ok_inv in H1 as (x & Hx & H1).
    rewrite (bind_ok _ _ _ Hx) in H2.
    apply bind_ok_inv in H1 as (d & Hd & H1).
    rewrite (bind_ok _ _ _ Hd) in H2.
    apply bind_ok_inv in H1 as (s1 & Hs1 & H1).
    apply bind_ok_inv in H2 as (s2 & Hs2 & H2).
    injection H1 as <-. injection H2 as <-.
    specialize (IH _ _ Hs1 Hs2). specialize (Hdis d).
    destruct (t1 d); [rewrite Hdis by done|]; destruct (t2 d); simpl; lia.
Qed.

(** The summary is consistent with the frame: numeric and text columns
    together are no more than [total_columns], and the missing values are no
    more than the cells of the frame. *)
Theorem summary_counts_bounded (df : DataFrame) (a : analytics) :
  get_basic_analytics df = Ok a ->
  (0 <= numeric_columns (summary_stats a))%Z
  /\ (0 <= text_columns (summary_stats a))%Z
  /\ (numeric_columns (summary_stats a) + text_columns (summary_stats a)
      <= total_columns a)%Z
  /\ (0 <= total_missing_values (summary_stats a)
      <= total_rows a * total_columns a)%Z.
Proof.
  unfold Analytics.get_basic_analytics. intros Hrun.
  apply bind_ok_inv in Hrun as (n & Hn & Hrun).
  apply bind_ok_inv in Hrun as (t & Ht & Hrun).
  apply bind_ok_inv in Hrun as (info & Hinfo & Hrun).
  injection Hrun as <-. cbn.
  assert (Hdis : (length n + length t <= length (columns df))%nat).
  { eapply columns_where_disjoint; [|exact Hn|exact Ht].
    intros d Hd. unfold is_numeric_dtype, is_object_dtype in *.
    apply bool_decide_eq_true in Hd. apply bool_decide_eq_false.
    intros ->. rewrite !elem_of_cons, elem_of_nil in Hd.
    by destruct Hd as [|[|]]. }
  unfold columns in Hdis. rewrite length_fmap in Hdis. fold (ncols df) in Hdis.
  pose proof (total_nulls_le df). nia.
Qed.

(** The six statistics of a numeric column with a value are reported
    together or not at all: they are what pandas returned when all six
    reductions returned, and all 0.0 as soon as one of them raised. *)
Theorem numeric_stats_all_or_nothing (df : DataFrame) (s : Series) :
  s_dtype s ∈ [Int64; Float64] ->
  isnull_all s = false ->
  exists info,
    column_info df (ItemSeries s) = Ok info
    /\ (forall a b c d e f,
          series_sum s = Ok a -> series_mean s = Ok b ->
          series_min s = Ok c -> series_max s = Ok d ->
          series_median s = Ok e -> series_std s = Ok f ->
          info !! "sum" = Some (VFloat a) /\ info !! "mean" = Some (VFloat b)
          /\ info !! "min" = Some (VFloat c) /\ info !! "max" = Some (VFloat d)
          /\ info !! "median" = Some (VFloat e)
          /\ info !! "std" = Some (VFloat f))
    /\ (is_ok (series_sum s) && is_ok (series_mean s) && is_ok (series_min s)
        && is_ok (series_max s) && is_ok (series_median s)
        && is_ok (series_std s) = false ->
        forall k, k ∈ stat_keys -> info !! k = Some (VFloat zero)).
Proof.
  intros Hd Hnull. unfold Analytics.column_info. cbn [item_dtype].
  rewrite (bind_ok _ _ (s_dtype s)) by done.
  unfold is_numeric_dtype. rewrite bool_decide_eq_true_2 by done.
  eexists. split; [reflexivity|].
  unfold Analytics.numeric_stats, stat_or_zero. rewrite Hnull. cbn [negb].
  assert (Hzero : forall col_info : gmap string value,
            forall k, k ∈ stat_keys ->
                      update col_info zero_stats !! k = Some (VFloat zero)).
  { intros col_info k Hk. unfold stat_keys in Hk.
    rewrite !elem_of_cons, elem_of_nil in Hk.
    destruct Hk as [->|[->|[->|[->|[->|[->|[]]]]]]];
      unfold update, zero_stats; cbn [foldl fst snd];
      rewrite ?lookup_insert_ne by done; apply lookup_insert_eq. }
  destruct (series_sum s) as [a|]; cbn;
    [|split; [intros; discriminate | intros _; apply Hzero]].
  destruct (series_mean s) as [b|]; cbn;
    [|split; [intros; discriminate | intros _; apply Hzero]].
  destruct (series_min s) as [c|]; cbn;
    [|split; [intros; discriminate | intros _; apply Hzero]].
  destruct (series_max s) as [d|]; cbn;
    [|split; [intros; discriminate | intros _; apply Hzero]].
  destruct (series_median s) as [e|]; cbn;
    [|split; [intros; discriminate | intros _; apply Hzero]].
  destruct (series_std s) as [f|]; cbn;
    [|split; [intros; discriminate | intros _; apply Hzero]].
  split; [|done].
  by intros ? ? ? ? ? ? [= <-] [= <-] [= <-] [= <-] [= <-] [= <-].
Qed.

Lemma update_size {V} (d : gmap string V) (kvs : list (string * V)) :
  (size (update d kvs) <= size d + length kvs)%nat.
Proof.
  revert d. induction kvs as [|[k v] kvs IH]; intros d.
  { change (update d []) with d. simpl. lia. }
  change (update d ((k, v) :: kvs)) with (update (<[k:=v]> d) kvs).
  etransitivity; [apply IH|]. rewrite map_size_insert.
  destruct (d !! k); unfold id; simpl; lia.
Qed.

(** The entry of an object column lists at most five values under
    [top_values]; when counting the values raised it lists none and reports
    0 unique values. *)
Theorem top_values_at_most_five (df : DataFrame) (s : Series) :
  s_dtype s = Object ->
  exists info m u,
    column_info df (ItemSeries s) = Ok info
    /\ info !! "top_values" = Some (VCounts m)
    /\ info !! "unique_values_count" = Some (VInt u)
    /\ (size m <= 5)%nat
    /\ (forall counts, value_counts s = Ok counts ->
          u = Z.of_nat (nunique s)
          /\ forall key, is_Some (m !! key) ->
               exists v, v ∈ head 5 counts /\ str_scalar v.1 = key)
    /\ (forall e, value_counts s = Raise e -> m = ∅ /\ u = 0%Z).
Proof.
  intros Hd. unfold Analytics.column_info. cbn [item_dtype].
  rewrite (bind_ok _ _ (s_dtype s)) by done. rewrite Hd.
  change (is_numeric_dtype Object) with false.
  change (is_object_dtype Object) with true. cbn match.
  unfold text_stats. destruct (value_counts s) as [counts|e]; cbn.
  - eexists _, _, _. split; [reflexivity|]. split; [reflexivity|].
    split; [reflexivity|]. split; [|split; [|done]].
    + etransitivity; [apply update_size|]. rewrite map_size_empty.
      rewrite length_map. unfold head. rewrite length_take. lia.
    + intros ? [= <-]. split; [done|]. intros key [z Hz].
      destruct (decide (key ∈ (map (fun kv => (str_scalar kv.1, kv.2))
                                 (head 5 counts)).*1)) as [Hin|Hnot].
      * apply list_elem_of_fmap in Hin as ([k' z'] & -> & Hin).
        apply list_elem_of_In, in_map_iff in Hin as (v & [= <- <-] & Hv).
        exists v. split; [by apply list_elem_of_In | done].
      * rewrite update_lookup_other in Hz by done.
        by rewrite lookup_empty in Hz.
  - eexists _, _, _. split; [reflexivity|]. split; [reflexivity|].
    split; [reflexivity|]. split; [by rewrite map_size_empty; lia|].
    split; [done|]. by intros _ _.
Qed.

(** [get_basic_analytics] returns exactly on the frames whose column labels
    are pairwise distinct. *)
Theorem get_basic_analytics_returns_iff (df : DataFrame) :
  (exists a, get_basic_analytics df = Ok a) <-> NoDup (columns df).
Proof.
  split; [|apply get_basic_analytics_total].
  intros [a Ha].
  destruct (get_basic_analytics_returns _ _ _ _ _ _ _ _ df a Ha)
    as (_ & _ & _ & Hloop).
  apply info_loop_returns in Hloop as [Hin _].
  apply series_everywhere_NoDup. intros column Hc.
  destruct (Hin column Hc) as (x & info & Hx & Hinfo & _).
  destruct x as [s|d]; [eauto | done].
Qed.

End AnalyticsInvariants.

(** * More on the default charts *)

Section ChartFigures.
Import Pandas Analytics Charts ChartShapes.
Variable groupby_size : DataFrame -> label -> result (list (scalar * Z)).
Variable groupby_sum :
  DataFrame -> label -> label -> result (list (scalar * scalar)).
Variable str_scalar : scalar -> string.
Variable float_scalar : scalar -> result npfloat.
Variable plotly_json : figure -> result string.

Local Abbreviation floats_of := (floats_of float_scalar).
Local Abbreviation bar_chart :=
  (bar_chart groupby_size str_scalar plotly_json).
Local Abbreviation line_chart :=
  (line_chart groupby_sum str_scalar float_scalar plotly_json).
Local Abbreviation create_charts :=
  (create_charts groupby_size groupby_sum str_scalar float_scalar plotly_json).

Lemma floats_of_length (ys : list scalar) (vs : list npfloat) :
  floats_of ys = Ok vs -> length vs = length ys.
Proof.
  revert vs. induction ys as [|y ys IH]; intros vs; cbn [Charts.floats_of].
  - by intros [= <-].
  - intros H. apply bind_ok_inv in H as (v & _ & H).
    apply bind_ok_inv in H as (vs' & Hvs & H). injection H as <-.
    simpl. by rewrite (IH _ Hvs).
Qed.

Local Abbreviation bar_figure_of := (bar_figure_of plotly_json).
Local Abbreviation line_figure_of := (line_figure_of plotly_json).

Lemma bar_chart_figure (df : DataFrame) (c : chart) :
  bar_chart df = Ok (Some c) -> bar_figure_of c.
Proof.
  unfold Charts.bar_chart, ChartShapes.bar_figure_of. intros H.
  apply bind_ok_inv in H as (sizes & _ & H).
  destruct (decide _) as [Hlen|]; [|done].
  apply bind_ok_inv in H as (data & Hdata & H). injection H as <-.
  split; [done|]. split; [done|]. eexists _, _. split; [exact Hdata|].
  rewrite !length_map. split; [done|]. split; [lia|].
  unfold head. rewrite length_take. lia.
Qed.

Lemma line_chart_figure (df : DataFrame) (c : chart) :
  line_chart df = Ok (Some c) -> line_figure_of c.
Proof.
  unfold Charts.line_chart, ChartShapes.line_figure_of. intros H.
  apply bind_ok_inv in H as (grouped & _ & H).
  destruct (decide _) as [Hlen|]; [|done].
  apply bind_ok_inv in H as (ys & Hys & H).
  apply bind_ok_inv in H as (data & Hdata & H). injection H as <-.
  split; [done|]. split; [done|]. eexists _, _. split; [exact Hdata|].
  apply floats_of_length in Hys. rewrite length_map in *.
  split; [done|]. lia.
Qed.

Lemma append_guarded_cases (charts : list chart)
    (body : result (option chart)) :
  append_guarded charts body = charts
  \/ exists c, body = Ok (Some c)
               /\ append_guarded charts body = (charts ++ [c])%list.
Proof. destruct body as [[c|]|e]; eauto. Qed.

(** [create_charts] returns nothing, a bar chart, a line chart, or a bar
    chart followed by a line chart.  A bar chart carries the JSON of a bar
    figure with between 1 and 10 bars, a line chart that of a scatter figure
    with at least 2 points; in both the two axes have the same length. *)
Theorem create_charts_figures (df : DataFrame)
    (data_types : gmap label string) :
  exists bars lines,
    create_charts df data_types = Ok (bars ++ lines)%list
    /\ (bars = [] \/ exists c, bars = [c] /\ bar_figure_of c)
    /\ (lines = [] \/ exists c, lines = [c] /\ line_figure_of c).
Proof.
  unfold Charts.create_charts.
  set (first := if _ && _ then append_guarded [] (bar_chart df) else []).
  exists first.
  assert (Hfirst : first = [] \/ exists c, first = [c] /\ bar_figure_of c).
  { unfold first. destruct (_ && _); [|by left].
    destruct (append_guarded_cases [] (bar_chart df)) as [->|(c & Hc & ->)];
      [by left|].
    right. exists c. split; [done|]. by eapply bar_chart_figure. }
  destruct (bool_decide (Some "year" ∈ _) && _).
  - destruct (append_guarded_cases first (line_chart df))
      as [->|(c & Hc & ->)].
    + exists []. rewrite app_nil_r. split; [done|]. split; [done|]. by left.
    + exists [c]. split; [done|]. split; [done|]. right. exists c.
      split; [done|]. by eapply line_chart_figure.
  - exists []. rewrite app_nil_r. split; [done|]. split; [done|]. by left.
Qed.

(** Without a column labelled numeric there is no chart at all: both
    guards ask for one. *)
Theorem create_charts_no_numeric_column (df : DataFrame)
    (data_types : gmap label string) :
  (forall column, data_types !! column <> Some "numeric") ->
  create_charts df data_types = Ok [].
Proof.
  intros Hnone. unfold Charts.create_charts.
  assert (Hnum : columns_of_kind data_types "numeric" = []).
  { destruct (columns_of_kind data_types "numeric") as [|column rest] eqn:E;
      [done|].
    destruct (Hnone column). apply columns_of_kind_spec. rewrite E. by left. }
  rewrite Hnum. cbn [length].
  rewrite (bool_decide_eq_false_2 (0 < 0)%nat) by lia.
  by destruct (bool_decide (Some "make" ∈ _)).
Qed.

(** When [year] and [sellingprice] are numeric columns, the grouping has
    more than one point and the figure can be built, the line chart is the
    last chart returned, whatever happened to the bar chart before it. *)
Theorem create_charts_line_present (df : DataFrame)
    (data_types : gmap label string) (grouped : list (scalar * scalar))
    (ys : list npfloat) (data : string) :
  data_types !! Some "year" = Some "numeric" ->
  data_types !! Some "sellingprice" = Some "numeric" ->
  groupby_sum df (Some "year") (Some "sellingprice") = Ok grouped ->
  (1 < length grouped)%nat ->
  floats_of (map snd grouped) = Ok ys ->
  plotly_json
    (ScatterFigure (map (fun g => str_scalar g.1) grouped) ys line_title)
  = Ok data ->
  exists before,
    create_charts df data_types
    = Ok (before ++ [mkChart "line" line_title data])%list
    /\ (length before <= 1)%nat
    /\ forall c, c ∈ before -> chart_type c = "bar".
Proof.
  intros Hy Hs Hg Hlen Hys Hdata. unfold Charts.create_charts.
  set (first := if _ && _ then append_guarded [] (bar_chart df) else []).
  exists first.
  rewrite (bool_decide_eq_true_2 (Some "year" ∈ _))
    by by apply columns_of_kind_spec.
  rewrite (bool_decide_eq_true_2 (Some "sellingprice" ∈ _))
    by by apply columns_of_kind_spec.
  cbn [andb].
  assert (Hline : line_chart df = Ok (Some (mkChart "line" line_title data))).
  { unfold Charts.line_chart. rewrite Hg. cbn.
    destruct (decide _) as [_|Hn]; [|by destruct Hn].
    rewrite Hys. cbn. by rewrite Hdata. }
  rewrite Hline. cbn [append_guarded]. split; [done|].
  unfold first. destruct (_ && _); [|split; [simpl; lia|]];
    [|by intros c Hc%elem_of_nil].
  destruct (append_guarded_cases [] (bar_chart df)) as [->|(c & Hc & ->)].
  - split; [simpl; lia|]. by intros c Hc%elem_of_nil.
  - split; [simpl; lia|]. intros c' Hc'%list_elem_of_singleton. subst c'.
    by apply bar_chart_figure in Hc as [? _].
Qed.

(** When [make] is a text column, some column is numeric, the grouping by
    make is not empty and the figure can be built, the bar chart of the
    first ten groups is the first chart returned. *)
Theorem create_charts_bar_present (df : DataFrame)
    (data_types : gmap label string) (column : label)
    (sizes : list (scalar * Z)) (data : string) :
  data_types !! Some "make" = Some "text" ->
  data_types !! column = Some "numeric" ->
  groupby_size df (Some "make") = Ok sizes ->
  sizes <> [] ->
  plotly_json
    (BarFigure (map (fun g => str_scalar g.1) (head 10 sizes))
       (map snd (head 10 sizes)) bar_title)
  = Ok data ->
  exists rest,
    create_charts df data_types
    = Ok (mkChart "bar" bar_title data :: rest)
    /\ (length rest <= 1)%nat
    /\ forall c, c ∈ rest -> chart_type c = "line".
Proof.
  intros Hm Hn Hg Hne Hdata. unfold Charts.create_charts.
  rewrite (bool_decide_eq_true_2 (Some "make" ∈ _))
    by by apply columns_of_kind_spec.
  assert (Hnum : (0 < length (columns_of_kind data_types "numeric"))%nat).
  { apply (columns_of_kind_spec data_types "numeric") in Hn.
    destruct (columns_of_kind data_types "numeric");
      [by apply elem_of_nil in Hn | simpl; lia]. }
  rewrite (bool_decide_eq_true_2 _ Hnum). cbn [andb].
  assert (Hbar : bar_chart df = Ok (Some (mkChart "bar" bar_title data))).
  { unfold Charts.bar_chart. rewrite Hg. cbn.
    destruct (decide _) as [_|Hz].
    - by rewrite Hdata.
    - destruct Hz. destruct sizes; [done | simpl; lia]. }
  rewrite Hbar. cbn [append_guarded app].
  destruct (_ && _).
  - destruct (append_guarded_cases [mkChart "bar" bar_title data]
                (line_chart df)) as [->|(c & Hc & ->)].
    + exists []. split; [done|]. split; [simpl; lia|].
      by intros c Hc%elem_of_nil.
    + exists [c]. split; [done|]. split; [simpl; lia|].
      intros c' Hc'%list_elem_of_singleton. subst c'.
      by apply line_chart_figure in Hc as [? _].
  - exists []. split; [done|]. split; [simpl; lia|].
    by intros c Hc%elem_of_nil.
Qed.

End ChartFigures.

(** * From a PDF table to the analysis *)

Section ExtractThenAnalyse.
Import Pandas PdfTable.
Variable pdfplumber_open : string -> result pdf.
Variable to_numeric_coerce : Series -> result Series.
Variable to_datetime_coerce : Series -> result Series.
Variable to_datetime : scalar -> result unit.
Variable to_numeric : scalar -> result unit.
Variables series_sum series_mean series_min series_max series_median
  series_std : Series -> result Analytics.npfloat.
Variable value_counts : Series -> result (list (scalar * Z)).
Variable str_scalar : scalar -> string.

Local Abbreviation coerce_types :=
  (coerce_types to_numeric_coerce to_datetime_coerce).
Local Abbreviation extract_table_from_pdf :=
  (extract_table_from_pdf pdfplumber_open to_numeric_coerce
     to_datetime_coerce).
Local Abbreviation detect_data_types :=
  (TypeInference.detect_data_types to_datetime to_numeric).
Local Abbreviation get_basic_analytics :=
  (Analytics.get_basic_analytics series_sum series_mean series_min series_max
     series_median series_std value_counts str_scalar).

Lemma omap_lookup_filter_sublist {A} (P : nat -> Prop)
    `{!forall j, Decision (P j)} (full l : list A) (k : nat) :
  (forall i, full !! (k + i)%nat = l !! i) ->
  omap (fun j => full !! j) (filter P (seq k (length l))) `sublist_of` l.
Proof.
  revert k. induction l as [|x l IH]; intros k Hfull; [done|].
  cbn [length seq]. rewrite filter_cons.
  assert (Hrest : forall i, full !! (S k + i)%nat = l !! i).
  { intros i. etransitivity; [|exact (Hfull (S i))]. f_equal. lia. }
  destruct (decide (P k)).
  - csimpl. specialize (Hfull 0%nat). rewrite Nat.add_0_r in Hfull.
    rewrite Hfull. cbn. apply sublist_skip, IH, Hrest.
  - apply sublist_cons, IH, Hrest.
Qed.

Lemma dropna_columns_sublist (df : DataFrame) :
  columns (dropna_columns df) `sublist_of` columns df.
Proof.
  unfold columns, dropna_columns, take_columns, kept_columns, ncols.
  cbn [df_columns]. apply fmap_sublist.
  by apply (omap_lookup_filter_sublist _ (df_columns df) (df_columns df) 0).
Qed.

Lemma clean_columns_sublist (df : DataFrame) :
  columns (clean df) `sublist_of` columns df.
Proof. apply (dropna_columns_sublist (dropna_rows df)). Qed.

(** A header is kept exactly when some data row has text in its column. *)
Lemma clean_columns_kept (df : DataFrame) (column : label) :
  column ∈ columns (clean df)
  <-> exists j d row,
        df_columns df !! j = Some (column, d)
        /\ row ∈ df_data df /\ notnull (cell_at row j) = true.
Proof.
  change (columns (clean df)) with
    ((omap (fun j => df_columns df !! j) (kept_columns (dropna_rows df))).*1).
  rewrite list_elem_of_fmap. split.
  - intros ([c d] & -> & Hin). apply list_elem_of_omap in Hin as (j & Hj & Hl).
    apply kept_columns_spec in Hj as [_ Hv].
    apply column_has_value_spec in Hv as (row & Hrow & Hcell).
    apply list_elem_of_filter in Hrow as [_ Hrow]. by exists j, d, row.
  - intros (j & d & row & Hl & Hrow & Hcell). exists (column, d).
    split; [done|]. apply list_elem_of_omap. exists j. split; [|done].
    assert (Hj : (j < ncols df)%nat) by by eapply lookup_lt_Some.
    apply kept_columns_spec. split; [done|].
    apply column_has_value_spec. exists row. split; [|done].
    apply list_elem_of_filter. split; [|done].
    apply row_has_value_spec. by exists j.
Qed.

(** The columns of the frame read from a PDF are the headers under which
    some data row has text, in the order of the header row. *)
Theorem extract_table_from_pdf_kept_headers (filepath : string) (doc : pdf)
    (first : page) (rest : list page) (tables : list table)
    (headers row : list (option string))
    (rows : list (list (option string))) :
  pdfplumber_open filepath = Ok doc ->
  pages doc = first :: rest ->
  extract_tables first = (headers :: row :: rows) :: tables ->
  rectangular headers (row :: rows) ->
  exists df,
    extract_table_from_pdf filepath = Ok df
    /\ columns df `sublist_of` headers
    /\ forall column,
         column ∈ columns df
         <-> exists j r text,
               headers !! j = Some column
               /\ r ∈ row :: rows /\ r !! j = Some (Some text).
Proof.
  intros Hopen Hpages Htables Hrect. eexists. split.
  { rewrite (extract_table_from_pdf_opened _ _ _ _ _ Hopen).
    by eapply extract_table_success. }
  set (frame := mkDataFrame _ _).
  destruct (coerce_types_shape to_numeric_coerce to_datetime_coerce
              (clean frame)) as [-> _].
  assert (Hcols : columns frame = headers) by apply header_labels.
  split; [rewrite <- Hcols; apply clean_columns_sublist|].
  intros column. rewrite clean_columns_kept. split.
  - intros (j & d & r' & Hl & Hr & Hcell).
    apply list_elem_of_In, in_map_iff in Hr as (r & <- & Hr).
    apply list_elem_of_In in Hr.
    unfold frame in Hl. cbn [df_columns] in Hl.
    rewrite map_is_fmap, list_lookup_fmap in Hl.
    destruct (headers !! j) as [h|] eqn:Hh; [|done]. injection Hl as <- <-.
    unfold notnull, cell_at in Hcell. apply bool_decide_eq_true in Hcell.
    rewrite map_is_fmap, list_lookup_fmap in Hcell.
    destruct (r !! j) as [[text|]|] eqn:Hrj; cbn in Hcell;
      [|by destruct Hcell..].
    by exists j, r, text.
  - intros (j & r & text & Hh & Hr & Hrj).
    exists j, Object, (map (fmap SStr) r). split; [|split].
    + unfold frame. cbn [df_columns].
      rewrite map_is_fmap, list_lookup_fmap.
      exact (f_equal (fmap (fun h => (h, Object))) Hh).
    + unfold frame. cbn [df_data]. apply list_elem_of_In, in_map.
      by apply list_elem_of_In.
    + unfold notnull, cell_at. apply bool_decide_eq_true.
      rewrite map_is_fmap, list_lookup_fmap, Hrj. by eexists.
Qed.

(** A PDF table whose header cells are pairwise distinct goes through the
    whole analysis: the frame read from it has pairwise distinct labels, and
    [detect_data_types] and [get_basic_analytics] both return on it. *)
Theorem extract_table_from_pdf_then_analysis (filepath : string) (doc : pdf)
    (first : page) (rest : list page) (tables : list table)
    (headers row : list (option string))
    (rows : list (list (option string))) :
  pdfplumber_open filepath = Ok doc ->
  pages doc = first :: rest ->
  extract_tables first = (headers :: row :: rows) :: tables ->
  rectangular headers (row :: rows) ->
  NoDup headers ->
  exists df,
    extract_table_from_pdf filepath = Ok df
    /\ NoDup (columns df)
    /\ (exists data_types, detect_data_types df = Ok data_types)
    /\ (exists a, get_basic_analytics df = Ok a
                  /\ Analytics.total_rows a
                     = Z.of_nat (length (filter (fun r => has_text r = true)
                                           (row :: rows)))).
Proof.
  intros Hopen Hpages Htables Hrect Hnd. eexists. split.
  { rewrite (extract_table_from_pdf_opened _ _ _ _ _ Hopen).
    by eapply extract_table_success. }
  set (frame := mkDataFrame _ _).
  destruct (coerce_types_shape to_numeric_coerce to_datetime_coerce
              (clean frame)) as [Hcols Hlen].
  assert (Hdistinct : NoDup (columns (coerce_types (clean frame)))).
  { rewrite Hcols. eapply sublist_NoDup; [|apply clean_columns_sublist].
    unfold frame, columns. cbn [df_columns]. by rewrite header_labels. }
  split; [done|]. split; [by apply detect_data_types_total|].
  destruct (get_basic_analytics_total series_sum series_mean series_min
              series_max series_median series_std value_counts str_scalar
              _ Hdistinct) as [a Ha].
  exists a. split; [done|].
  destruct (get_basic_analytics_returns _ _ _ _ _ _ _ _ _ a Ha) as (-> & _).
  rewrite Hlen, clean_len. f_equal. unfold frame. cbn [df_data df_columns].
  apply filter_map_length. apply Forall_forall. intros r Hr.
  apply has_text_row_has_value. unfold ncols. cbn [df_columns].
  rewrite length_map. by eapply Forall_forall in Hrect.
Qed.

End ExtractThenAnalyse.

(** * More on the two remote analyses *)

Section RemoteOutcomes.
Import Pandas RemoteAnalysis.
Variable str_scalar : scalar -> string.
Variable run_and_wait : list (string * string) -> result Yandex.completion.
Variable chat : string -> result GigaChat.response.

Lemma success_dict_success (analysis model filename : string) :
  success_dict analysis model filename !! "success" = Some (FBool true).
Proof. done. Qed.

Lemma failure_dict_success (error : string) :
  failure_dict error !! "success" = Some (FBool false).
Proof. done. Qed.

Lemma prepare_data_first_rows (table_data : list row) :
  Yandex.prepare_data_for_analysis str_scalar (head 15 table_data)
  = Yandex.prepare_data_for_analysis str_scalar table_data.
Proof.
  destruct table_data as [|first rest]; [done|].
  unfold Yandex.prepare_data_for_analysis. unfold head at 1. cbn [take].
  unfold head. change (first :: take 14 rest) with (take 15 (first :: rest)).
  by rewrite take_take.
Qed.

(** The Yandex analysis looks at the first 15 rows only: rows after them
    change neither the request nor the result. *)
Theorem yandex_analysis_first_15_rows (table_data : list row)
    (filename : string) :
  Yandex.analyze_table_data str_scalar run_and_wait table_data filename
  = Yandex.analyze_table_data str_scalar run_and_wait (head 15 table_data)
      filename.
Proof.
  unfold Yandex.analyze_table_data, Yandex.analyze_body. cbn zeta.
  by rewrite prepare_data_first_rows.
Qed.

(** The Yandex analysis succeeds exactly when the model answered with at
    least one alternative; the analysis is then the text of the first one:
    its message text, else its text, else its string form. *)
Theorem yandex_analysis_success_iff (table_data : list row)
    (filename : string) :
  let messages :=
    [("system", Yandex.system_prompt);
     ("user",
      Yandex.user_prompt filename
        (Yandex.prepare_data_for_analysis str_scalar table_data))] in
  exists d,
    Yandex.analyze_table_data str_scalar run_and_wait table_data filename
    = Ok d
    /\ (d !! "success" = Some (FBool true)
        <-> exists a alts,
              run_and_wait messages = Ok (Yandex.Alternatives (a :: alts)))
    /\ (forall a alts,
          run_and_wait messages = Ok (Yandex.Alternatives (a :: alts)) ->
          d !! "analysis"
          = Some (FStr (default (default (Yandex.alt_str a)
                                   (Yandex.alt_text a))
                          (Yandex.alt_message_text a)))
          /\ d !! "model" = Some (FStr "yandexgpt")
          /\ d !! "filename" = Some (FStr filename)).
Proof.
  intros messages.
  unfold Yandex.analyze_table_data, Yandex.analyze_body. cbn zeta.
  fold messages. destruct (run_and_wait messages) as [res|e]; cbn.
  - destruct res as [| |[|a alts]]; eexists; (split; [reflexivity|]).
    + split; [|done]. rewrite failure_dict_success.
      split; [done | by intros (? & ? & ?)].
    + split; [|done]. rewrite failure_dict_success.
      split; [done | by intros (? & ? & ?)].
    + split; [|done]. rewrite failure_dict_success.
      split; [done | by intros (? & ? & ?)].
    + split; [split; [by eauto | done]|].
      intros a' alts' [= <- <-]. unfold Yandex.analysis_text_of.
      by destruct (Yandex.alt_message_text a), (Yandex.alt_text a).
  - eexists. split; [reflexivity|]. split; [|done].
    rewrite failure_dict_success. split; [done | by intros (? & ? & ?)].
Qed.

Lemma join_labels_returns_iff (columns : list label) :
  (exists cs, GigaChat.join_labels columns = Ok cs)
  <-> Forall is_Some columns.
Proof.
  induction columns as [|[c|] columns IH]; cbn [GigaChat.join_labels].
  - split; [done | by eexists].
  - split.
    + intros [cs H]. apply bind_ok_inv in H as (cs' & Hcs & _).
      constructor; [done|]. apply IH. by eexists.
    + intros [_ [cs Hcs]%IH]%Forall_cons. rewrite Hcs. by eexists.
  - split; [by intros [? ?]|]. intros [[? ?] _]%Forall_cons. done.
Qed.

(** The GigaChat analysis succeeds exactly when every key of the first row
    is a string (or there is no row) and the model answered with at least
    one choice.  A first row with a [None] key fails whatever the model
    would have answered. *)
Theorem gigachat_analysis_success_iff (table_data : list row)
    (filename : string) :
  exists d,
    GigaChat.analyze_table_data str_scalar chat table_data filename = Ok d
    /\ (d !! "success" = Some (FBool true)
        <-> exists text c cs,
              GigaChat.data_text str_scalar table_data filename = Ok text
              /\ chat (GigaChat.system_prompt ++ nl ++ nl ++ text)
                 = Ok (GigaChat.Choices (c :: cs))
              /\ d = success_dict
                       (default (GigaChat.choice_str c)
                          (GigaChat.choice_message_content c))
                       "gigachat" filename)
    /\ ((exists text,
           GigaChat.data_text str_scalar table_data filename = Ok text)
        <-> forall first rest,
              table_data = first :: rest -> Forall is_Some first.*1).
Proof.
  assert (Htext : (exists text,
                     GigaChat.data_text str_scalar table_data filename
                     = Ok text)
                  <-> forall first rest,
                        table_data = first :: rest ->
                        Forall is_Some first.*1).
  { unfold GigaChat.data_text. destruct table_data as [|first rest].
    - split; [done | by eexists].
    - cbn zeta. split.
      + intros [text H] ? ? [= <- <-].
        apply bind_ok_inv in H as (cs & Hcs & _).
        apply join_labels_returns_iff. by eexists.
      + intros H. destruct (proj2 (join_labels_returns_iff first.*1))
          as [cs Hcs]; [by eapply H|].
        rewrite Hcs. by eexists. }
  unfold GigaChat.analyze_table_data, GigaChat.analyze_body.
  destruct (GigaChat.data_text _ _ _) as [text|e]; cbn.
  - destruct (chat _) as [res|e] eqn:Hchat; cbn.
    + destruct res as [| |[|c cs]]; eexists; (split; [reflexivity|]);
        (split; [|exact Htext]).
      * rewrite failure_dict_success.
        split; [done|]. intros (? & ? & ? & [= <-] & ? & _). congruence.
      * rewrite failure_dict_success.
        split; [done|]. intros (? & ? & ? & [= <-] & ? & _). congruence.
      * rewrite failure_dict_success.
        split; [done|]. intros (? & ? & ? & [= <-] & ? & _). congruence.
      * split; [|done]. intros _. by exists text, c, cs.
    + eexists. split; [reflexivity|]. split; [|exact Htext].
      rewrite failure_dict_success.
      split; [done|]. intros (? & ? & ? & [= <-] & ? & _). congruence.
  - eexists. split; [reflexivity|]. split; [|exact Htext].
    rewrite failure_dict_success.
    split; [done|]. by intros (? & ? & ? & ? & _).
Qed.

End RemoteOutcomes.

(** * The categories offered for custom charts *)

Section CategoryFacts.
Import Pandas Analytics Charts Categories.
Variable value_counts : Series -> result (list (scalar * Z)).
Variable str_scalar : scalar -> string.

Local Abbreviation category_of := (category_of value_counts str_scalar).
Local Abbreviation category_step := (category_step value_counts str_scalar).
Local Abbreviation get_available_categories :=
  (get_available_categories value_counts str_scalar).

Local Abbreviation written_entry := (written_entry value_counts str_scalar).

Lemma category_step_insert (df : DataFrame) (categories : gmap label entry)
    (col : label) :
  category_step df categories col
  = <[col := written_entry df col]> categories.
Proof.
  unfold Categories.category_step, Categories.written_entry.
  by destruct (category_of df col).
Qed.

Lemma category_loop_lookup (df : DataFrame) (cols : list label)
    (categories : gmap label entry) (key : label) :
  foldl (category_step df) categories cols !! key
  = if decide (key ∈ cols) then Some (written_entry df key)
    else categories !! key.
Proof.
  revert categories. induction cols as [|col cols IH]; intros categories.
  - cbn [foldl]. by rewrite decide_False by apply not_elem_of_nil.
  - cbn [foldl]. rewrite IH, category_step_insert.
    destruct (decide (key ∈ cols)) as [Hin|Hnot].
    + by rewrite decide_True by by right.
    + destruct (decide (key = col)) as [->|Hne].
      * rewrite lookup_insert_eq. by rewrite decide_True by by left.
      * rewrite lookup_insert_ne by done.
        rewrite decide_False; [done|].
        by intros [?|?]%elem_of_cons.
Qed.

Lemma category_of_shape (df : DataFrame) (col : label) (c : category) :
  category_of df col = Ok c ->
  cat_type c = "text" /\ (0 <= cat_unique_count c)%Z
  /\ (size (cat_sample_values c) <= 5)%nat.
Proof.
  unfold Categories.category_of. intros H.
  apply bind_ok_inv in H as (x & _ & H). destruct x as [s|d]; [|done].
  apply bind_ok_inv in H as (counts & _ & H). injection H as <-.
  cbn [cat_type cat_unique_count cat_sample_values].
  split; [done|]. split; [lia|].
  assert (Hlen : (length (take 5 counts) <= 5)%nat)
    by (rewrite length_take; lia).
  etransitivity; [apply update_size|]. rewrite map_size_empty, length_map.
  exact Hlen.
Qed.

(** Every text column gets an entry of type text with at most five sample
    values and a non-negative count, also when its label is one of the three
    list keys (the entry then replaces the list); a column that is missing
    from the frame, or whose label repeats in it, gets the empty entry. *)
Theorem categories_text_column_entry (df : DataFrame)
    (data_types : gmap label string) (col : label) :
  data_types !! col = Some "text" ->
  exists c,
    get_available_categories df data_types !! col = Some (ColumnEntry c)
    /\ cat_type c = "text"
    /\ (0 <= cat_unique_count c)%Z
    /\ (size (cat_sample_values c) <= 5)%nat
    /\ ((forall j, positions df col <> [j]) -> c = fallback)
    /\ (forall j counts,
          positions df col = [j] ->
          value_counts (series_at df j) = Ok counts ->
          cat_unique_count c = Z.of_nat (nunique (series_at df j))).
Proof.
  intros Hcol. apply (columns_of_kind_spec data_types "text") in Hcol.
  unfold Categories.get_available_categories. cbn zeta.
  rewrite category_loop_lookup, decide_True by done.
  unfold Categories.written_entry. eexists. split; [reflexivity|].
  destruct (category_of df col) as [c|e] eqn:Hc.
  - destruct (category_of_shape _ _ _ Hc) as (Ht & Hu & Hs).
    split; [done|]. split; [done|]. split; [done|].
    unfold Categories.category_of, getitem in Hc. split.
    + intros Hj. destruct (positions df col) as [|j' [|]]; [done| |done].
      by destruct (Hj j').
    + intros j counts Hj Hcounts. rewrite Hj in Hc. cbn in Hc.
      rewrite Hcounts in Hc. cbn in Hc. by injection Hc as <-.
  - split; [done|]. split; [done|].
    split; [unfold fallback; cbn [cat_sample_values];
            rewrite map_size_empty; lia|].
    split; [done|]. intros j counts Hj Hcounts.
    unfold Categories.category_of, getitem in Hc. rewrite Hj in Hc.
    cbn in Hc. by rewrite Hcounts in Hc.
Qed.

(** The keys of the result are the three list keys and the text columns.
    A list key that is not itself a text column holds the columns of its
    kind: a column is listed there exactly when [data_types] gives it that
    kind. *)
Theorem categories_keys_and_lists (df : DataFrame)
    (data_types : gmap label string) :
  let result := get_available_categories df data_types in
  (forall key,
      is_Some (result !! key)
      <-> key ∈ [Some "text_columns"; Some "numeric_columns";
                 Some "datetime_columns"]
          \/ data_types !! key = Some "text")
  /\ (forall kind,
        kind ∈ ["text"; "numeric"; "datetime"] ->
        data_types !! Some (kind ++ "_columns") <> Some "text" ->
        exists cols,
          result !! Some (kind ++ "_columns") = Some (ColumnList cols)
          /\ forall column,
               column ∈ cols <-> data_types !! column = Some kind).
Proof.
  cbn zeta. unfold Categories.get_available_categories. cbn zeta. split.
  - intros key. rewrite category_loop_lookup.
    rewrite <- (columns_of_kind_spec data_types "text").
    destruct (decide (key ∈ columns_of_kind data_types "text")) as [Hin|Hnot].
    + split; [by right | by eexists].
    + rewrite !elem_of_cons, elem_of_nil.
      destruct (decide (key = Some "datetime_columns")) as [->|H1].
      { rewrite lookup_insert_eq. split; [tauto | by eexists]. }
      rewrite lookup_insert_ne by done.
      destruct (decide (key = Some "numeric_columns")) as [->|H2].
      { rewrite lookup_insert_eq. split; [tauto | by eexists]. }
      rewrite lookup_insert_ne by done.
      destruct (decide (key = Some "text_columns")) as [->|H3].
      { rewrite lookup_singleton_eq. split; [tauto | by eexists]. }
      rewrite lookup_singleton_ne by done.
      split; [by intros [? ?] | intros [[|[|[|[]]]]|]; done].
  - intros kind Hkind Hnot. rewrite category_loop_lookup.
    rewrite decide_False by by rewrite columns_of_kind_spec.
    exists (columns_of_kind data_types kind).
    split; [|intros column; apply columns_of_kind_spec].
    rewrite !elem_of_cons, elem_of_nil in Hkind.
    by destruct Hkind as [->|[->|[->|[]]]].
Qed.

End CategoryFacts.

(** * Paging through a stored file *)

Section LoadMoreFacts.
Import PyStr Pandas Routing LoadMore.
Context {J : Type}.
Variable to_json_records : DataFrame -> result J.
Variable path_exists : string -> bool.
Variable extract_table_from_pdf : string -> result DataFrame.
Variable read_csv : string -> string -> result DataFrame.
Variable read_excel : string -> result DataFrame.

Local Abbreviation read_stored :=
  (read_stored extract_table_from_pdf read_csv read_excel).
Local Abbreviation load_more_body :=
  (load_more_body to_json_records path_exists extract_table_from_pdf
     read_csv read_excel).
Local Abbreviation load_more_data :=
  (load_more_data to_json_records path_exists extract_table_from_pdf
     read_csv read_excel).

(** The window [start_row : min(start_row + rows_count, len)] of a
    sequence, for a start and a count that are not negative. *)
Lemma py_slice_window {A} (l : list A) (start count : Z) :
  (0 <= start)%Z -> (0 <= count)%Z ->
  py_slice l start (Z.min (start + count) (Z.of_nat (length l)))
  = take (Z.to_nat count) (drop (Z.to_nat start) l).
Proof.
  intros Hs Hc. unfold py_slice, slice_bound. cbn zeta.
  remember (Z.of_nat (length l)) as n eqn:Hn.
  rewrite (proj2 (Z.ltb_ge start 0)) by lia.
  rewrite (proj2 (Z.ltb_ge (Z.min (start + count) n) 0)) by lia.
  destruct (decide (start <= n)%Z) as [Hle|Hgt].
  - rewrite (Z.min_l start n) by lia.
    rewrite (Z.min_l _ n) by lia.
    destruct (decide (start + count <= n)%Z).
    + rewrite Z.min_l by lia. f_equal. lia.
    + rewrite Z.min_r by lia.
      rewrite !take_ge; [done| |]; rewrite length_drop; lia.
  - rewrite !drop_ge by lia. by rewrite !take_nil.
Qed.

Lemma take_add_drop {A} (l : list A) (a b : nat) :
  (take a l ++ take b (drop a l))%list = take (a + b) l.
Proof.
  revert l. induction a as [|a IH]; intros [|x l]; cbn; try done.
  - by rewrite take_nil.
  - by rewrite IH.
Qed.

(** A well-formed request for an existing file that can be read gets the
    rows from [start_row] on, at most [rows_count] of them, with
    [end_row] the smaller of [start_row + rows_count] and the number of
    rows, and [has_more_data] set exactly when rows remain after the
    window. *)
Theorem load_more_data_window (data : request) (filename : string)
    (df0 : DataFrame) :
  let start_row := default 0%Z (req_start_row data) in
  let rows_count := default 100%Z (req_rows_count data) in
  let filepath := path_join UPLOAD_FOLDER filename in
  let df := PdfTable.clean df0 in
  let rows :=
    take (Z.to_nat rows_count) (drop (Z.to_nat start_row) (df_data df)) in
  req_filename data = Some filename ->
  filename <> "" ->
  path_exists filepath = true ->
  read_stored filename filepath = Ok df0 ->
  (0 <= start_row)%Z ->
  (0 <= rows_count)%Z ->
  load_more_data data
  = match to_json_records (mkDataFrame (df_columns df) rows) with
    | Ok data_json =>
        Page data_json start_row
          (Z.min (start_row + rows_count) (Z.of_nat (len df)))
          (bool_decide (start_row + rows_count < Z.of_nat (len df))%Z)
    | Raise e => JsonError 500 ("Ошибка загрузки данных: " ++ str_exn e)
    end
  /\ (Z.of_nat (length rows) <= rows_count)%Z.
Proof.
  intros start_row rows_count filepath df rows Hname Hne Hex Hread Hs Hc.
  split; [|unfold rows; rewrite length_take; lia].
  unfold LoadMore.load_more_data, LoadMore.load_more_body. rewrite Hname.
  destruct filename as [|ch rest]; [done|]. cbn zeta.
  fold filepath. rewrite Hex. cbn [negb]. rewrite Hread. cbn [mbind].
  unfold result_bind, Py.bind. fold df. fold start_row rows_count.
  unfold iloc, len. rewrite py_slice_window by done. fold rows.
  destruct (to_json_records _) as [j|e]; [|done]. f_equal.
  apply eq_true_iff_eq. rewrite bool_decide_eq_true, Z.ltb_lt.
  unfold df, PdfTable.clean. lia.
Qed.

(** Asking for consecutive windows of [count] rows from row 0 on returns
    every row once and in order: the first [m] windows together are the
    first [m * count] rows. *)
Theorem load_more_windows_cover (df : DataFrame) (count : Z) (m : nat) :
  (0 <= count)%Z ->
  concat
    (map (fun k =>
            let start_row := (Z.of_nat k * count)%Z in
            let end_row :=
              Z.min (start_row + count) (Z.of_nat (len df)) in
            df_data (iloc df start_row end_row))
       (seq 0 m))
  = take (m * Z.to_nat count) (df_data df).
Proof.
  intros Hc. induction m as [|m IH]; [done|].
  rewrite seq_S, map_app, concat_app, IH. cbn [map concat plus].
  rewrite app_nil_r. unfold iloc, len. cbn [df_data].
  rewrite py_slice_window by lia.
  replace (Z.to_nat (Z.of_nat m * count)) with (m * Z.to_nat count)%nat
    by lia.
  rewrite take_add_drop. f_equal. lia.
Qed.


(** The name in the request is not confined to the upload folder: an
    absolute name is looked up and read as it stands. *)
Theorem load_more_data_absolute_name (data : request) (rest : string)
    (df0 : DataFrame) (data_json : J) :
  let filename := String "/" rest in
  let df := PdfTable.clean df0 in
  req_filename data = Some filename ->
  path_exists filename = true ->
  read_stored filename filename = Ok df0 ->
  to_json_records
    (iloc df (default 0%Z (req_start_row data))
       (Z.min (default 0%Z (req_start_row data)
               + default 100%Z (req_rows_count data))
          (Z.of_nat (len df))))
  = Ok data_json ->
  exists end_row has_more,
    load_more_data data
    = Page data_json (default 0%Z (req_start_row data)) end_row has_more.
Proof.
  intros filename df Hname Hex Hread Hjson.
  unfold LoadMore.load_more_data, LoadMore.load_more_body. rewrite Hname.
  cbn zeta. unfold filename at 1.
  change (path_join UPLOAD_FOLDER filename) with filename.
  rewrite Hex. cbn [negb]. rewrite Hread. cbn [mbind].
  unfold result_bind, Py.bind.
  unfold df, PdfTable.clean in Hjson. rewrite Hjson. by eexists _, _.
Qed.

End LoadMoreFacts.

(** * The route of the Yandex analysis *)

Section YandexRouteFacts.
Import PyStr Pandas Routing RemoteAnalysis YandexRoute.
Context {SDK Model : Type}.
Variable environ : gmap string string.
Variable YCloudML : string -> string -> result SDK.
Variable completions : SDK -> string -> result Model.
Variable run_and_wait :
  Model -> list (string * string) -> result Yandex.completion.
Variable str_scalar : scalar -> string.
Variable path_exists : string -> bool.
Variable extract_table_from_pdf : string -> result DataFrame.
Variable read_csv : string -> string -> result DataFrame.
Variable read_excel : string -> result DataFrame.
Variable to_records : DataFrame -> result (list row).

Local Abbreviation create_yandex_analyzer :=
  (create_yandex_analyzer environ YCloudML completions).
Local Abbreviation read_or_respond :=
  (read_or_respond extract_table_from_pdf read_csv read_excel).
Local Abbreviation yandex_analysis :=
  (yandex_analysis environ YCloudML completions run_and_wait str_scalar
     path_exists extract_table_from_pdf read_csv read_excel to_records).

(** What the route does once the analyzer has answered. *)
Lemma yandex_answer_cases (table_data : list row) (filename : string)
    (run : list (string * string) -> result Yandex.completion) :
  let messages :=
    [("system", Yandex.system_prompt);
     ("user",
      Yandex.user_prompt filename
        (Yandex.prepare_data_for_analysis str_scalar table_data))] in
  (exists alt alts,
      run messages = Ok (Yandex.Alternatives (alt :: alts))
      /\ Yandex.analyze_table_data str_scalar run table_data filename
         = Ok (success_dict (Yandex.analysis_text_of alt) "yandexgpt"
                 filename))
  \/ ((forall alt alts,
          run messages <> Ok (Yandex.Alternatives (alt :: alts)))
      /\ exists error,
           Yandex.analyze_table_data str_scalar run table_data filename
           = Ok (failure_dict error)).
Proof.
  intros messages. unfold Yandex.analyze_table_data, Yandex.analyze_body.
  cbn zeta. fold messages.
  destruct (run messages) as [[| |[|alt alts]]|e]; cbn;
    first [left; by eexists _, _ | right; split; [done | by eexists]].
Qed.

(** The route answers with the analysis exactly when a file name is given,
    the file exists and can be read (a CSV as utf-8, cp1251 or latin-1), its
    first 15 cleaned rows convert to records, the analyzer can be created
    from the environment, and the model returns at least one alternative;
    the content is then the text of the first alternative. *)
Theorem yandex_analysis_completed_iff (filename : option string)
    (content model_name name_field : field) :
  yandex_analysis filename = Completed content model_name name_field
  <-> exists name df table_data a alt alts,
        filename = Some name /\ name <> ""
        /\ path_exists (LoadMore.path_join UPLOAD_FOLDER name) = true
        /\ read_or_respond name (LoadMore.path_join UPLOAD_FOLDER name)
           = inl df
        /\ to_records (frame_head 15 (PdfTable.clean df)) = Ok table_data
        /\ create_yandex_analyzer = Some a
        /\ run_and_wait (model a)
             [("system", Yandex.system_prompt);
              ("user",
               Yandex.user_prompt name
                 (Yandex.prepare_data_for_analysis str_scalar table_data))]
           = Ok (Yandex.Alternatives (alt :: alts))
        /\ content = FStr (Yandex.analysis_text_of alt)
        /\ model_name = FStr "yandexgpt"
        /\ name_field = FStr name.
Proof.
  unfold YandexRoute.yandex_analysis, yandex_analysis_body. split.
  - destruct filename as [[|ch rest]|]; [done| |done].
    set (name := String ch rest). cbn zeta.
    destruct (path_exists _) eqn:Hex; cbn [negb]; [|done].
    destruct (read_or_respond _ _) as [df|answer] eqn:Hread; cycle 1.
    { intros ->. unfold YandexRoute.read_or_respond in Hread.
      destruct (LoadMore.read_stored _ _ _ _ _); [done|].
      destruct (endswith _ _); [|by injection Hread].
      destruct (read_csv _ "cp1251"); [done|].
      destruct (read_csv _ "latin-1"); [done|]. by injection Hread. }
    change (where_notnull_none (dropna_columns (dropna_rows df)))
      with (PdfTable.clean df).
    destruct (to_records _) as [table_data|e] eqn:Hrec; [|done]. cbn.
    destruct create_yandex_analyzer as [a|] eqn:Ha; [|done].
    destruct (yandex_answer_cases table_data name (run_and_wait (model a)))
      as [(alt & alts & Hrun & ->)|(_ & error & ->)]; cbn.
    + intros [= <- <- <-].
      exists name, df, table_data, a, alt, alts. by repeat split.
    + done.
  - intros (name & df & table_data & a & alt & alts & Hname & Hne & Hex
            & Hread & Hrec & Ha & Hrun & Hc & Hm & Hn).
    subst filename content model_name name_field.
    destruct name as [|ch rest]; [done|]. set (name := String ch rest) in *.
    cbn zeta. rewrite Hex. cbn [negb]. rewrite Hread.
    change (where_notnull_none (dropna_columns (dropna_rows df)))
      with (PdfTable.clean df).
    rewrite Hrec. cbn. rewrite Ha.
    destruct (yandex_answer_cases table_data name (run_and_wait (model a)))
      as [(alt' & alts' & Hrun' & ->)|(Hnone & _)]; cbn.
    + rewrite Hrun in Hrun'. by injection Hrun' as <- <-.
    + by destruct (Hnone alt alts).
Qed.

(** Without [YANDEX_FOLDER_ID] or [YANDEX_AUTH_TOKEN] in the environment
    (unset or empty) no analyzer is created, the SDK is not consulted, and
    the route never answers with an analysis. *)
Theorem yandex_analysis_missing_settings (filename : option string) :
  (environ !! "YANDEX_FOLDER_ID" = None
   \/ environ !! "YANDEX_FOLDER_ID" = Some ""
   \/ environ !! "YANDEX_AUTH_TOKEN" = None
   \/ environ !! "YANDEX_AUTH_TOKEN" = Some "") ->
  create_yandex_analyzer = None
  /\ exists status error, yandex_analysis filename = JsonError status error.
Proof.
  intros Henv.
  assert (Hnone : create_yandex_analyzer = None).
  { unfold YandexRoute.create_yandex_analyzer, YandexGPTAnalyzer. cbn zeta.
    destruct Henv as [H | [H | [H | H]]]; rewrite H; try done.
    - by destruct (environ !! "YANDEX_AUTH_TOKEN").
    - by destruct (environ !! "YANDEX_FOLDER_ID").
    - destruct (environ !! "YANDEX_FOLDER_ID"); [|done].
      by rewrite orb_true_r. }
  split; [done|].
  unfold YandexRoute.yandex_analysis, yandex_analysis_body.
  destruct filename as [[|ch rest]|]; [by eexists _, _| |by eexists _, _].
  cbn zeta. destruct (negb _); [by eexists _, _|].
  destruct (read_or_respond _ _) as [df|answer] eqn:Hread; cycle 1.
  { unfold YandexRoute.read_or_respond in Hread.
    destruct (LoadMore.read_stored _ _ _ _ _); [done|].
    destruct (endswith _ _); [|injection Hread as <-; by eexists _, _].
    destruct (read_csv _ "cp1251"); [done|].
    destruct (read_csv _ "latin-1"); [done|].
    injection Hread as <-. by eexists _, _. }
  destruct (to_records _); cbn; [|by eexists _, _].
  rewrite Hnone. by eexists _, _.
Qed.

End YandexRouteFacts.

(** * Creating the report generator *)

Section GeneratorFacts.
Import Analytics PdfReport.
Variable sample_styles : gset string.
Variable os_is_nt : bool.
Variable path_exists : string -> bool.
Variable register_font : string -> result unit.

Local Abbreviation first_registered :=
  (first_registered path_exists register_font).
Local Abbreviation setup_fonts :=
  (setup_fonts os_is_nt path_exists register_font).
Local Abbreviation new_generator :=
  (new_generator sample_styles os_is_nt path_exists register_font).

Lemma add_style_ok_inv (sheet sheet' : gset string) (name parent : string) :
  add_style sheet name parent = Ok sheet' ->
  parent ∈ sheet /\ (name ∉ sheet) /\ sheet' = {[name]} ∪ sheet.
Proof.
  unfold add_style, style_of.
  destruct (decide (parent ∈ sheet)); [|done]. cbn.
  destruct (decide (name ∈ sheet)); [done|]. by intros [= <-].
Qed.

Lemma add_style_raises (sheet : gset string) (name parent : string)
    (e : exn) :
  add_style sheet name parent = Raise e -> exists m, e = KeyError m.
Proof.
  unfold add_style, style_of.
  destruct (decide (parent ∈ sheet)); cbn; [|intros [= <-]; by eexists].
  destruct (decide (name ∈ sheet)); [|done]. intros [= <-]. by eexists.
Qed.

Lemma first_registered_spec (paths : list string) :
  (first_registered paths = Some "CustomFont"
   /\ exists font_path,
        font_path ∈ paths /\ path_exists font_path = true
        /\ register_font font_path = Ok tt)
  \/ (first_registered paths = None
      /\ forall font_path,
           font_path ∈ paths -> path_exists font_path = true ->
           exists e, register_font font_path = Raise e).
Proof.
  induction paths as [|p paths IH]; cbn [PdfReport.first_registered].
  - right. split; [done|]. by intros ? ?%elem_of_nil.
  - destruct (path_exists p) eqn:Hp.
    + destruct (register_font p) as [[]|e] eqn:Hr.
      * left. split; [done|]. exists p. split; [by left | done].
      * destruct IH as [(-> & q & Hq & Hex & Hreg)|(-> & Hnone)].
        -- left. split; [done|]. exists q. split; [by right | done].
        -- right. split; [done|].
           intros q [->|Hq]%elem_of_cons Hex; [by eexists | by apply Hnone].
    + destruct IH as [(-> & q & Hq & Hex & Hreg)|(-> & Hnone)].
      * left. split; [done|]. exists q. split; [by right | done].
      * right. split; [done|].
        intros q [->|Hq]%elem_of_cons Hex; [congruence | by apply Hnone].
Qed.

(** The constructor of the generator returns exactly when the sample style
    sheet has the four parent styles and none of the five names it adds;
    otherwise it raises [KeyError] (outside of any [try], so
    [create_pdf_report] raises too).  A generator that is created has the
    five styles added, and its font is CustomFont when one of the candidate
    font files exists and registers, Helvetica when none does. *)
Theorem new_generator_outcome :
  let parents := ["Title"; "Heading1"; "Normal"; "Heading2"] in
  let added := ["ReportTitle"; "SectionTitle"; "NormalText";
                "SubsectionTitle"; "AIAnalysis"] in
  ((exists g, new_generator = Ok g)
   <-> (forall parent, parent ∈ parents -> parent ∈ sample_styles)
       /\ (forall name, name ∈ added -> name ∉ sample_styles))
  /\ (forall e, new_generator = Raise e -> exists m, e = KeyError m)
  /\ (forall g,
        new_generator = Ok g ->
        (forall name,
           name ∈ styles g <-> name ∈ added \/ name ∈ sample_styles)
        /\ ((font_name g = "CustomFont"
             /\ exists font_path,
                  font_path ∈ font_paths os_is_nt
                  /\ path_exists font_path = true
                  /\ register_font font_path = Ok tt)
            \/ (font_name g = "Helvetica"
                /\ forall font_path,
                     font_path ∈ font_paths os_is_nt ->
                     path_exists font_path = true ->
                     exists e, register_font font_path = Raise e))).
Proof.
  intros parents added.
  assert (Hinv : forall sheet,
            setup_custom_styles sample_styles = Ok sheet ->
            ((forall parent, parent ∈ parents -> parent ∈ sample_styles)
             /\ (forall name, name ∈ added -> name ∉ sample_styles))
            /\ forall name,
                 name ∈ sheet <-> name ∈ added \/ name ∈ sample_styles).
  { intros sheet H. unfold setup_custom_styles in H.
    apply bind_ok_inv in H as (s1 & H1 & H).
    apply bind_ok_inv in H as (s2 & H2 & H).
    apply bind_ok_inv in H as (s3 & H3 & H).
    apply bind_ok_inv in H as (s4 & H4 & H5).
    apply add_style_ok_inv in H1 as (P1 & N1 & ->).
    apply add_style_ok_inv in H2 as (P2 & N2 & ->).
    apply add_style_ok_inv in H3 as (P3 & N3 & ->).
    apply add_style_ok_inv in H4 as (P4 & N4 & ->).
    apply add_style_ok_inv in H5 as (P5 & N5 & ->).
    rewrite !elem_of_union, !elem_of_singleton in *.
    split; [split|].
    - intros parent Hp. unfold parents in Hp.
      rewrite !elem_of_cons, elem_of_nil in Hp.
      destruct Hp as [->|[->|[->|[->|[]]]]].
      + done.
      + by destruct P2 as [|].
      + by destruct P3 as [|[|]].
      + by destruct P4 as [|[|[|]]].
    - intros name Hn. unfold added in Hn.
      rewrite !elem_of_cons, elem_of_nil in Hn.
      destruct Hn as [->|[->|[->|[->|[->|[]]]]]]; tauto.
    - intros name. unfold added.
      rewrite !elem_of_union, !elem_of_singleton, !elem_of_cons, elem_of_nil.
      tauto. }
  split; [split|split].
  - intros [g Hg]. unfold PdfReport.new_generator in Hg.
    apply bind_ok_inv in Hg as (sheet & Hsheet & _).
    by apply Hinv in Hsheet as [? _].
  - intros [Hparents Hfresh]. unfold PdfReport.new_generator.
    unfold setup_custom_styles.
    rewrite add_style_ok; [|apply Hparents; in_list|apply Hfresh; in_list].
    cbn. rewrite add_style_ok; cycle 1.
    { apply elem_of_union_r, Hparents. in_list. }
    { apply not_elem_of_union. split; [by apply not_elem_of_singleton|].
      apply Hfresh. in_list. }
    cbn. rewrite add_style_ok; cycle 1.
    { do 2 apply elem_of_union_r. apply Hparents. in_list. }
    { rewrite !not_elem_of_union, !not_elem_of_singleton.
      repeat split; [done..|]. apply Hfresh. in_list. }
    cbn. rewrite add_style_ok; cycle 1.
    { do 3 apply elem_of_union_r. apply Hparents. in_list. }
    { rewrite !not_elem_of_union, !not_elem_of_singleton.
      repeat split; [done..|]. apply Hfresh. in_list. }
    cbn. rewrite add_style_ok; cycle 1.
    { do 4 apply elem_of_union_r. apply Hparents. in_list. }
    { rewrite !not_elem_of_union, !not_elem_of_singleton.
      repeat split; [done..|]. apply Hfresh. in_list. }
    by eexists.
  - intros e. unfold PdfReport.new_generator, setup_custom_styles.
    destruct (add_style sample_styles _ _) as [s1|e1] eqn:H1; cbn;
      [|intros [= <-]; by eapply add_style_raises].
    destruct (add_style s1 _ _) as [s2|e2] eqn:H2; cbn;
      [|intros [= <-]; by eapply add_style_raises].
    destruct (add_style s2 _ _) as [s3|e3] eqn:H3; cbn;
      [|intros [= <-]; by eapply add_style_raises].
    destruct (add_style s3 _ _) as [s4|e4] eqn:H4; cbn;
      [|intros [= <-]; by eapply add_style_raises].
    destruct (add_style s4 _ _) as [s5|e5] eqn:H5; cbn;
      [done|intros [= <-]; by eapply add_style_raises].
  - intros g Hg. unfold PdfReport.new_generator in Hg.
    apply bind_ok_inv in Hg as (sheet & Hsheet & Hg). injection Hg as <-.
    cbn [styles font_name]. split; [by apply Hinv in Hsheet as [_ ?]|].
    unfold PdfReport.setup_fonts.
    destruct (first_registered_spec (font_paths os_is_nt))
      as [(-> & H)|(-> & H)]; [by left | by right].
Qed.

End GeneratorFacts.

(** * The data table of the report *)

Section DataTableFacts.
Import Analytics PdfReport DataTable.
Variable py_strip : string -> string.
Variable str_len : string -> nat.
Variable str_take : nat -> string -> string.
Variable str_value : pyvalue -> string.
Variable format_2f : npfloat -> string.
Variable paragraph : string -> string -> result flowable.
Variable make_table : list (list string) -> string -> result flowable.

Local Abbreviation format_cell :=
  (format_cell py_strip str_len str_take str_value format_2f).
Local Abbreviation table_row :=
  (table_row py_strip str_len str_take str_value format_2f).
Local Abbreviation table_rows :=
  (table_rows py_strip str_len str_take str_value format_2f).
Local Abbreviation add_data_table :=
  (add_data_table py_strip str_len str_take str_value format_2f paragraph
     make_table).

Lemma mapM_ok {A B} (f : A -> result B) (l : list A) :
  (forall x, x ∈ l -> exists y, f x = Ok y) ->
  exists ys, mapM f l = Ok ys.
Proof.
  induction l as [|x l IH]; intros Hall; cbn [mapM]; [by eexists|].
  destruct (Hall x) as [y Hy]; [by left|]. rewrite Hy.
  destruct IH as [ys Hys]; [intros; apply Hall; by right|].
  rewrite Hys. by eexists.
Qed.

Lemma mapM_lookup {A B} (f : A -> result B) (l : list A) (ys : list B) :
  mapM f l = Ok ys ->
  length ys = length l
  /\ forall i x, l !! i = Some x -> exists y, ys !! i = Some y /\ f x = Ok y.
Proof.
  revert ys. induction l as [|x l IH]; intros ys; cbn [mapM].
  - intros [= <-]. split; [done|]. by intros.
  - intros H. apply bind_ok_inv in H as (y & Hy & H).
    apply bind_ok_inv in H as (ys' & Hys & H). injection H as <-.
    destruct (IH _ Hys) as [Hlen Hlook]. split; [simpl; by rewrite Hlen|].
    intros [|i] x'; cbn.
    + intros [= <-]. by exists y.
    + apply Hlook.
Qed.

Lemma format_cell_returns (value : pyvalue) :
  value <> PFloat PosInf -> value <> PFloat NegInf ->
  exists cell, format_cell value = Ok cell.
Proof.
  intros Hp Hn. unfold DataTable.format_cell.
  destruct (is_blank _ _ _); [by eexists|].
  destruct value as [|b|z|[q| | |]|s|items|items]; try done;
    try (by eexists).
  destruct (decide _); by eexists.
Qed.

(** The table of the report has the column names as its first row and one
    row for each of the first 30 records, each with one cell per column, so
    no row is wider or narrower than the header; a cell that is [None], an
    empty or blank string or NaN shows a dash.  The rows are built whenever
    no shown cell is an infinite float.  The section is the title, the
    table and a spacer, followed by a note exactly when there are more than
    30 records. *)
Theorem add_data_table_rows (g : generator)
    (table_data : list (list (string * pyvalue))) (columns : list string) :
  table_data <> [] -> columns <> [] ->
  (forall row col,
      row ∈ take 30 table_data -> col ∈ columns ->
      dict_get row col (PStr "") <> PFloat PosInf
      /\ dict_get row col (PStr "") <> PFloat NegInf) ->
  exists data_rows,
    table_rows table_data columns = Ok (columns :: data_rows)
    /\ length data_rows = Nat.min 30 (length table_data)
    /\ Forall (fun r => length r = length columns) data_rows
    /\ (forall i j row col,
          table_data !! i = Some row -> (i < 30)%nat ->
          columns !! j = Some col ->
          exists r cell,
            data_rows !! i = Some r /\ r !! j = Some cell
            /\ format_cell (dict_get row col (PStr "")) = Ok cell
            /\ (dict_get row col (PStr "") ∈ [PNone; PStr ""; PFloat NaN] ->
                cell = dash))
    /\ (forall elements,
          add_data_table g table_data columns = Ok elements ->
          exists title table,
            make_table (columns :: data_rows) (font_name g) = Ok table
            /\ ((length table_data <= 30)%nat
                /\ elements = [title; table; Spacer 1 12]
                \/ (30 < length table_data)%nat
                   /\ exists note,
                        elements = [title; table; Spacer 1 12; note])).
Proof.
  intros Hdata Hcols Hfinite.
  destruct (mapM_ok (table_row columns) (take 30 table_data))
    as [data_rows Hrows].
  { intros row Hrow. apply mapM_ok. intros col Hcol.
    destruct (Hfinite row col Hrow Hcol). by apply format_cell_returns. }
  exists data_rows. unfold DataTable.table_rows. rewrite Hrows.
  split; [done|].
  destruct (mapM_lookup _ _ _ Hrows) as [Hlen Hlook].
  split; [by rewrite Hlen, length_take|]. split; [|split].
  - apply Forall_forall. intros r Hr.
    apply list_elem_of_lookup in Hr as [i Hi].
    destruct (lookup_lt_is_Some_2 (take 30 table_data) i) as [row Hrow];
      [rewrite <- Hlen; by eapply lookup_lt_Some|].
    destruct (Hlook i row Hrow) as (r' & Hr' & Hrow').
    rewrite Hi in Hr'. injection Hr' as <-.
    by apply mapM_lookup in Hrow' as [? _].
  - intros i j row col Hrow Hi Hcol.
    destruct (Hlook i row) as (r & Hr & Hrow');
      [by rewrite lookup_take_lt|].
    destruct (mapM_lookup _ _ _ Hrow') as [_ Hcells].
    destruct (Hcells j col Hcol) as (cell & Hcell & Hformat).
    exists r, cell. split; [done|]. split; [done|]. split; [done|].
    intros Hblank. unfold DataTable.format_cell in Hformat.
    rewrite !elem_of_cons, elem_of_nil in Hblank.
    destruct Hblank as [H|[H|[H|[]]]]; rewrite H in Hformat;
      unfold is_blank in Hformat; cbn in Hformat.
    + by injection Hformat as <-.
    + by injection Hformat as <-.
    + rewrite orb_true_r in Hformat. by injection Hformat as <-.
  - intros elements H. unfold DataTable.add_data_table in H.
    apply bind_ok_inv in H as (st & _ & H).
    apply bind_ok_inv in H as (title & _ & H).
    rewrite (bool_decide_eq_false_2 (table_data = [])) in H by done.
    rewrite (bool_decide_eq_false_2 (columns = [])) in H by done.
    cbn [orb] in H. unfold DataTable.table_rows in H. rewrite Hrows in H.
    cbn in H. apply bind_ok_inv in H as (table & Htable & H).
    exists title, table. split; [done|].
    destruct (decide (30 < length table_data)%nat) as [Hlong|Hshort].
    + apply bind_ok_inv in H as (nt & _ & H).
      apply bind_ok_inv in H as (note & _ & H). injection H as <-.
      right. split; [done|]. by exists note.
    + injection H as <-. left. split; [lia | done].
Qed.

End DataTableFacts.

(** * The added properties on sample data *)

Section MoreExamples.
Import PyStr Pandas Routing UploadNames Analytics Charts Samples MoreSamples.

Lemma read_uploaded_csv_retry_witness :
  endswith "20250918_214023_sales.csv" ".csv" = true
  /\ (read_uploaded (fun _ => 2048%Z) (fun _ => Ok 1%nat) cp1251_csv
        (fun _ _ => Ok 3%nat) "20250918_214023_sales.csv" stored_sales).2
     = Ok 2%nat.
Proof.
  split; [reflexivity|].
  destruct (read_uploaded_csv_retry (fun _ => 2048%Z) (fun _ => Ok 1%nat)
              cp1251_csv (fun _ _ => Ok 3%nat) "20250918_214023_sales.csv"
              stored_sales eq_refl) as [Hread _].
  rewrite Hread. reflexivity.
Defined.

Lemma read_uploaded_single_attempt_witness :
  endswith "20250918_214023_sales.xlsx" ".csv" = false
  /\ read_uploaded (fun _ => 2048%Z) (fun _ => Ok 1%nat) cp1251_csv
       (fun _ _ => Ok 3%nat) "20250918_214023_sales.xlsx"
       "uploads/20250918_214023_sales.xlsx"
     = ([ExcelReader], Ok 3%nat).
Proof.
  split; [reflexivity|].
  rewrite (read_uploaded_single_attempt (fun _ => 2048%Z)
             (fun _ => Ok 1%nat) cp1251_csv (fun _ _ => Ok 3%nat)
             "20250918_214023_sales.xlsx"
             "uploads/20250918_214023_sales.xlsx" eq_refl).
  reflexivity.
Defined.

Local Abbreviation sample_analytics :=
  (get_basic_analytics sample_sum sample_mean sample_min sample_max
     sample_median sample_std sample_value_counts sample_str).
Local Abbreviation sample_column_info :=
  (column_info sample_sum sample_mean sample_min sample_max sample_median
     sample_std sample_value_counts sample_str).

Lemma column_counts_add_up_witness :
  exists a info n k u,
    sample_analytics sales_frame = Ok a
    /\ columns_info a !! Some "sellingprice" = Some info
    /\ info !! "non_null_count" = Some (VInt n)
    /\ info !! "null_count" = Some (VInt k)
    /\ info !! "unique_count" = Some (VInt u)
    /\ (n + k = 3)%Z /\ (0 <= u <= n)%Z.
Proof.
  destruct (sample_analytics sales_frame) as [a|e] eqn:Ha;
    [|by vm_compute in Ha].
  destruct (columns_info a !! Some "sellingprice") as [info|] eqn:Hinfo;
    cycle 1.
  { exfalso. revert Hinfo. injection Ha as <-. by vm_compute. }
  destruct (column_counts_add_up sample_sum sample_mean sample_min sample_max
              sample_median sample_std sample_value_counts sample_str
              sales_frame a (Some "sellingprice") info Ha Hinfo)
    as (n & k & u & Hn & Hk & Hu & Hsum & Hle).
  exists a, info, n, k, u.
  split; [reflexivity|]. split; [exact Hinfo|]. split; [exact Hn|].
  split; [exact Hk|]. split; [exact Hu|]. split; [|exact Hle].
  replace 3%Z with (total_rows a); [exact Hsum|].
  injection Ha as <-. reflexivity.
Defined.

Lemma summary_counts_bounded_witness :
  exists a,
    sample_analytics sales_frame = Ok a
    /\ (numeric_columns (summary_stats a) + text_columns (summary_stats a)
        <= total_columns a)%Z
    /\ (total_missing_values (summary_stats a)
        <= total_rows a * total_columns a)%Z.
Proof.
  destruct (sample_analytics sales_frame) as [a|e] eqn:Ha;
    [|by vm_compute in Ha].
  destruct (summary_counts_bounded sample_sum sample_mean sample_min
              sample_max sample_median sample_std sample_value_counts
              sample_str sales_frame a Ha) as (_ & _ & Hcols & _ & Hmiss).
  by exists a.
Defined.

Lemma numeric_stats_all_or_nothing_witness :
  exists info,
    sample_column_info sales_frame (ItemSeries (series_at sales_frame 2))
    = Ok info
    /\ info !! "sum" = Some (VFloat (Finite 51500))
    /\ info !! "max" = Some (VFloat (Finite 30000)).
Proof.
  destruct (numeric_stats_all_or_nothing sample_sum sample_mean sample_min
              sample_max sample_median sample_std sample_value_counts
              sample_str sales_frame (series_at sales_frame 2))
    as (info & Hinfo & Hall & _).
  { in_list. }
  { reflexivity. }
  exists info. split; [exact Hinfo|].
  destruct (Hall _ _ _ _ _ _ eq_refl eq_refl eq_refl eq_refl eq_refl eq_refl)
    as (Hsum & _ & _ & Hmax & _).
  split; [exact Hsum | exact Hmax].
Defined.

Lemma top_values_at_most_five_witness :
  exists info m,
    sample_column_info sales_frame (ItemSeries (series_at sales_frame 0))
    = Ok info
    /\ info !! "top_values" = Some (VCounts m)
    /\ (size m <= 5)%nat
    /\ info !! "unique_values_count" = Some (VInt 2).
Proof.
  destruct (top_values_at_most_five sample_sum sample_mean sample_min
              sample_max sample_median sample_std sample_value_counts
              sample_str sales_frame (series_at sales_frame 0) eq_refl)
    as (info & m & u & Hinfo & Htop & Hu & Hsize & Hok & _).
  exists info, m. split; [exact Hinfo|]. split; [exact Htop|].
  split; [exact Hsize|].
  destruct (Hok _ eq_refl) as [-> _]. exact Hu.
Defined.

Local Abbreviation sample_charts :=
  (create_charts sample_groupby_size sample_groupby_sum sample_str
     sample_float_scalar sample_plotly_json).

Lemma create_charts_line_present_witness :
  exists before,
    sample_charts sales_frame sales_types
    = Ok (before
          ++ [mkChart "line" line_title "scatter: 2014, 2015"])%list
    /\ (length before <= 1)%nat.
Proof.
  edestruct (create_charts_line_present sample_groupby_size sample_groupby_sum
               sample_str sample_float_scalar sample_plotly_json sales_frame
               sales_types)
    as (before & Hcharts & Hlen & _).
  - reflexivity.
  - reflexivity.
  - reflexivity.
  - simpl. lia.
  - reflexivity.
  - reflexivity.
  - exists before. split; [exact Hcharts | exact Hlen].
Defined.

Lemma create_charts_bar_present_witness :
  exists rest,
    sample_charts sales_frame sales_types
    = Ok (mkChart "bar" bar_title "bar: Honda, Toyota" :: rest)
    /\ (length rest <= 1)%nat.
Proof.
  edestruct (create_charts_bar_present sample_groupby_size sample_groupby_sum
               sample_str sample_float_scalar sample_plotly_json sales_frame
               sales_types (Some "year"))
    as (rest & Hcharts & Hlen & _).
  - reflexivity.
  - reflexivity.
  - reflexivity.
  - done.
  - reflexivity.
  - exists rest. split; [exact Hcharts | exact Hlen].
Defined.

End MoreExamples.

Section ExtractionExamples.
Import Pandas PdfTable Analytics Samples.

Local Abbreviation sample_extract_from :=
  (extract_table_from_pdf (fun _ => Ok price_list_pdf)
     sample_to_numeric_coerce sample_to_datetime_coerce).

Lemma extract_table_from_pdf_kept_headers_witness :
  exists df,
    sample_extract_from "report.pdf" = Ok df
    /\ Some "price" ∈ columns df
    /\ (None : label) ∉ columns df.
Proof.
  destruct (extract_table_from_pdf_kept_headers (fun _ => Ok price_list_pdf)
              sample_to_numeric_coerce sample_to_datetime_coerce
              "report.pdf" price_list_pdf _ _ _ _ _ _ eq_refl eq_refl eq_refl)
    as (df & Hdf & _ & Hkept).
  { unfold rectangular. repeat constructor. }
  exists df. split; [exact Hdf|]. split.
  - apply Hkept. exists 1%nat, [Some "Toyota"; Some "21500"; None], "21500".
    split; [done|]. split; [by left | done].
  - intros (j & r & text & Hj & Hr & Hcell)%Hkept.
    destruct j as [|[|[|j]]]; try done.
    rewrite !elem_of_cons, elem_of_nil in Hr.
    by destruct Hr as [->|[->|[->|[]]]].
Defined.

Lemma extract_table_from_pdf_then_analysis_witness :
  NoDup [Some "make"; Some "price"; None]
  /\ exists df data_types a,
       sample_extract_from "report.pdf" = Ok df
       /\ TypeInference.detect_data_types sample_to_datetime
            sample_to_numeric df = Ok data_types
       /\ get_basic_analytics sample_sum sample_mean sample_min sample_max
            sample_median sample_std sample_value_counts sample_str df
          = Ok a
       /\ total_rows a = 2%Z.
Proof.
  assert (Hnd : NoDup [Some "make"; Some "price"; (None : option string)]).
  { apply (bool_decide_unpack _). by vm_compute. }
  split; [exact Hnd|].
  destruct (extract_table_from_pdf_then_analysis
              (fun _ => Ok price_list_pdf) sample_to_numeric_coerce
              sample_to_datetime_coerce sample_to_datetime sample_to_numeric
              sample_sum sample_mean sample_min sample_max sample_median
              sample_std sample_value_counts sample_str
              "report.pdf" price_list_pdf _ _ _ _ _ _ eq_refl eq_refl eq_refl)
    as (df & Hdf & _ & [data_types Htypes] & a & Ha & Hrows).
  { unfold rectangular. repeat constructor. }
  { exact Hnd. }
  exists df, data_types, a. split; [exact Hdf|]. split; [exact Htypes|].
  split; [exact Ha | exact Hrows].
Defined.

End ExtractionExamples.

Section RouteExamples.
Import PyStr Pandas Routing Samples MoreSamples.

Lemma categories_text_column_entry_witness :
  exists c,
    Categories.get_available_categories sample_value_counts sample_str
      sales_frame sales_types !! Some "make"
    = Some (Categories.ColumnEntry c)
    /\ Categories.cat_type c = "text"
    /\ Categories.cat_unique_count c = 2%Z.
Proof.
  destruct (categories_text_column_entry sample_value_counts sample_str
              sales_frame sales_types (Some "make") eq_refl)
    as (c & Hc & Ht & _ & _ & _ & Hu).
  exists c. split; [exact Hc|]. split; [exact Ht|].
  exact (Hu 0%nat _ eq_refl eq_refl).
Defined.

Local Abbreviation sample_load_more :=
  (LoadMore.load_more_data sample_to_json sample_path_exists
     sample_extract_pdf sample_read_csv sample_read_excel).

Lemma load_more_data_window_witness :
  sample_load_more
    (LoadMore.mkRequest (Some "20250918_214023_sales.csv") (Some 1%Z)
       (Some 1%Z))
  = LoadMore.Page 1%nat 1 2 true.
Proof.
  destruct (load_more_data_window sample_to_json sample_path_exists
              sample_extract_pdf sample_read_csv sample_read_excel
              (LoadMore.mkRequest (Some "20250918_214023_sales.csv")
                 (Some 1%Z) (Some 1%Z))
              "20250918_214023_sales.csv" sales_frame eq_refl)
    as [Hpage _].
  - done.
  - reflexivity.
  - reflexivity.
  - simpl. lia.
  - simpl. lia.
  - rewrite Hpage. reflexivity.
Defined.

Lemma load_more_windows_cover_witness :
  (df_data (LoadMore.iloc sales_frame 0 2)
   ++ df_data (LoadMore.iloc sales_frame 2 3))%list
  = df_data sales_frame.
Proof.
  pose proof (load_more_windows_cover sales_frame 2 2) as Hcover.
  cbn [seq map concat] in Hcover. rewrite app_nil_r in Hcover.
  etransitivity; [apply Hcover; lia | reflexivity].
Defined.

Lemma load_more_data_absolute_name_witness :
  exists end_row has_more,
    sample_load_more (LoadMore.mkRequest (Some "/srv/sales.xlsx") None None)
    = LoadMore.Page 3%nat 0 end_row has_more.
Proof.
  exact (load_more_data_absolute_name sample_to_json sample_path_exists
           sample_extract_pdf sample_read_csv sample_read_excel
           (LoadMore.mkRequest (Some "/srv/sales.xlsx") None None)
           "srv/sales.xlsx" sales_frame 3%nat eq_refl eq_refl eq_refl
           eq_refl).
Defined.

Lemma yandex_analysis_missing_settings_witness :
  YandexRoute.create_yandex_analyzer ∅ sample_sdk sample_completions = None
  /\ exists status error,
       YandexRoute.yandex_analysis ∅ sample_sdk sample_completions sample_run
         sample_str sample_path_exists sample_extract_pdf sample_read_csv
         sample_read_excel sample_to_records
         (Some "20250918_214023_sales.csv")
       = YandexRoute.JsonError status error.
Proof.
  apply (yandex_analysis_missing_settings ∅ sample_sdk sample_completions
           sample_run sample_str sample_path_exists sample_extract_pdf
           sample_read_csv sample_read_excel sample_to_records).
  left. reflexivity.
Defined.

Lemma add_data_table_rows_witness :
  exists data_rows,
    DataTable.table_rows (PyStr.strip PyStr.is_space) PyStr.py_len
      PyStr.py_take sample_str_value sample_format_2f
      sample_records ["make"; "year"; "price"]
    = Ok (["make"; "year"; "price"] :: data_rows)
    /\ length data_rows = 2%nat
    /\ Forall (fun r => length r = 3%nat) data_rows.
Proof.
  destruct (add_data_table_rows (PyStr.strip PyStr.is_space) PyStr.py_len
              PyStr.py_take sample_str_value
              sample_format_2f sample_paragraph sample_make_table
              sample_generator sample_records ["make"; "year"; "price"])
    as (data_rows & Hrows & Hlen & Hwidth & _).
  - done.
  - done.
  - intros row col Hrow Hcol. cbn [take sample_records] in Hrow.
    rewrite !elem_of_cons, elem_of_nil in Hrow.
    rewrite !elem_of_cons, elem_of_nil in Hcol.
    destruct Hrow as [->|[->|[]]]; destruct Hcol as [->|[->|[->|[]]]];
      by split.
  - exists data_rows. split; [exact Hrows|]. split; [exact Hlen | exact Hwidth].
Defined.

End RouteExamples.

(** * Markdown of an analysis as report elements *)

Section MarkdownFacts.
Import PyStr PdfReport Markdown.
Variable py_strip : string -> string.
Variable inline_markup : string -> string.
Variable paragraph : string -> string -> result flowable.
Variable g : generator.

Local Abbreviation ai_paragraph := (ai_paragraph paragraph g).
Local Abbreviation flush := (flush paragraph g).
Local Abbreviation flush_marked := (flush_marked inline_markup paragraph g).
Local Abbreviation heading := (heading paragraph g).
Local Abbreviation line_step :=
  (line_step py_strip inline_markup paragraph g).
Local Abbreviation convert_markdown_to_reportlab :=
  (convert_markdown_to_reportlab py_strip inline_markup paragraph g).

(** What stands in front of a spacer: a rule, or a paragraph in the
    analysis style. *)
Local Abbreviation content :=
  (fun f => f = HRFlowable 1
            \/ exists text, paragraph text "AIAnalysis" = Ok f).
Local Abbreviation paired := (in_pairs content).

Lemma in_pairs_app (l1 l2 : list flowable) :
  paired l1 -> paired l2 -> paired (l1 ++ l2)%list.
Proof.
  induction 1 as [|f h rest Hf Hh Hrest IH]; intros H2; [done|].
  cbn [app]. by constructor; [| |apply IH].
Qed.

Lemma in_pairs_even (l : list flowable) :
  paired l -> Nat.even (length l) = true.
Proof. induction 1 as [|f h rest Hf Hh Hrest IH]; [done|]. exact IH. Qed.

Lemma ai_paragraph_content (text : string) (p : flowable) :
  ai_paragraph text = Ok p -> content p.
Proof.
  unfold Markdown.ai_paragraph, style_of.
  destruct (decide _); [|done]. cbn. intros H. right. by exists text.
Qed.

Lemma paired_snoc (elements : list flowable) (f : flowable) (h : Z) :
  paired elements -> content f -> h ∈ [2; 4; 6; 8]%Z ->
  paired (elements ++ [f; Spacer 1 h])%list.
Proof.
  intros He Hf Hh. apply in_pairs_app; [done|].
  constructor; [done..|constructor].
Qed.

Lemma flush_paired (elements elements' : list flowable)
    (current : list string) :
  flush elements current = Ok elements' ->
  paired elements -> paired elements'.
Proof.
  unfold Markdown.flush. destruct current as [|l ls]; [by intros [= <-]|].
  intros H He. apply bind_ok_inv in H as (p & Hp & H). injection H as <-.
  apply paired_snoc; [done|by eapply ai_paragraph_content|in_list].
Qed.

Lemma flush_marked_paired (elements elements' : list flowable)
    (current : list string) :
  flush_marked elements current = Ok elements' ->
  paired elements -> paired elements'.
Proof.
  unfold Markdown.flush_marked.
  destruct current as [|l ls]; [by intros [= <-]|].
  intros H He. apply bind_ok_inv in H as (p & Hp & H). injection H as <-.
  apply paired_snoc; [done|by eapply ai_paragraph_content|in_list].
Qed.

Lemma heading_paired (elements : list flowable) (current : list string)
    (text : string) (space : Z) (state : list flowable * list string) :
  heading elements current text space = Ok state ->
  space ∈ [2; 4; 6; 8]%Z ->
  paired elements -> paired state.1.
Proof.
  unfold Markdown.heading. intros H Hs He.
  apply bind_ok_inv in H as (els & Hf & H).
  apply bind_ok_inv in H as (p & Hp & H). injection H as <-. cbn [fst].
  apply paired_snoc; [by eapply flush_paired|
                      by eapply ai_paragraph_content|done].
Qed.

Lemma line_step_paired (state state' : list flowable * list string)
    (line : string) :
  line_step state line = Ok state' -> paired state.1 -> paired state'.1.
Proof.
  destruct state as [elements current]. unfold Markdown.line_step. cbn [fst].
  intros H He.
  repeat match type of H with
         | (if ?b then _ else _) = _ => destruct b
         end;
    try (eapply heading_paired; [exact H | in_list | exact He]).
  - apply bind_ok_inv in H as (els & Hf & H). injection H as <-. cbn [fst].
    apply paired_snoc; [by eapply flush_paired|by left|in_list].
  - apply bind_ok_inv in H as (els & Hf & H). injection H as <-. cbn [fst].
    by eapply flush_marked_paired.
  - by injection H as <-.
Qed.

Lemma foldM_paired (lines : list string)
    (state state' : list flowable * list string) :
  foldM line_step state lines = Ok state' ->
  paired state.1 -> paired state'.1.
Proof.
  revert state. induction lines as [|line lines IH]; intros state;
    cbn [foldM].
  - by intros [= <-].
  - intros H He. apply bind_ok_inv in H as (s & Hs & H).
    eapply IH; [exact H|]. by eapply line_step_paired.
Qed.

Section Total.
Hypothesis Hstyle : "AIAnalysis" ∈ styles g.
Hypothesis Hparagraph : forall text, exists p, paragraph text "AIAnalysis" = Ok p.

Lemma ai_paragraph_total (text : string) : exists p, ai_paragraph text = Ok p.
Proof.
  unfold Markdown.ai_paragraph, style_of.
  destruct (decide _); [|done]. cbn. apply Hparagraph.
Qed.

Lemma flush_total (elements : list flowable) (current : list string) :
  exists elements', flush elements current = Ok elements'.
Proof.
  unfold Markdown.flush. destruct current as [|l ls]; [by eexists|].
  destruct (ai_paragraph_total (join " " (l :: ls))) as [p ->]. by eexists.
Qed.

Lemma flush_marked_total (elements : list flowable) (current : list string) :
  exists elements', flush_marked elements current = Ok elements'.
Proof.
  unfold Markdown.flush_marked. destruct current as [|l ls]; [by eexists|].
  destruct (ai_paragraph_total (inline_markup (join " " (l :: ls))))
    as [p ->].
  by eexists.
Qed.

Lemma heading_total (elements : list flowable) (current : list string)
    (text : string) (space : Z) :
  exists state, heading elements current text space = Ok state.
Proof.
  unfold Markdown.heading.
  destruct (flush_total elements current) as [els ->]. cbn.
  destruct (ai_paragraph_total text) as [p ->]. by eexists.
Qed.

Lemma line_step_total (state : list flowable * list string) (line : string) :
  exists state', line_step state line = Ok state'.
Proof.
  destruct state as [elements current]. unfold Markdown.line_step.
  repeat match goal with
         | |- exists _, (if ?b then _ else _) = _ => destruct b
         end;
    try apply heading_total.
  - destruct (flush_total elements current) as [els ->]. by eexists.
  - destruct (flush_marked_total elements current) as [els ->]. by eexists.
  - by eexists.
Qed.

Lemma foldM_total (lines : list string)
    (state : list flowable * list string) :
  exists state', foldM line_step state lines = Ok state'.
Proof.
  revert state. induction lines as [|line lines IH]; intros state;
    cbn [foldM]; [by eexists|].
  destruct (line_step_total state line) as [s ->]. apply IH.
Qed.

Lemma convert_markdown_total (text : string) :
  exists elements, convert_markdown_to_reportlab text = Ok elements.
Proof.
  unfold Markdown.convert_markdown_to_reportlab.
  destruct (_ || _); [by eexists|].
  destruct (foldM_total (split_on (ascii_of_nat 10) text) ([], []))
    as [state ->].
  apply flush_marked_total.
Qed.

End Total.

(** The elements of a converted text come in pairs: a paragraph in the
    analysis style, or a rule, followed by a spacer of height 2, 4, 6 or 8;
    so their number is even and no two paragraphs touch.  A blank text gives
    no element.  The conversion returns whenever the generator has the
    analysis style and reportlab accepts every paragraph. *)
Theorem convert_markdown_in_pairs (text : string) :
  (forall elements,
      convert_markdown_to_reportlab text = Ok elements ->
      paired elements
      /\ Nat.even (length elements) = true
      /\ (text = "" \/ py_strip text = "" -> elements = []))
  /\ ("AIAnalysis" ∈ styles g ->
      (forall text, exists p, paragraph text "AIAnalysis" = Ok p) ->
      exists elements, convert_markdown_to_reportlab text = Ok elements).
Proof.
  split; [|intros; by apply convert_markdown_total].
  unfold Markdown.convert_markdown_to_reportlab. intros elements H.
  destruct (String.eqb text "" || String.eqb (py_strip text) "") eqn:Hblank.
  - injection H as <-. split; [constructor|]. by split.
  - apply bind_ok_inv in H as (state & Hfold & H).
    assert (Hp : paired elements).
    { eapply flush_marked_paired; [exact H|].
      eapply foldM_paired; [exact Hfold | constructor]. }
    split; [exact Hp|]. split; [by apply in_pairs_even|].
    apply orb_false_iff in Hblank as [H1 H2].
    apply String.eqb_neq in H1, H2. by intros [|].
Qed.

End MarkdownFacts.
